(** * VIRT name registry and resolver

    A shallow embedding of the VIRT naming scheme:
    - the navigation validator [isValidVirtUrl] of the desktop shell,
    - the [Site] schema of the registry store (models/Site.js),
    - the registrar routes check / register / update / delete / lookup /
      search (routes/sites),
    - the [virt://] protocol handler of the shell (the resolver client),
    - the navigation handler and the bookmark handlers of the shell, the
      checks of the preload bridge, and the origin policy of the server.

    Vocabulary. The design document speaks of a name record with a
    [label], a [tag], a [secretDigest] and a [secret]; the code calls them
    [domain], [tld], [secretKeyHash] and [secretKey], and the composed name
    [label.tag] of a registration is sent in the field [domain]. The
    embedding keeps the names of the code.

    Conventions of the embedding.
    - A JavaScript string is a [string]: a sequence of character codes
      below 256. Only what the code does with strings is modelled (prefix
      and suffix tests, first-occurrence replacement, lower-casing).
    - Request bodies are typed: every field is either absent ([None]) or a
      string ([Some s]).
    - Responses are JSON values as [res.json] would serialise them; a field
      whose value is [undefined] is omitted.
    - The database is the list of stored documents, in insertion order.
      Mongoose is modelled from the schema: setters run on documents and on
      query filters, [save] validates the whole document before it writes,
      and [unique: true] is an index of the collection whose violation is a
      server error, not a validation error. The text index, bcrypt and the
      text of mongoose's validation messages are taken as parameters. The
      database is assumed reachable: a [save] fails only on validation or
      on the unique index.
    - A promise is modelled by the way it settles, and the body of an
      [async] function by the way its statements complete, so that
      [return p] and [return await p] inside [try] are told apart. *)

From Stdlib Require Import String Ascii List Bool Arith ZArith Lia.
From Stdlib Require Strings.Byte.
Import ListNotations.
Open Scope string_scope.

(* ================================================================== *)
(** * Definitions *)
(* ================================================================== *)

(** ** JavaScript string primitives used by the code *)
Module JsString.

(** [s.startsWith(p)] *)
Fixpoint startsWith (s p : string) {struct p} : bool :=
  match p with
  | EmptyString => true
  | String c p' =>
      match s with
      | EmptyString => false
      | String d s' => Ascii.eqb d c && startsWith s' p'
      end
  end.

(** [s.endsWith(p)]: some suffix of [s] is [p]. *)
Fixpoint endsWith (s p : string) : bool :=
  String.eqb s p ||
  match s with
  | EmptyString => false
  | String _ s' => endsWith s' p
  end.

(** [s.slice(n)] for [n >= 0]. *)
Fixpoint slice (n : nat) (s : string) : string :=
  match n, s with
  | O, _ => s
  | S n', String _ s' => slice n' s'
  | S _, EmptyString => EmptyString
  end.

(** [s.replace(pat, rep)] with a string pattern: only the first
    occurrence is replaced. No replacement text of the code contains
    a dollar sign, so [rep] is inserted as it is. *)
Fixpoint replace (s pat rep : string) : string :=
  if startsWith s pat then rep ++ slice (String.length pat) s
  else match s with
       | EmptyString => EmptyString
       | String c s' => String c (replace s' pat rep)
       end.

(** [s.replace(/\/$/, '')]: a slash is removed when it is the last
    character. *)
Fixpoint dropTrailingSlash (s : string) : string :=
  match s with
  | EmptyString => EmptyString
  | String c EmptyString => if Ascii.eqb c "/" then EmptyString else s
  | String c s' => String c (dropTrailingSlash s')
  end.

(** The lower-case form of a character code below 256: the capitals
    [A]-[Z] and the capitals of the Latin-1 supplement, U+00C0-U+00DE
    without the multiplication sign U+00D7, move up by 32. *)
Definition lowerChar (c : ascii) : ascii :=
  let n := nat_of_ascii c in
  if ((65 <=? n) && (n <=? 90)
      || (192 <=? n) && (n <=? 214)
      || (216 <=? n) && (n <=? 222))%nat
  then ascii_of_nat (n + 32)%nat else c.

(** [s.toLowerCase()] *)
Fixpoint toLowerCase (s : string) : string :=
  match s with
  | EmptyString => EmptyString
  | String c s' => String (lowerChar c) (toLowerCase s')
  end.

(** [s.split('.')] *)
Fixpoint split_dot (s : string) : list string :=
  match s with
  | EmptyString => [EmptyString]
  | String c s' =>
      if Ascii.eqb c "." then EmptyString :: split_dot s'
      else match split_dot s' with
           | h :: t => String c h :: t
           | [] => [String c EmptyString]
           end
  end.

(** [list.includes(x)] on strings *)
Definition includes (l : list string) (x : string) : bool :=
  existsb (String.eqb x) l.

Definition isDigit (c : ascii) : bool :=
  let n := nat_of_ascii c in ((48 <=? n) && (n <=? 57))%nat.

(** The longest run of digits at the head of [s]: its length and what
    follows it. *)
Fixpoint spanDigits (s : string) : nat * string :=
  match s with
  | String c s' =>
      if isDigit c then let (n, r) := spanDigits s' in (S n, r)
      else (O, s)
  | EmptyString => (O, EmptyString)
  end.

(** The characters the regular expression dot does not match, among the
    character codes of the embedding. *)
Definition isLineTerminator (c : ascii) : bool :=
  Ascii.eqb c "010" || Ascii.eqb c "013".

End JsString.

(** ** JSON values, as the routes send them *)
Module Json.

#[warnings="-register-all"]
Inductive json : Type :=
| JNull
| JBool (b : bool)
| JNum (n : Z)
| JStr (s : string)
| JDate (t : Z)                           (* a Date, sent as its ISO text *)
| JArr (items : list json)
| JObj (fields : list (string * json)).

(** Every field name that occurs in a value, at any depth. *)
Fixpoint json_keys (j : json) : list string :=
  match j with
  | JArr items => flat_map json_keys items
  | JObj fields => flat_map (fun '(k, v) => k :: json_keys v) fields
  | _ => []
  end.

Fixpoint assoc (k : string) (fields : list (string * json)) : option json :=
  match fields with
  | [] => None
  | (k', v) :: rest => if String.eqb k k' then Some v else assoc k rest
  end.

(** [j.k] for an object [j]; [None] stands for [undefined]. *)
Definition json_get (k : string) (j : json) : option json :=
  match j with
  | JObj fields => assoc k fields
  | _ => None
  end.

(** A field whose value may be [undefined]: omitted from the output. *)
Definition opt_field (k : string) (v : option string) : list (string * json) :=
  match v with
  | Some s => [(k, JStr s)]
  | None => []
  end.

End Json.

(** ** The navigation validator of the shell *)
Module Validator.
Import JsString.

Definition validTlds : list string := [".vc"; ".vmc"; ".at"; ".lit"].

Definition systemPages : list string :=
  ["virt://register.at"; "virt://lookin.at"; "virt://v12browser.vc"].

Definition isValidVirtUrl (url : string) : bool :=
  let isSystemPage :=
    String.eqb url "virt://register.at" || String.eqb url "virt://lookin.at"
    || String.eqb url "virt://v12browser.vc" in
  let hasValidTld := existsb (fun tld => endsWith url tld) validTlds in
  startsWith url "virt://" && (isSystemPage || hasValidTld).

(** The [will-navigate] guard of the main window: [true] when the
    navigation is let through. *)
Definition willNavigate (url : string) : bool :=
  negb (negb (isValidVirtUrl url) && negb (startsWith url "https://")).

End Validator.

(** ** The registry store: the [Site] schema and the collection *)
Module Store.
Import JsString.

Record Site : Type := mkSite {
  _id : nat;
  domain : string;
  tld : string;
  target : string;
  secretKeyHash : string;
  title : option string;
  description : option string;
  verified : bool;
  createdAt : Z;
  lastAccessed : Z;
  keywords : list string;
  bodyText : option string;
  indexedAt : Z
}.

(** The collection, in insertion order. *)
Definition Collection : Type := list Site.

Definition with_id (n : nat) (s : Site) : Site :=
  mkSite n (domain s) (tld s) (target s) (secretKeyHash s) (title s)
         (description s) (verified s) (createdAt s) (lastAccessed s)
         (keywords s) (bodyText s) (indexedAt s).

Definition with_target (v : string) (s : Site) : Site :=
  mkSite (_id s) (domain s) (tld s) v (secretKeyHash s) (title s)
         (description s) (verified s) (createdAt s) (lastAccessed s)
         (keywords s) (bodyText s) (indexedAt s).

Definition with_secretKeyHash (v : string) (s : Site) : Site :=
  mkSite (_id s) (domain s) (tld s) (target s) v (title s)
         (description s) (verified s) (createdAt s) (lastAccessed s)
         (keywords s) (bodyText s) (indexedAt s).

Definition with_title (v : option string) (s : Site) : Site :=
  mkSite (_id s) (domain s) (tld s) (target s) (secretKeyHash s) v
         (description s) (verified s) (createdAt s) (lastAccessed s)
         (keywords s) (bodyText s) (indexedAt s).

Definition with_description (v : option string) (s : Site) : Site :=
  mkSite (_id s) (domain s) (tld s) (target s) (secretKeyHash s) (title s)
         v (verified s) (createdAt s) (lastAccessed s)
         (keywords s) (bodyText s) (indexedAt s).

Definition with_lastAccessed (v : Z) (s : Site) : Site :=
  mkSite (_id s) (domain s) (tld s) (target s) (secretKeyHash s) (title s)
         (description s) (verified s) (createdAt s) v
         (keywords s) (bodyText s) (indexedAt s).

(** The [enum] of the [tld] path; the routes test the same list. *)
Definition tlds : list string := ["vc"; "vmc"; "at"; "lit"].

(** [/^https:\/\/.+/.test(v)] *)
Definition isHttpsUrl (v : string) : bool :=
  startsWith v "https://" &&
  match slice 8 v with
  | String c _ => negb (isLineTerminator c)
  | EmptyString => false
  end.

(** Between [lo] and [hi] digits, all the digits there are at the head of
    [s]; what follows them is returned. *)
Definition digits (lo hi : nat) (s : string) : option string :=
  let (n, r) := spanDigits s in
  if ((lo <=? n) && (n <=? hi))%nat then Some r else None.

Definition char (c : ascii) (s : string) : option string :=
  match s with
  | String d r => if Ascii.eqb d c then Some r else None
  | EmptyString => None
  end.

Definition andThen {A B : Type} (o : option A) (k : A -> option B) : option B :=
  match o with
  | Some a => k a
  | None => None
  end.

(** [(\d{1,3}\.)] *)
Definition octetDot (s : string) : option string :=
  andThen (digits 1 3 s) (char ".").

(** [/^(\d{1,3}\.){3}\d{1,3}(:\d{1,5})?$/.test(v)] *)
Definition isIpWithPort (v : string) : bool :=
  match andThen (andThen (andThen (octetDot v) octetDot) octetDot) (digits 1 3) with
  | Some EmptyString => true
  | Some (String c r) =>
      Ascii.eqb c ":" &&
      match digits 1 5 r with
      | Some EmptyString => true
      | _ => false
      end
  | None => false
  end.

(** The validator of the [target] path. *)
Definition targetValidator (v : string) : bool :=
  isHttpsUrl v || isIpWithPort v.

Definition maxlength (n : nat) (v : option string) : bool :=
  match v with
  | Some s => (String.length s <=? n)%nat
  | None => true
  end.

Definition nonEmpty (s : string) : bool :=
  negb (String.eqb s "").

Definition failing (path : string) (ok : bool) : list string :=
  if ok then [] else [path].

(** Schema validation of a document: the paths that fail, in the order of
    the schema. *)
Definition validate (s : Site) : list string :=
  failing "domain" (nonEmpty (domain s) && (3 <=? String.length (domain s))%nat
                  && (String.length (domain s) <=? 63)%nat)
  ++ failing "tld" (nonEmpty (tld s) && includes tlds (tld s))
  ++ failing "target" (nonEmpty (target s) && targetValidator (target s))
  ++ failing "secretKeyHash" (nonEmpty (secretKeyHash s))
  ++ failing "title" (maxlength 100 (title s))
  ++ failing "description" (maxlength 500 (description s)).

(** What a rejected [save] throws: [error.name] is ['ValidationError'], or
    the server's duplicate-key error of a unique index. *)
Inductive SaveError : Type :=
| ValidationError (paths : list string)
| DuplicateKey (index : string).

(** [Site.findOne({ domain, tld })]: the filter is cast through the schema,
    which runs the [lowercase] setter of [domain]; the first match in
    insertion order is returned. *)
Definition findOne (db : Collection) (d t : string) : option Site :=
  find (fun s => String.eqb (domain s) (toLowerCase d) && String.eqb (tld s) t) db.

Definition freshId (db : Collection) : nat :=
  S (list_max (map _id db)).

(** [doc.save()] of a new document: validation first, then the insert,
    which the unique index on [domain] can refuse. *)
Definition saveNew (db : Collection) (doc : Site) : SaveError + Collection :=
  match validate doc with
  | [] =>
      if existsb (fun s => String.eqb (domain s) (domain doc)) db
      then inl (DuplicateKey "domain")
      else inr (db ++ [with_id (freshId db) doc])%list
  | paths => inl (ValidationError paths)
  end.

Fixpoint replaceById (doc : Site) (db : Collection) : Collection :=
  match db with
  | [] => []
  | s :: rest =>
      if (_id s =? _id doc)%nat then doc :: rest
      else s :: replaceById doc rest
  end.

(** [doc.save()] of a document read from the collection: validation, then
    the stored document with the same [_id] is replaced. No route changes
    [domain], so the unique index is not involved. *)
Definition save (db : Collection) (doc : Site) : SaveError + Collection :=
  match validate doc with
  | [] => inr (replaceById doc db)
  | paths => inl (ValidationError paths)
  end.

(** [Site.deleteOne({ _id })] *)
Fixpoint deleteOne (id : nat) (db : Collection) : Collection :=
  match db with
  | [] => []
  | s :: rest =>
      if (_id s =? id)%nat then rest else s :: deleteOne id rest
  end.

(** The state the storage layer maintains: distinct [_id]s, the unique
    index on [domain], and documents that passed validation. *)
Definition wellFormed (db : Collection) : Prop :=
  NoDup (map _id db) /\ NoDup (map domain db) /\
  Forall (fun s => validate s = []) db.

End Store.

(** ** The registrar routes *)
Module Registrar.
Import JsString Json Store.

(** Libraries the routes call and the repository does not contain. *)
Record Externals : Type := {
  (* bcrypt.hash(data, rounds), with the salt it draws *)
  bcrypt_hash : string -> nat -> string -> string;
  (* bcrypt.compare(data, hash) *)
  bcrypt_compare : string -> string -> bool;
  (* find({ $text: { $search: q } }).sort({ score }): the matches, ranked *)
  textSearch : string -> Collection -> list Site;
  (* error.message of a ValidationError *)
  validationMessage : list string -> string
}.

(** What a request reads from outside: the clock and the random sources. *)
Record Env : Type := {
  now : Z;
  randomBytes : nat -> list Byte.byte;
  salt : string
}.

Record Response : Type := {
  status : nat;
  body : json
}.

(** [res.status(n).json({ error: msg })] *)
Definition fail (n : nat) (msg : string) : Response :=
  {| status := n; body := JObj [("error", JStr msg)] |}.

(** [res.json(j)] *)
Definition ok (j : json) : Response :=
  {| status := 200; body := j |}.

(** Truthiness of a field that is absent or a string. *)
Definition truthy (v : option string) : bool :=
  match v with
  | Some s => nonEmpty s
  | None => false
  end.

Definition str (v : option string) : string :=
  match v with
  | Some s => s
  | None => ""
  end.

Definition hexDigit (n : nat) : ascii :=
  nth n ["0"; "1"; "2"; "3"; "4"; "5"; "6"; "7"; "8"; "9";
         "a"; "b"; "c"; "d"; "e"; "f"]%char "0"%char.

(** [buffer.toString('hex')] *)
Fixpoint toHex (bytes : list Byte.byte) : string :=
  match bytes with
  | [] => ""
  | b :: rest =>
      let n := Byte.to_nat b in
      String (hexDigit (n / 16)) (String (hexDigit (n mod 16)) (toHex rest))
  end.

(** [`v12-${crypto.randomBytes(8).toString('hex')}`] *)
Definition secretKeyOf (e : Env) : string :=
  "v12-" ++ toHex (randomBytes e 8).

(** The rewrite of [lookup]: a GitHub page address becomes the address of
    the raw content. *)
Definition rawBaseOf (target : string) : string :=
  if startsWith target "https://github.com/" then
    dropTrailingSlash
      (replace (replace target "github.com" "raw.githubusercontent.com")
               "/blob/" "/")
    ++ "/"
  else target.

Record RegisterBody : Type := {
  reg_domain : option string;
  reg_tld : option string;
  reg_target : option string;
  reg_title : option string;
  reg_description : option string
}.

Record UpdateBody : Type := {
  upd_domain : option string;
  upd_tld : option string;
  upd_secretKey : option string;
  upd_target : option string;
  upd_title : option string;
  upd_description : option string
}.

Record DeleteBody : Type := {
  del_domain : option string;
  del_tld : option string;
  del_secretKey : option string
}.

(** [new Site({ domain, tld, target, secretKeyHash, title, description })]:
    the setters and the defaults of the schema are applied. *)
Definition newSite (e : Env) (d t g h : string) (ti de : option string) : Site :=
  {| _id := 0; domain := toLowerCase d; tld := t; target := g;
     secretKeyHash := h; title := ti; description := de;
     verified := false; createdAt := now e; lastAccessed := now e;
     keywords := []; bodyText := None; indexedAt := now e |}.

Definition registered (d t secretKey : string) : json :=
  JObj [("success", JBool true);
        ("domain", JStr (d ++ "." ++ t));
        ("secretKey", JStr secretKey);
        ("message", JStr "SAVE THIS KEY! If you lose it, you cannot update your site.")].

Definition lookupView (site : Site) : json :=
  JObj ([("domain", JStr (domain site));
         ("tld", JStr (tld site));
         ("target", JStr (target site));
         ("rawBase", JStr (rawBaseOf (target site)))]
        ++ opt_field "title" (title site)
        ++ opt_field "description" (description site)
        ++ [("verified", JBool (verified site));
            ("createdAt", JDate (createdAt site));
            ("lastAccessed", JDate (lastAccessed site))]).

Definition updateView (site : Site) : json :=
  JObj ([("domain", JStr (domain site));
         ("tld", JStr (tld site));
         ("target", JStr (target site))]
        ++ opt_field "title" (title site)
        ++ opt_field "description" (description site)
        ++ [("lastAccessed", JDate (lastAccessed site))]).

Definition searchView (site : Site) : json :=
  JObj ([("domain", JStr (domain site));
         ("tld", JStr (tld site))]
        ++ opt_field "title" (title site)
        ++ opt_field "description" (description site)).

(** The assignments of [PUT /update] on the document it found. *)
Definition applyUpdate (e : Env) (b : UpdateBody) (site : Site) : Site :=
  let s1 := if truthy (upd_target b) then with_target (str (upd_target b)) site
            else site in
  let s2 := match upd_title b with
            | Some _ => with_title (upd_title b) s1
            | None => s1
            end in
  let s3 := match upd_description b with
            | Some _ => with_description (upd_description b) s2
            | None => s2
            end in
  with_lastAccessed (now e) s3.

Section Routes.
Variable X : Externals.

(** GET /check/:domain *)
Definition check (db : Collection) (d : string) (t : option string)
  : Response * Collection :=
  if negb (truthy t) || negb (includes tlds (str t)) then
    (fail 400 "Invalid TLD", db)
  else
    let available :=
      match findOne db d (str t) with Some _ => false | None => true end in
    (ok (JObj [("domain", JStr d);
               ("tld", JStr (str t));
               ("available", JBool available);
               ("message", JStr (if available then "Domain is available"
                                 else "Domain is already registered"))]),
     db).

(** The document [register] builds for a request. *)
Definition siteOf (e : Env) (b : RegisterBody) : Site :=
  newSite e (str (reg_domain b)) (str (reg_tld b)) (str (reg_target b))
          (bcrypt_hash X (secretKeyOf e) 10 (salt e))
          (reg_title b) (reg_description b).

(** POST /register *)
Definition register (db : Collection) (e : Env) (b : RegisterBody)
  : Response * Collection :=
  if negb (truthy (reg_domain b)) || negb (truthy (reg_tld b))
     || negb (truthy (reg_target b)) then
    (fail 400 "Missing required fields", db)
  else if negb (includes tlds (str (reg_tld b))) then
    (fail 400 "Invalid TLD", db)
  else
    match findOne db (str (reg_domain b)) (str (reg_tld b)) with
    | Some _ => (fail 409 "Domain already registered", db)
    | None =>
        let secretKey := secretKeyOf e in
        let saltRounds := 10%nat in
        let secretKeyHash := bcrypt_hash X secretKey saltRounds (salt e) in
        let newSite := newSite e (str (reg_domain b)) (str (reg_tld b))
                               (str (reg_target b)) secretKeyHash
                               (reg_title b) (reg_description b) in
        match saveNew db newSite with
        | inr db' =>
            ({| status := 201;
                body := registered (str (reg_domain b)) (str (reg_tld b)) secretKey |},
             db')
        | inl (ValidationError paths) =>
            (fail 400 (validationMessage X paths), db)
        | inl _ => (fail 500 "Server error", db)
        end
    end.

(** PUT /update *)
Definition update (db : Collection) (e : Env) (b : UpdateBody)
  : Response * Collection :=
  if negb (truthy (upd_domain b)) || negb (truthy (upd_tld b))
     || negb (truthy (upd_secretKey b)) then
    (fail 400 "Missing required fields", db)
  else if negb (includes tlds (str (upd_tld b))) then
    (fail 400 "Invalid TLD", db)
  else
    match findOne db (str (upd_domain b)) (str (upd_tld b)) with
    | None => (fail 404 "Domain not found", db)
    | Some site =>
        let isValidKey :=
          bcrypt_compare X (str (upd_secretKey b)) (secretKeyHash site) in
        if negb isValidKey then (fail 401 "Invalid secret key", db)
        else
          let site' := applyUpdate e b site in
          match save db site' with
          | inr db' =>
              (ok (JObj [("success", JBool true);
                         ("message", JStr "Domain updated successfully");
                         ("site", updateView site')]),
               db')
          | inl _ => (fail 500 "Server error", db)
          end
    end.

(** DELETE /delete *)
Definition delete (db : Collection) (b : DeleteBody) : Response * Collection :=
  if negb (truthy (del_domain b)) || negb (truthy (del_tld b))
     || negb (truthy (del_secretKey b)) then
    (fail 400 "Missing required fields", db)
  else if negb (includes tlds (str (del_tld b))) then
    (fail 400 "Invalid TLD", db)
  else
    match findOne db (str (del_domain b)) (str (del_tld b)) with
    | None => (fail 404 "Domain not found", db)
    | Some site =>
        let isValidKey :=
          bcrypt_compare X (str (del_secretKey b)) (secretKeyHash site) in
        if negb isValidKey then (fail 401 "Invalid secret key", db)
        else
          (ok (JObj [("success", JBool true);
                     ("message", JStr "Domain deleted successfully")]),
           deleteOne (_id site) db)
    end.

(** GET /lookup/:domain/:tld *)
Definition lookup (db : Collection) (e : Env) (d t : string)
  : Response * Collection :=
  if negb (includes tlds t) then (fail 400 "Invalid TLD", db)
  else
    match findOne db d t with
    | None => (fail 404 "Domain not found", db)
    | Some site =>
        let site' := with_lastAccessed (now e) site in
        match save db site' with
        | inr db' => (ok (lookupView site'), db')
        | inl _ => (fail 500 "Server error", db)
        end
    end.

(** GET /search *)
Definition search (db : Collection) (q : option string) : Response * Collection :=
  if negb (truthy q) then (fail 400 "Query parameter required", db)
  else
    let results := firstn 20 (textSearch X (str q) db) in
    (ok (JArr (map searchView results)), db).

End Routes.
End Registrar.

(** ** The resolver client: the handler of the [virt] scheme *)
Module Resolver.
Import JsString Json.

Inductive JsError : Type :=
| TypeError
| SyntaxError
| FetchError (reason : string).

(** A promise, by the way it settles. *)
Inductive Settled (A : Type) : Type :=
| Fulfilled (a : A)
| Rejected (e : JsError).
Arguments Fulfilled {A} a.
Arguments Rejected {A} e.

(** How a statement of an [async] function completes: it falls through to
    the next statement, it returns the value of its [return] expression (a
    promise when the expression is a call that was not awaited; a plain
    value counts as a promise fulfilled with it), or it throws. *)
Inductive Completion (R : Type) : Type :=
| Next
| Return (p : Settled R)
| Throw (e : JsError).
Arguments Next {R}.
Arguments Return {R} p.
Arguments Throw {R} e.

(** [s1; s2] *)
Definition seq {R : Type} (s1 s2 : Completion R) : Completion R :=
  match s1 with
  | Next => s2
  | _ => s1
  end.

(** [try { s } catch (error) { h error }]: only a throw of [s] reaches the
    handler; a promise that [s] returns is handed on unopened. *)
Definition tryCatch {R : Type} (s : Completion R) (h : JsError -> Completion R)
  : Completion R :=
  match s with
  | Throw e => h e
  | _ => s
  end.

(** [const a = await p; k a]: a rejection of [p] is thrown here. *)
Definition await {A R : Type} (p : Settled A) (k : A -> Completion R)
  : Completion R :=
  match p with
  | Fulfilled a => k a
  | Rejected e => Throw e
  end.

(** The promise an [async] function returns for a body that completes as
    [s]: it adopts a returned promise, rejects on a throw, and is fulfilled
    with [undefined] ([None]) when the body falls off its end. *)
Definition async {R : Type} (s : Completion R) : Settled (option R) :=
  match s with
  | Return (Fulfilled r) => Fulfilled (Some r)
  | Return (Rejected e) => Rejected e
  | Throw e => Rejected e
  | Next => Fulfilled None
  end.

Notation "s1 ;; s2" := (seq s1 s2) (at level 61, right associativity).

Record HttpResponse : Type := {
  status : nat;
  contentType : option string;
  text : string
}.

(** [response.ok] *)
Definition ok (r : HttpResponse) : bool :=
  ((200 <=? status r) && (status r <=? 299))%nat.

(** What the handler reaches outside the process. *)
Record World : Type := {
  dirname : string;                                   (* __dirname *)
  join : list string -> string;                       (* path.join *)
  existsSync : string -> bool;                        (* fs.existsSync *)
  (* net.fetch(input): the promise it returns; [None] is [undefined] *)
  net_fetch : option json -> Settled HttpResponse;
  parse : string -> option json                       (* JSON.parse *)
}.

Definition fetch (w : World) (url : string) : Settled HttpResponse :=
  net_fetch w (Some (JStr url)).

(** [response.json()] *)
Definition json_of (w : World) (r : HttpResponse) : Settled json :=
  match parse w (text r) with
  | Some j => Fulfilled j
  | None => Rejected SyntaxError
  end.

(** [v.target] for a parsed JSON value [v]: a [TypeError] on [null],
    [undefined] unless [v] is an object with that field. *)
Definition targetOf (v : json) : JsError + option json :=
  match v with
  | JNull => inl TypeError
  | _ => inr (json_get "target" v)
  end.

Definition quote : string := String (ascii_of_nat 34) "".
Definition newline : string := String (ascii_of_nat 10) "".

Fixpoint spaces (n : nat) : string :=
  match n with
  | O => ""
  | S n' => String " " (spaces n')
  end.

(** The placeholder document, as the template literal lays it out at
    indentation [n] around the sentence [line]. *)
Definition placeholderHtml (n : nat) (line : string) : string :=
  newline
  ++ spaces n ++ "<!DOCTYPE html>" ++ newline
  ++ spaces n ++ "<html>" ++ newline
  ++ spaces n ++ "<head><title>V12 Browser</title></head>" ++ newline
  ++ spaces n ++ "<body style=" ++ quote
     ++ "font-family: sans-serif; padding: 50px; text-align: center; background: #1f2937; color: white;"
     ++ quote ++ ">" ++ newline
  ++ spaces (n + 2) ++ "<h1>Welcome to V12 Browser</h1>" ++ newline
  ++ spaces (n + 2) ++ line ++ newline
  ++ spaces (n + 2) ++ "<p><a href=" ++ quote ++ "virt://register.at" ++ quote
     ++ " style=" ++ quote ++ "color: #3b82f6;" ++ quote
     ++ ">Register this domain now!</a></p>" ++ newline
  ++ spaces n ++ "</body>" ++ newline
  ++ spaces n ++ "</html>" ++ newline
  ++ spaces (n - 2).

(** [new Response(html, { headers: { 'Content-Type': 'text/html' } })] *)
Definition htmlResponse (html : string) : HttpResponse :=
  {| status := 200; contentType := Some "text/html"; text := html |}.

(** [new Response(msg, { status })]: a response made from a text carries
    the media type of plain text. *)
Definition plainResponse (msg : string) (st : nat) : HttpResponse :=
  {| status := st; contentType := Some "text/plain;charset=UTF-8";
     text := msg |}.

(** The document of the catch around the fetch of the target. *)
Definition failedPage (hostname : string) : HttpResponse :=
  htmlResponse (placeholderHtml 16
    ("<p>Failed to load content for <strong>" ++ hostname ++ "</strong>.</p>")).

(** The document for a name that is not registered. *)
Definition notRegisteredPage (hostname : string) : HttpResponse :=
  htmlResponse (placeholderHtml 8
    ("<p>The domain <strong>" ++ hostname ++ "</strong> is not yet registered.</p>")).

Definition isIndex (pathname : string) : bool :=
  String.eqb pathname "/" || String.eqb pathname "/index.html"
  || String.eqb pathname "".

Definition lookupUrl (domain tld : string) : string :=
  "https://virt-protocol-production.up.railway.app/api/lookup/"
  ++ domain ++ "/" ++ tld.

Definition fileUrl (path : string) : string := "file://" ++ path.

(** The two system sites that serve a page with its assets. *)
Definition serveSite (w : World) (pathname index : string)
  : Completion HttpResponse :=
  let relativePath := if isIndex pathname then index else slice 1 pathname in
  let filePath := join w [dirname w; "src/assets"; relativePath] in
  if existsSync w filePath then Return (fetch w (fileUrl filePath))
  else Return (Fulfilled (plainResponse "Not Found" 404)).

(** [protocol.handle('virt', async (request) => ...)], on the [hostname]
    and the [pathname] of [new URL(request.url)]. *)
Definition handle (w : World) (hostname pathname : string)
  : Settled (option HttpResponse) :=
  async (
    (if String.eqb pathname "/favicon.ico" then
       let faviconPath := join w [dirname w; "src/assets/favicon.ico"] in
       if existsSync w faviconPath then Return (fetch w (fileUrl faviconPath))
       else Next
     else Next) ;;
    tryCatch (
      (if String.eqb hostname "register.at" then
         if isIndex pathname then
           let filePath := join w [dirname w; "src/assets/registration.html"] in
           Return (fetch w (fileUrl filePath))
         else
           let assetPath := join w [dirname w; "src/assets"; slice 1 pathname] in
           if existsSync w assetPath then Return (fetch w (fileUrl assetPath))
           else Return (Fulfilled (plainResponse "Asset not found" 404))
       else Next) ;;
      (if String.eqb hostname "lookin.at" then serveSite w pathname "search.html"
       else Next) ;;
      (if String.eqb hostname "v12browser.vc" then serveSite w pathname "sales.html"
       else Next) ;;
      (let parts := split_dot hostname in
       let domain := nth 0 parts "" in
       let tld := nth 1 parts "" in
       if negb (String.eqb domain "") && negb (String.eqb tld "") then
         tryCatch (
           await (fetch w (lookupUrl domain tld)) (fun dnsResponse =>
             if ok dnsResponse then
               await (json_of w dnsResponse) (fun siteData =>
                 tryCatch (
                   match targetOf siteData with
                   | inl err => Throw err
                   | inr target => Return (net_fetch w target)
                   end)
                 (fun _ => Return (Fulfilled (failedPage hostname))))
             else Next))
         (fun _ => Next)
       else Next) ;;
      Return (Fulfilled (notRegisteredPage hostname)))
    (fun _ => Return (Fulfilled (plainResponse "Error loading content" 500)))).

End Resolver.

(** ** The notions the properties are stated with *)
Module Contract.

(** A name is acceptable when it begins with the scheme prefix and is one
    of the three system names or ends with one of the four tag suffixes. *)
Definition acceptableName (name : string) : Prop :=
  (exists rest, name = "virt://" ++ rest) /\
  (In name Validator.systemPages \/
   exists tag pre, In tag Validator.validTlds /\ name = pre ++ tag).

(** A name the handler sends to the registrar: not a system site, and
    with a label and a tag around its first dot. *)
Definition registrable (hostname domain tld : string) : Prop :=
  hostname <> "register.at" /\ hostname <> "lookin.at" /\
  hostname <> "v12browser.vc" /\
  nth 0 (JsString.split_dot hostname) "" = domain /\
  nth 1 (JsString.split_dot hostname) "" = tld /\
  domain <> "" /\ tld <> "".

(** A document with its digest blanked, and an update request with its
    secret removed. *)
Definition withoutDigest (site : Store.Site) : Store.Site :=
  Store.with_secretKeyHash "" site.

Definition withoutSecret (b : Registrar.UpdateBody) : Registrar.UpdateBody :=
  {| Registrar.upd_domain := Registrar.upd_domain b;
     Registrar.upd_tld := Registrar.upd_tld b;
     Registrar.upd_secretKey := None;
     Registrar.upd_target := Registrar.upd_target b;
     Registrar.upd_title := Registrar.upd_title b;
     Registrar.upd_description := Registrar.upd_description b |}.

(** A response body is discreet when no field of it, at any depth, is
    called [secretKey] or [secretKeyHash]. *)
Definition discreet (j : Json.json) : Prop :=
  ~ In "secretKey" (Json.json_keys j) /\
  ~ In "secretKeyHash" (Json.json_keys j).

End Contract.

(** ** Concrete collaborators and data, for running the routes *)
Module Fixtures.
Import JsString Json Store Registrar.

(** A checksum of a text, as two bytes. *)
Definition checksum (s : string) : list Byte.byte :=
  let n := fold_left (fun acc c => ((acc * 31 + N_of_ascii c) mod 65521)%N)
                     (list_ascii_of_string s) 7%N in
  let byte k := match Byte.of_N (k mod 256)%N with
                | Some b => b
                | None => Byte.x00
                end in
  [byte (n / 256)%N; byte n].

(** A stand-in for bcrypt that keeps the shape of its interface: a digest
    carries its salt and a checksum of the salted data, and [compare]
    recomputes the checksum with the salt of the digest. *)
Definition testExternals : Externals := {|
  bcrypt_hash := fun data rounds salt =>
    "$2b$10$" ++ salt ++ toHex (checksum (salt ++ data));
  bcrypt_compare := fun data hash =>
    String.eqb hash
      ("$2b$10$" ++ substring 7 22 hash
       ++ toHex (checksum (substring 7 22 hash ++ data)));
  textSearch := fun q db =>
    filter (fun s => match title s with
                     | Some t => String.eqb t q
                     | None => false
                     end) db;
  validationMessage := fun paths =>
    "Site validation failed: " ++ String.concat ", " paths
|}.

Definition testEnv : Env := {|
  now := 1767225600000;
  randomBytes := fun n =>
    firstn n [Byte.x01; Byte.x23; Byte.x45; Byte.x67;
              Byte.x89; Byte.xab; Byte.xcd; Byte.xef];
  salt := "N9qo8uLOickgx2ZMRZoMye"
|}.

Definition laterEnv : Env := {|
  now := 1767229200000;
  randomBytes := fun n => repeat Byte.x5a n;
  salt := "IjZAgcfl7p92ldGxad68LJ"
|}.

(** The request [{ domain, tld, target }]. *)
Definition registration (d t g : string) : RegisterBody := {|
  reg_domain := Some d; reg_tld := Some t; reg_target := Some g;
  reg_title := None; reg_description := None
|}.

(** The collection after [myapp.vc] was registered in an empty one. *)
Definition oneSite : Collection :=
  snd (register testExternals [] testEnv
         (registration "myapp" "vc" "https://github.com/u/r")).

(** The secret that registration handed out. *)
Definition oneSiteKey : string := "v12-0123456789abcdef".

(** The document of [myapp.vc] in that collection. *)
Definition myapp : Site :=
  with_id 1 (siteOf testExternals testEnv
               (registration "myapp" "vc" "https://github.com/u/r")).

(** An update that clears the title and gives no target. *)
Definition clearTitle : UpdateBody := {|
  upd_domain := Some "myapp"; upd_tld := Some "vc";
  upd_secretKey := Some oneSiteKey; upd_target := None;
  upd_title := Some ""; upd_description := None
|}.

(** A deletion and an update with a secret that does not verify. *)
Definition wrongKeyDelete : DeleteBody := {|
  del_domain := Some "myapp"; del_tld := Some "vc";
  del_secretKey := Some "v12-0123456789abcdee"
|}.

Definition wrongKeyUpdate : UpdateBody := {|
  upd_domain := Some "myapp"; upd_tld := Some "vc";
  upd_secretKey := Some "v12-0123456789abcdee";
  upd_target := Some "https://example.org";
  upd_title := None; upd_description := None
|}.

(** An update with the right secret and a target of another scheme. *)
Definition badTargetUpdate : UpdateBody := {|
  upd_domain := Some "myapp"; upd_tld := Some "vc";
  upd_secretKey := Some oneSiteKey; upd_target := Some "ftp://example.org";
  upd_title := None; upd_description := None
|}.

(** The body of the registrar's answer to the lookup of [myapp.vc], cut
    down to the field the handler reads. *)
Definition lookupAnswer : string :=
  "{" ++ Resolver.quote ++ "target" ++ Resolver.quote ++ ":"
  ++ Resolver.quote ++ "https://example.com/" ++ Resolver.quote ++ "}".

(** A world in which the registrar answers and the target does not: every
    fetch outside the registrar is rejected. *)
Definition targetDown : Resolver.World := {|
  Resolver.dirname := "/app";
  Resolver.join := String.concat "/";
  Resolver.existsSync := fun _ => false;
  Resolver.net_fetch := fun input =>
    match input with
    | Some (JStr url) =>
        if String.eqb url (Resolver.lookupUrl "myapp" "vc")
        then Resolver.Fulfilled
               {| Resolver.status := 200;
                  Resolver.contentType := Some "application/json";
                  Resolver.text := lookupAnswer |}
        else Resolver.Rejected (Resolver.FetchError "net::ERR_CONNECTION_REFUSED")
    | _ => Resolver.Rejected Resolver.TypeError
    end;
  Resolver.parse := fun s =>
    if String.eqb s lookupAnswer
    then Some (JObj [("target", JStr "https://example.com/")])
    else None
|}.

End Fixtures.

From Stdlib Require DecimalString.

(** ** Shapes of texts, for stating what the validators accept *)
Module Shapes.
Import JsString.

(** Every character of [s] satisfies [p]. *)
Fixpoint allChars (p : ascii -> bool) (s : string) : bool :=
  match s with
  | EmptyString => true
  | String c r => p c && allChars p r
  end.

(** [s] begins with a character that satisfies [p]. *)
Definition headIs (p : ascii -> bool) (s : string) : bool :=
  match s with
  | String c _ => p c
  | EmptyString => false
  end.

Definition noDot (c : ascii) : bool := negb (Ascii.eqb c ".").

Definition isLowerHex (c : ascii) : bool :=
  let n := nat_of_ascii c in
  isDigit c || ((97 <=? n) && (n <=? 102))%nat.

(** A run of one to [hi] digits. *)
Definition digitRun (hi : nat) (a : string) : Prop :=
  allChars isDigit a = true /\ 1 <= String.length a <= hi.

(** Four runs of one to three digits between dots, and after them nothing
    or a colon and a run of one to five digits. *)
Definition ipShape (v : string) : Prop :=
  exists a b c d,
    digitRun 3 a /\ digitRun 3 b /\ digitRun 3 c /\ digitRun 3 d /\
    (v = a ++ "." ++ b ++ "." ++ c ++ "." ++ d \/
     exists p, digitRun 5 p /\
               v = a ++ "." ++ b ++ "." ++ c ++ "." ++ d ++ ":" ++ p).

(** The scheme [https://] and after it a character that is not a line
    terminator. *)
Definition httpsShape (v : string) : Prop :=
  exists c rest, v = "https://" ++ String c rest /\ isLineTerminator c = false.

(** [pat] occurs somewhere in [s]. *)
Fixpoint occurs (pat s : string) : bool :=
  startsWith s pat ||
  match s with
  | EmptyString => false
  | String _ r => occurs pat r
  end.

(** [s] with a slash at its end: one is added when [s] has none. *)
Definition slashed (s : string) : string :=
  if endsWith s "/" then s else s ++ "/".

End Shapes.

(** ** The shell: navigation requests of the renderer *)
Module Shell.
Import JsString Json Validator.

(** The [will-navigate] guard set on every web contents: [true] when the
    navigation is let through. *)
Definition contentsWillNavigate (navigationUrl : string) : bool :=
  negb (negb (startsWith navigationUrl "virt://")
        && negb (startsWith navigationUrl "https://")).

Definition loaded (type : string) : json :=
  JObj [("success", JBool true); ("type", JStr type)].

Definition refused (error : string) : json :=
  JObj [("success", JBool false); ("error", JStr error)].

(** [ipcMain.handle('v12:navigate', ...)]: the address handed to
    [loadURL], if any, and the answer to the renderer. The argument is a
    string, so nothing in the [try] throws. *)
Definition navigate (url : string) : option string * json :=
  if startsWith url "virt://" then
    if isValidVirtUrl url then (Some url, loaded "virt")
    else (None, refused "Invalid VIRT URL")
  else if startsWith url "https://" then (Some url, loaded "https")
  else (None, refused "Unsupported protocol").

End Shell.

(** ** The preload bridge: what the page may ask of the shell *)
Module Preload.
Import JsString.

(** Regular expressions without captures, and their match of a whole
    text by derivatives. *)
Inductive regex : Type :=
| Never
| Empty
| Chars (p : ascii -> bool)
| Seq (r1 r2 : regex)
| Or (r1 r2 : regex)
| Many (r : regex).

Fixpoint nullable (r : regex) : bool :=
  match r with
  | Never => false
  | Empty => true
  | Chars _ => false
  | Seq r1 r2 => nullable r1 && nullable r2
  | Or r1 r2 => nullable r1 || nullable r2
  | Many _ => true
  end.

Fixpoint deriv (c : ascii) (r : regex) : regex :=
  match r with
  | Never => Never
  | Empty => Never
  | Chars p => if p c then Empty else Never
  | Seq r1 r2 =>
      if nullable r1 then Or (Seq (deriv c r1) r2) (deriv c r2)
      else Seq (deriv c r1) r2
  | Or r1 r2 => Or (deriv c r1) (deriv c r2)
  | Many r1 => Seq (deriv c r1) (Many r1)
  end.

(** [/^r$/.test(s)] *)
Fixpoint test (r : regex) (s : string) : bool :=
  match s with
  | EmptyString => nullable r
  | String c s' => test (deriv c r) s'
  end.

(** The texts a regular expression denotes. *)
Inductive matches : regex -> string -> Prop :=
| MEmpty : matches Empty ""
| MChars (p : ascii -> bool) (c : ascii) :
    p c = true -> matches (Chars p) (String c "")
| MSeq (r1 r2 : regex) (s1 s2 : string) :
    matches r1 s1 -> matches r2 s2 -> matches (Seq r1 r2) (s1 ++ s2)
| MOrL (r1 r2 : regex) (s : string) : matches r1 s -> matches (Or r1 r2) s
| MOrR (r1 r2 : regex) (s : string) : matches r2 s -> matches (Or r1 r2) s
| MManyNil (r : regex) : matches (Many r) ""
| MManyCons (r : regex) (c : ascii) (s1 s2 : string) :
    matches r (String c s1) -> matches (Many r) s2 ->
    matches (Many r) (String c s1 ++ s2).

(** [r+] *)
Definition Plus (r : regex) : regex := Seq r (Many r).

Definition isLower (c : ascii) : bool :=
  let n := nat_of_ascii c in ((97 <=? n) && (n <=? 122))%nat.

Definition isUpper (c : ascii) : bool :=
  let n := nat_of_ascii c in ((65 <=? n) && (n <=? 90))%nat.

(** [[a-zA-Z]] *)
Definition isLetter (c : ascii) : bool := isLower c || isUpper c.

(** [[a-zA-Z0-9.-]] *)
Definition isHostChar (c : ascii) : bool :=
  isLetter c || isDigit c || Ascii.eqb c "." || Ascii.eqb c "-".

(** [[a-z0-9-]] *)
Definition isNameChar (c : ascii) : bool :=
  isLower c || isDigit c || Ascii.eqb c "-".

(** [/^[a-zA-Z0-9.-]+\.[a-zA-Z]{2,}$/] *)
Definition domainLike : regex :=
  Seq (Plus (Chars isHostChar))
      (Seq (Chars (Ascii.eqb "."))
           (Seq (Chars isLetter) (Seq (Chars isLetter) (Many (Chars isLetter))))).

(** [/^[a-zA-Z0-9.-]+$/] *)
Definition wordLike : regex := Plus (Chars isHostChar).

(** A text made of a non-empty run of host characters, a dot, and two or
    more letters. *)
Definition domainShape (s : string) : Prop :=
  exists h l,
    s = h ++ "." ++ l /\ h <> "" /\ Shapes.allChars isHostChar h = true /\
    Shapes.allChars isLetter l = true /\ 2 <= String.length l.

(** The white space and line terminators that [trim] removes, among the
    character codes of the embedding. *)
Definition isWhiteSpace (c : ascii) : bool :=
  let n := nat_of_ascii c in
  ((9 <=? n) && (n <=? 13) || (n =? 32) || (n =? 160))%nat.

Fixpoint trimStart (s : string) : string :=
  match s with
  | EmptyString => EmptyString
  | String c r => if isWhiteSpace c then trimStart r else s
  end.

Fixpoint trimEnd (s : string) : string :=
  match s with
  | EmptyString => EmptyString
  | String c r =>
      match trimEnd r with
      | EmptyString => if isWhiteSpace c then EmptyString else String c EmptyString
      | r' => String c r'
      end
  end.

(** [s.trim()] *)
Definition trim (s : string) : string := trimEnd (trimStart s).

(** [s.replace(/[^a-z0-9-]/g, '')] *)
Fixpoint keepNameChars (s : string) : string :=
  match s with
  | EmptyString => EmptyString
  | String c r =>
      if isNameChar c then String c (keepNameChars r) else keepNameChars r
  end.

(** The cleaning of a name before it is sent to the shell. *)
Definition cleanName (name : string) : string :=
  keepNameChars (toLowerCase name).

(** [checkDomain]: the error thrown, or the name sent on
    [v12:check-domain]. *)
Definition checkDomain (domain : string) : string + string :=
  if (String.length domain <? 3)%nat then
    inl "Domain must be at least 3 characters."
  else inr (cleanName domain).

(** [registerDomain], on the [name] of the data: the error thrown, or the
    name sent on [v12:register-domain]. *)
Definition registerDomain (name : option string) : string + string :=
  match name with
  | Some n =>
      if String.eqb n "" then inl "Invalid domain name: must be string"
      else inr (cleanName n)
  | None => inl "Invalid domain name: must be string"
  end.

(** [navigateToUrl]: the error thrown, or the address sent on
    [v12:navigate]. *)
Definition navigateToUrl (url : string) : string + string :=
  if String.eqb (trim url) "" then inl "Invalid URL: must be non-empty string"
  else
    let cleanUrl := trim url in
    if startsWith cleanUrl "virt://" || startsWith cleanUrl "https://" then
      inr cleanUrl
    else if test domainLike cleanUrl then inr ("https://" ++ cleanUrl)
    else if test wordLike cleanUrl then inr ("https://" ++ cleanUrl ++ ".com")
    else inl "Invalid URL format".

(** [fetchVirtContent]: the error thrown, or the address sent on
    [v12:fetch-virt-content]. *)
Definition fetchVirtContent (url : string) : string + string :=
  if negb (startsWith url "virt://") then inl "Invalid VIRT URL"
  else inr url.

End Preload.

(** ** The bookmarks file of the shell *)
Module Bookmarks.
Import Json.

Record Bookmark : Type := {
  date_added : string;
  id : string;
  name : string;
  type : string;
  url : string
}.

(** The file: [roots.bookmark_bar] is the only root. *)
Record File : Type := {
  checksum : string;
  children : list Bookmark;
  bar_name : string;
  bar_type : string;
  version : Z
}.

(** What is at [bookmarksPath]: nothing, a text on which reading the
    bookmarks throws an error with the given message, or a file. *)
Inductive Disk : Type :=
| Missing
| Unreadable (message : string)
| Stored (f : File).

(** The structure used when there is no file. *)
Definition emptyFile : File := {|
  checksum := ""; children := []; bar_name := "Bookmarks bar";
  bar_type := "folder"; version := 1
|}.

Definition with_children (l : list Bookmark) (f : File) : File := {|
  checksum := checksum f; children := l; bar_name := bar_name f;
  bar_type := bar_type f; version := version f
|}.

(** [n.toString()] for a time stamp. *)
Definition toString (n : Z) : string :=
  DecimalString.NilZero.string_of_int (Z.to_int n).

(** [v12:get-bookmarks] *)
Definition getBookmarks (disk : Disk) : File :=
  match disk with
  | Stored f => f
  | Missing => emptyFile
  | Unreadable _ => emptyFile
  end.

(** The addresses and the identifiers of the bookmarks the shell shows. *)
Definition urls (disk : Disk) : list string :=
  map url (children (getBookmarks disk)).

Definition ids (disk : Disk) : list string :=
  map id (children (getBookmarks disk)).

(** [v12:save-bookmarks] *)
Definition saveBookmarks (disk : Disk) (bookmarks : File) : json * Disk :=
  (JObj [("success", JBool true)], Stored bookmarks).

(** [title || url] *)
Definition nameOf (title : option string) (url : string) : string :=
  match title with
  | Some t => if String.eqb t "" then url else t
  | None => url
  end.

(** The entry [v12:add-bookmark] builds; [t1] and [t2] are its two
    readings of the clock. *)
Definition bookmarkEntry (t1 t2 : Z) (url : string) (title : option string)
  : Bookmark := {|
  date_added := toString t2; id := toString t1; name := nameOf title url;
  type := "url"; url := url
|}.

Definition addTo (f : File) (t1 t2 : Z) (url : string) (title : option string)
  : json * Disk :=
  match find (fun b => String.eqb (Bookmarks.url b) url) (children f) with
  | Some _ =>
      (JObj [("success", JBool false); ("message", JStr "Already bookmarked")],
       Stored f)
  | None =>
      (JObj [("success", JBool true)],
       Stored (with_children (children f ++ [bookmarkEntry t1 t2 url title])%list f))
  end.

(** [v12:add-bookmark] *)
Definition addBookmark (disk : Disk) (t1 t2 : Z) (url : string)
           (title : option string) : json * Disk :=
  match disk with
  | Stored f => addTo f t1 t2 url title
  | Missing => addTo emptyFile t1 t2 url title
  | Unreadable message =>
      (JObj [("success", JBool false); ("error", JStr message)], disk)
  end.

(** [children.splice(index, 1)] for the first entry with the [id]. *)
Fixpoint removeFirst (bookmarkId : string) (l : list Bookmark) : list Bookmark :=
  match l with
  | [] => []
  | b :: rest =>
      if String.eqb (id b) bookmarkId then rest
      else b :: removeFirst bookmarkId rest
  end.

(** [v12:remove-bookmark] *)
Definition removeBookmark (disk : Disk) (bookmarkId : string) : json * Disk :=
  match disk with
  | Stored f =>
      if existsb (fun b => String.eqb (id b) bookmarkId) (children f) then
        (JObj [("success", JBool true)],
         Stored (with_children (removeFirst bookmarkId (children f)) f))
      else
        (JObj [("success", JBool false); ("message", JStr "Bookmark not found")],
         disk)
  | Missing =>
      (JObj [("success", JBool false);
             ("message", JStr "No bookmarks file found")], disk)
  | Unreadable message =>
      (JObj [("success", JBool false); ("error", JStr message)], disk)
  end.

End Bookmarks.

(** ** The origin policy of the registrar's server *)
Module Cors.
Import JsString.

Definition allowedOrigins : list string := ["electron://app"; "app://"].

(** The [origin] function given to [cors]: [true] when the callback is
    called with [(null, true)], [false] when it is called with the error
    [Not allowed by CORS]. [NODE_ENV] and the [Origin] header are absent or
    strings. *)
Definition originAllowed (NODE_ENV origin : option string) : bool :=
  match origin with
  | None => true
  | Some o =>
      if String.eqb o "" then true
      else if startsWith o "http://localhost" then true
      else if startsWith o "virt://" then true
      else if startsWith o "electron://" || startsWith o "app://" then true
      else
        if match NODE_ENV with
           | Some env => String.eqb env "production"
           | None => false
           end
        then if includes allowedOrigins o then true else false
        else true
  end.

(** The prefixes the policy accepts in every environment. *)
Definition trustedPrefix (o : string) : bool :=
  startsWith o "http://localhost" || startsWith o "virt://"
  || startsWith o "electron://" || startsWith o "app://".

End Cors.

(** ** More concrete data, for running the shell and the routes *)
Module Samples.
Import Json Store Registrar Fixtures.

(** A deletion and an update of [myapp.vc] with the secret that was
    handed out, and a second registration that writes the label in
    capitals. *)
Definition rightKeyDelete : DeleteBody := {|
  del_domain := Some "myapp"; del_tld := Some "vc";
  del_secretKey := Some oneSiteKey
|}.

Definition retarget : UpdateBody := {|
  upd_domain := Some "myapp"; upd_tld := Some "vc";
  upd_secretKey := Some oneSiteKey; upd_target := Some "https://example.org";
  upd_title := None; upd_description := None
|}.

Definition shouted : RegisterBody :=
  registration "MyApp" "vc" "https://example.org".

(** An update of [myapp.vc] with the right secret whose target is the
    empty text. *)
Definition emptyTargetUpdate : UpdateBody := {|
  upd_domain := Some "myapp"; upd_tld := Some "vc";
  upd_secretKey := Some oneSiteKey; upd_target := Some EmptyString;
  upd_title := None; upd_description := None
|}.

(** A label outside the English alphabet, in small letters and in
    capitals: a grave-accented [a] (U+00E0, U+00C0) before [bc]. *)
Definition smallLabel : string := String (ascii_of_nat 224) "bc".

Definition capitalLabel : string := String (ascii_of_nat 192) "BC".

(** The disk after one bookmark was added where there was no file. *)
Definition oneBookmark : Bookmarks.Disk :=
  snd (Bookmarks.addBookmark Bookmarks.Missing 1767225600000 1767225600001
         "virt://myapp.vc" (Some "My app")).

(** A world in which the registrar answers for [myapp.vc] and the target
    answers with a page. *)
Definition targetPage : Resolver.HttpResponse := {|
  Resolver.status := 200;
  Resolver.contentType := Some "text/html";
  Resolver.text := "<h1>My app</h1>"
|}.

Definition targetUp : Resolver.World := {|
  Resolver.dirname := "/app";
  Resolver.join := String.concat "/";
  Resolver.existsSync := fun _ => false;
  Resolver.net_fetch := fun input =>
    match input with
    | Some (JStr url) =>
        if String.eqb url (Resolver.lookupUrl "myapp" "vc")
        then Resolver.Fulfilled
               {| Resolver.status := 200;
                  Resolver.contentType := Some "application/json";
                  Resolver.text := lookupAnswer |}
        else if String.eqb url "https://example.com/"
        then Resolver.Fulfilled targetPage
        else Resolver.Rejected (Resolver.FetchError "net::ERR_NAME_NOT_RESOLVED")
    | _ => Resolver.Rejected Resolver.TypeError
    end;
  Resolver.parse := fun s =>
    if String.eqb s lookupAnswer
    then Some (JObj [("target", JStr "https://example.com/")])
    else None
|}.

End Samples.

(* ================================================================== *)
(** * Properties *)
(* ================================================================== *)

(** ** Facts about the string primitives *)
Module JsStringFacts.
Import JsString.

Lemma startsWith_app (p r : string) : startsWith (p ++ r) p = true.
Proof.
  induction p as [|c p IH]; simpl; [reflexivity|].
  now rewrite Ascii.eqb_refl, IH.
Qed.

Lemma startsWith_spec (s p : string) :
  startsWith s p = true <-> exists r, s = p ++ r.
Proof.
  split.
  - revert s. induction p as [|c p IH]; intros s H; simpl in *.
    + now exists s.
    + destruct s as [|d s]; [discriminate|].
      apply andb_true_iff in H. destruct H as [Hc Hs].
      apply Ascii.eqb_eq in Hc. subst d.
      destruct (IH _ Hs) as [r ->]. now exists r.
  - intros [r ->]. apply startsWith_app.
Qed.

Lemma endsWith_self (p : string) : endsWith p p = true.
Proof. destruct p; simpl; now rewrite ?Ascii.eqb_refl, ?String.eqb_refl. Qed.

Lemma endsWith_app (pre p : string) : endsWith (pre ++ p) p = true.
Proof.
  induction pre as [|c pre IH]; simpl.
  - apply endsWith_self.
  - rewrite IH. apply orb_true_r.
Qed.

Lemma endsWith_spec (s p : string) :
  endsWith s p = true <-> exists pre, s = pre ++ p.
Proof.
  split.
  - induction s as [|c s IH]; intros H.
    + simpl in H. rewrite orb_false_r in H.
      destruct p; [now exists ""|discriminate].
    + unfold endsWith in H; fold endsWith in H.
      apply orb_true_iff in H. destruct H as [H|H].
      * apply String.eqb_eq in H. subst p. now exists "".
      * destruct (IH H) as [pre ->]. now exists (String c pre).
  - intros [pre ->]. apply endsWith_app.
Qed.

Lemma dropTrailingSlash_cons2 (a b : ascii) (s : string) :
  dropTrailingSlash (String a (String b s))
  = String a (dropTrailingSlash (String b s)).
Proof. reflexivity. Qed.

(** Dropping a last slash and writing one back keeps whatever came before
    the first slash. *)
Lemma dropTrailingSlash_keeps (p x : string) :
  exists y, dropTrailingSlash (p ++ String "/" x) ++ "/" = p ++ String "/" y.
Proof.
  induction p as [|a p IH].
  - destruct x as [|c x].
    + now exists "".
    + exists (dropTrailingSlash (String c x) ++ "/"). reflexivity.
  - destruct IH as [y Hy].
    exists y. change (String a p ++ String "/" x) with (String a (p ++ String "/" x)).
    destruct (p ++ String "/" x) as [|b s] eqn:E.
    + destruct p; discriminate.
    + rewrite dropTrailingSlash_cons2. simpl. f_equal. exact Hy.
Qed.

Lemma replace_head_slash (rest : string) :
  exists x, replace (String "/" rest) "/blob/" "/" = String "/" x.
Proof.
  unfold replace; fold replace.
  destruct (startsWith (String "/" rest) "/blob/").
  - now exists (slice 5 rest).
  - now exists (replace rest "/blob/" "/").
Qed.

Lemma app_slash_endsWith (s : string) : endsWith (s ++ "/") "/" = true.
Proof. apply endsWith_app. Qed.

End JsStringFacts.

(** ** The name validator *)
Module ValidatorFacts.
Import JsString JsStringFacts Validator Contract.

Lemma hasValidTld_spec (url : string) :
  existsb (fun tld => endsWith url tld) validTlds = true <->
  exists tag pre, In tag validTlds /\ url = pre ++ tag.
Proof.
  rewrite existsb_exists. split.
  - intros [tag [Hin H]]. apply endsWith_spec in H. destruct H as [pre ->].
    now exists tag, pre.
  - intros [tag [pre [Hin ->]]]. exists tag. split; [exact Hin|].
    apply endsWith_app.
Qed.

Lemma isSystemPage_spec (url : string) :
  String.eqb url "virt://register.at" || String.eqb url "virt://lookin.at"
  || String.eqb url "virt://v12browser.vc" = true <-> In url systemPages.
Proof.
  unfold systemPages. simpl. rewrite !orb_true_iff, !String.eqb_eq.
  intuition congruence.
Qed.

(** C4. The validator accepts a string exactly when it begins with the
    scheme prefix [virt://] and is one of the three system names or ends
    with one of the four tag suffixes. The empty string, the bare scheme,
    a name with an unknown tag and a plain [https] address are rejected;
    [virt://lookin.at] and [virt://abc.vc] are accepted. *)
Theorem isValidVirtUrl_spec :
  (forall url, isValidVirtUrl url = true <-> acceptableName url) /\
  length systemPages = 3 /\ length validTlds = 4 /\
  isValidVirtUrl "" = false /\
  isValidVirtUrl "virt://" = false /\
  isValidVirtUrl "virt://abc.com" = false /\
  isValidVirtUrl "https://example.com" = false /\
  isValidVirtUrl "virt://lookin.at" = true /\
  isValidVirtUrl "virt://abc.vc" = true.
Proof.
  split; [|repeat split; reflexivity].
  intros url. unfold isValidVirtUrl, acceptableName.
  rewrite andb_true_iff, orb_true_iff, startsWith_spec,
    isSystemPage_spec, hasValidTld_spec.
  reflexivity.
Qed.

(** A string with a dot and no tag after it is rejected as well. *)
Example isValidVirtUrl_dot_only : isValidVirtUrl "virt://abc." = false.
Proof. reflexivity. Qed.

(** A plain [https] address is not a reserved name, and the window lets
    the navigation through all the same. *)
Example willNavigate_https :
  isValidVirtUrl "https://example.com" = false /\
  willNavigate "https://example.com" = true /\
  willNavigate "virt://abc.com" = false.
Proof. repeat split; reflexivity. Qed.

(** The three system names already end with a tag suffix. *)
Lemma systemPages_have_tld (url : string) :
  In url systemPages ->
  existsb (fun tld => endsWith url tld) validTlds = true.
Proof.
  unfold systemPages. simpl.
  intros [<-|[<-|[<-|[]]]]; reflexivity.
Qed.

End ValidatorFacts.

(** ** The raw-base rewrite *)
Module RewriteFacts.
Import JsString JsStringFacts Registrar.

Lemma rawBaseOf_other (t : string) :
  startsWith t "https://github.com/" = false -> rawBaseOf t = t.
Proof. intros H. unfold rawBaseOf. now rewrite H. Qed.

(** A rewritten address is on the raw-content host. *)
Lemma rawBaseOf_github (t : string) :
  startsWith t "https://github.com/" = true ->
  exists y, rawBaseOf t = "https://raw.githubusercontent.com/" ++ y.
Proof.
  intros H. unfold rawBaseOf. rewrite H.
  apply startsWith_spec in H. destruct H as [r ->].
  assert (E1 : replace ("https://github.com/" ++ r) "github.com"
                 "raw.githubusercontent.com"
               = "https://raw.githubusercontent.com/" ++ r) by reflexivity.
  rewrite E1.
  destruct (replace_head_slash r) as [x Hx].
  assert (E2 : replace ("https://raw.githubusercontent.com/" ++ r) "/blob/" "/"
               = "https://raw.githubusercontent.com" ++ String "/" x).
  { rewrite <- Hx. reflexivity. }
  rewrite E2.
  destruct (dropTrailingSlash_keeps "https://raw.githubusercontent.com" x)
    as [y Hy].
  exists y. rewrite Hy. reflexivity.
Qed.

Lemma rawBaseOf_not_github (t : string) :
  startsWith (rawBaseOf t) "https://github.com/" = false.
Proof.
  destruct (startsWith t "https://github.com/") eqn:H.
  - destruct (rawBaseOf_github t H) as [y ->]. reflexivity.
  - now rewrite (rawBaseOf_other t H).
Qed.

(** C9. The rewrite is idempotent: an address that does not begin with
    the recognised host prefix is returned unchanged, a rewritten address
    never begins with that prefix, and so rewriting twice is rewriting
    once. *)
Theorem rawBaseOf_idempotent (t : string) :
  (startsWith t "https://github.com/" = false -> rawBaseOf t = t) /\
  startsWith (rawBaseOf t) "https://github.com/" = false /\
  rawBaseOf (rawBaseOf t) = rawBaseOf t.
Proof.
  split; [apply rawBaseOf_other|].
  split; [apply rawBaseOf_not_github|].
  apply rawBaseOf_other, rawBaseOf_not_github.
Qed.

Lemma rawBaseOf_idempotent_witness :
  rawBaseOf "https://raw.githubusercontent.com/u/r/"
  = "https://raw.githubusercontent.com/u/r/"
  /\ rawBaseOf (rawBaseOf "https://github.com/u/r/blob/main/")
     = rawBaseOf "https://github.com/u/r/blob/main/".
Proof.
  split.
  - apply (proj1 (rawBaseOf_idempotent "https://raw.githubusercontent.com/u/r/")).
    reflexivity.
  - apply (proj2 (proj2 (rawBaseOf_idempotent "https://github.com/u/r/blob/main/"))).
Defined.

Example rawBaseOf_repo :
  rawBaseOf "https://github.com/u/r" = "https://raw.githubusercontent.com/u/r/".
Proof. reflexivity. Qed.

Example rawBaseOf_blob :
  rawBaseOf "https://github.com/u/r/blob/main/"
  = "https://raw.githubusercontent.com/u/r/main/".
Proof. reflexivity. Qed.

End RewriteFacts.

(** ** The registry store *)
Module StoreFacts.
Import JsString JsStringFacts Store.
Local Open Scope list_scope.

Lemma failing_nil (path : string) (b : bool) : failing path b = [] <-> b = true.
Proof. destruct b; simpl; split; congruence. Qed.

Lemma app_nil_iff {A : Type} (l l' : list A) :
  l ++ l' = [] <-> l = [] /\ l' = [].
Proof.
  split; [apply app_eq_nil|]. now intros [-> ->].
Qed.

(** A document passes validation exactly when every path does. *)
Lemma validate_nil (s : Site) :
  validate s = [] <->
  (nonEmpty (domain s) && (3 <=? String.length (domain s))%nat
   && (String.length (domain s) <=? 63)%nat = true) /\
  (nonEmpty (tld s) && includes tlds (tld s) = true) /\
  (nonEmpty (target s) && targetValidator (target s) = true) /\
  nonEmpty (secretKeyHash s) = true /\
  maxlength 100 (title s) = true /\
  maxlength 500 (description s) = true.
Proof.
  unfold validate.
  rewrite !app_nil_iff, !failing_nil.
  tauto.
Qed.

Lemma validate_target (s : Site) :
  validate s = [] -> targetValidator (target s) = true.
Proof.
  intros H. apply validate_nil in H.
  destruct H as (_ & _ & H & _). now apply andb_true_iff in H.
Qed.

Lemma validate_target_fails (s : Site) :
  targetValidator (target s) = false -> In "target" (validate s).
Proof.
  intros H. unfold validate. rewrite H, andb_false_r. simpl.
  apply in_or_app. right. apply in_or_app. right. now left.
Qed.

Lemma validate_with_lastAccessed (z : Z) (s : Site) :
  validate (with_lastAccessed z s) = validate s.
Proof. reflexivity. Qed.

Lemma validate_with_id (n : nat) (s : Site) :
  validate (with_id n s) = validate s.
Proof. reflexivity. Qed.

Lemma findOne_app_new (db : Collection) (doc : Site) (d t : string) :
  findOne db d t = None ->
  domain doc = toLowerCase d -> tld doc = t ->
  findOne (db ++ [doc]) d t = Some doc.
Proof.
  unfold findOne. intros Hnone Hd Ht.
  induction db as [|x db IH]; simpl in *.
  - now rewrite Hd, Ht, !String.eqb_refl.
  - destruct (String.eqb (domain x) (toLowerCase d) && String.eqb (tld x) t);
      [discriminate|]. now apply IH.
Qed.

(** The document [findOne] returns is in the collection, after documents
    that do not match. *)
Lemma findOne_split (db : Collection) (d t : string) (site : Site) :
  findOne db d t = Some site ->
  exists l1 l2, db = l1 ++ site :: l2 /\ findOne l1 d t = None /\
                domain site = toLowerCase d /\ tld site = t.
Proof.
  unfold findOne. induction db as [|x db IH]; simpl; [discriminate|].
  destruct (String.eqb (domain x) (toLowerCase d) && String.eqb (tld x) t) eqn:E.
  - intros [= ->]. apply andb_true_iff in E. destruct E as [E1 E2].
    apply String.eqb_eq in E1, E2. now exists [], db.
  - intros H. destruct (IH H) as (l1 & l2 & -> & Hn & Hd & Ht).
    exists (x :: l1), l2. simpl. now rewrite E.
Qed.

Lemma replaceById_split (l1 l2 : Collection) (site doc : Site) :
  NoDup (map _id (l1 ++ site :: l2)) -> _id doc = _id site ->
  replaceById doc (l1 ++ site :: l2) = l1 ++ doc :: l2.
Proof.
  intros Hnd Hid. induction l1 as [|x l1 IH]; simpl in *.
  - now rewrite Hid, Nat.eqb_refl.
  - inversion Hnd as [|? ? Hnotin Hnd']; subst.
    destruct (Nat.eqb_spec (_id x) (_id doc)) as [E|E].
    + exfalso. apply Hnotin. rewrite map_app. apply in_or_app. right.
      simpl. left. congruence.
    + f_equal. now apply IH.
Qed.

Lemma deleteOne_split (l1 l2 : Collection) (site : Site) :
  NoDup (map _id (l1 ++ site :: l2)) ->
  deleteOne (_id site) (l1 ++ site :: l2) = l1 ++ l2.
Proof.
  intros Hnd. induction l1 as [|x l1 IH]; simpl in *.
  - now rewrite Nat.eqb_refl.
  - inversion Hnd as [|? ? Hnotin Hnd']; subst.
    destruct (Nat.eqb_spec (_id x) (_id site)) as [E|E].
    + exfalso. apply Hnotin. rewrite map_app. apply in_or_app. right.
      simpl. now left.
    + f_equal. now apply IH.
Qed.

End StoreFacts.

(** ** The registrar routes *)
Module RegistrarFacts.
Import JsString JsStringFacts Json Store StoreFacts Registrar RewriteFacts.
Import Contract.
Local Open Scope list_scope.

Lemma truthy_str (v : option string) :
  truthy v = true -> v = Some (str v) /\ str v <> ""%string.
Proof.
  destruct v as [s|]; simpl; [|discriminate].
  unfold nonEmpty. intros H. split; [reflexivity|].
  intros ->. discriminate.
Qed.

Lemma truthy_some (s : string) : s <> ""%string -> truthy (Some s) = true.
Proof.
  intros H. simpl. unfold nonEmpty.
  destruct (String.eqb_spec s ""); [contradiction|reflexivity].
Qed.

(** Splitting the guard on the three required fields. *)
Lemma required_present (a b c : option string) :
  negb (truthy a) || negb (truthy b) || negb (truthy c) = false <->
  truthy a = true /\ truthy b = true /\ truthy c = true.
Proof.
  destruct (truthy a), (truthy b), (truthy c); simpl; intuition congruence.
Qed.

Lemma required_missing (a b c : option string) :
  negb (truthy a) || negb (truthy b) || negb (truthy c) = true <->
  truthy a = false \/ truthy b = false \/ truthy c = false.
Proof.
  destruct (truthy a), (truthy b), (truthy c); simpl; intuition congruence.
Qed.

(** Closes a case in which the route answered with another status than
    the one assumed. *)
Ltac other_status H Hs :=
  inversion H; subst; simpl in Hs; lia.

Section Routes.
Variable X : Externals.

(** [register], with the secret and the new document named. *)
Lemma register_eq (db : Collection) (e : Env) (b : RegisterBody) :
  register X db e b =
  if negb (truthy (reg_domain b)) || negb (truthy (reg_tld b))
     || negb (truthy (reg_target b)) then
    (fail 400 "Missing required fields", db)
  else if negb (includes tlds (str (reg_tld b))) then
    (fail 400 "Invalid TLD", db)
  else
    match findOne db (str (reg_domain b)) (str (reg_tld b)) with
    | Some _ => (fail 409 "Domain already registered", db)
    | None =>
        match saveNew db (siteOf X e b) with
        | inr db' =>
            ({| status := 201;
                body := registered (str (reg_domain b)) (str (reg_tld b))
                                   (secretKeyOf e) |}, db')
        | inl (ValidationError paths) =>
            (fail 400 (validationMessage X paths), db)
        | inl _ => (fail 500 "Server error", db)
        end
    end.
Proof. reflexivity. Qed.

(** What a 201 of [register] tells about the request and the store. *)
Lemma register_created_inv (db db' : Collection) (e : Env) (b : RegisterBody)
      (r : Response) :
  register X db e b = (r, db') -> status r = 201 ->
  truthy (reg_domain b) = true /\ truthy (reg_tld b) = true /\
  truthy (reg_target b) = true /\
  includes tlds (str (reg_tld b)) = true /\
  findOne db (str (reg_domain b)) (str (reg_tld b)) = None /\
  validate (siteOf X e b) = [] /\
  existsb (fun s => String.eqb (domain s) (domain (siteOf X e b))) db = false /\
  db' = db ++ [with_id (freshId db) (siteOf X e b)] /\
  r = {| status := 201;
         body := registered (str (reg_domain b)) (str (reg_tld b)) (secretKeyOf e) |}.
Proof.
  rewrite register_eq. intros H Hs.
  destruct (negb (truthy (reg_domain b)) || negb (truthy (reg_tld b))
            || negb (truthy (reg_target b))) eqn:Hreq.
  { other_status H Hs. }
  apply required_present in Hreq. destruct Hreq as (Hd & Ht & Hg).
  destruct (includes tlds (str (reg_tld b))) eqn:Htld; cbn [negb] in H.
  2:{ other_status H Hs. }
  destruct (findOne db (str (reg_domain b)) (str (reg_tld b))) eqn:Hfind.
  { other_status H Hs. }
  unfold saveNew in H.
  destruct (validate (siteOf X e b)) eqn:Hval.
  2:{ other_status H Hs. }
  destruct (existsb _ db) eqn:Hdup.
  { other_status H Hs. }
  inversion H; subst. repeat split; auto.
Qed.

Lemma fail_discreet (n : nat) (msg : string) : discreet (body (fail n msg)).
Proof.
  unfold discreet, fail. simpl. split; intros [H|[]]; discriminate.
Qed.

Lemma opt_field_keys (k : string) (v : option string) (x : string) :
  In x (flat_map (fun '(k, v) => k :: json_keys v) (opt_field k v)) -> x = k.
Proof.
  destruct v as [s|]; simpl; [|tauto]. intros [H|[]]. now symmetry.
Qed.

Lemma lookupView_keys (site : Site) (x : string) :
  In x (json_keys (lookupView site)) ->
  In x ["domain"; "tld"; "target"; "rawBase"; "title"; "description";
        "verified"; "createdAt"; "lastAccessed"]%string.
Proof.
  unfold lookupView. cbn [json_keys]. rewrite !flat_map_app.
  rewrite !in_app_iff. intros [H|[H|[H|H]]].
  - simpl in H. simpl. tauto.
  - apply opt_field_keys in H. subst. simpl. tauto.
  - apply opt_field_keys in H. subst. simpl. tauto.
  - simpl in H. simpl. tauto.
Qed.

Lemma updateView_keys (site : Site) (x : string) :
  In x (json_keys (updateView site)) ->
  In x ["domain"; "tld"; "target"; "title"; "description";
        "lastAccessed"]%string.
Proof.
  unfold updateView. cbn [json_keys]. rewrite !flat_map_app.
  rewrite !in_app_iff. intros [H|[H|[H|H]]].
  - simpl in H. simpl. tauto.
  - apply opt_field_keys in H. subst. simpl. tauto.
  - apply opt_field_keys in H. subst. simpl. tauto.
  - simpl in H. simpl. tauto.
Qed.

Lemma searchView_keys (site : Site) (x : string) :
  In x (json_keys (searchView site)) ->
  In x ["domain"; "tld"; "title"; "description"]%string.
Proof.
  unfold searchView. cbn [json_keys]. rewrite !flat_map_app.
  rewrite !in_app_iff. intros [H|[H|H]].
  - simpl in H. simpl. tauto.
  - apply opt_field_keys in H. subst. simpl. tauto.
  - apply opt_field_keys in H. subst. simpl. tauto.
Qed.

Lemma lookup_eq (db : Collection) (e : Env) (d t : string) (site : Site) :
  includes tlds t = true -> findOne db d t = Some site ->
  validate site = [] ->
  lookup db e d t
  = (ok (lookupView (with_lastAccessed (now e) site)),
     replaceById (with_lastAccessed (now e) site) db).
Proof.
  intros Ht Hf Hv. unfold lookup, save.
  now rewrite Ht, Hf, validate_with_lastAccessed, Hv.
Qed.

(** A lookup of the pair that a registration has just created finds the
    new document and answers with it. *)
Lemma lookup_after_created
      (db db1 : Collection) (e e' : Env) (b : RegisterBody) (r : Response) :
  register X db e b = (r, db1) -> status r = 201 ->
  exists site db2,
    lookup db1 e' (str (reg_domain b)) (str (reg_tld b))
    = (ok (lookupView site), db2) /\
    domain site = toLowerCase (str (reg_domain b)) /\
    tld site = str (reg_tld b) /\
    target site = str (reg_target b) /\
    lastAccessed site = now e'.
Proof.
  intros H Hs.
  destruct (register_created_inv _ _ _ _ _ H Hs)
    as (_ & _ & _ & Htld & Hfind & Hval & _ & -> & _).
  set (doc := with_id (freshId db) (siteOf X e b)).
  assert (Hdoc : findOne (db ++ [doc]) (str (reg_domain b)) (str (reg_tld b))
                 = Some doc)
    by (apply findOne_app_new; [exact Hfind|reflexivity|reflexivity]).
  exists (with_lastAccessed (now e') doc),
         (replaceById (with_lastAccessed (now e') doc) (db ++ [doc])).
  split; [|repeat split].
  apply lookup_eq; [exact Htld|exact Hdoc|].
  unfold doc. now rewrite validate_with_id.
Qed.

(** *** What the responses are made of *)

Ltac not_listed H := simpl in H; intuition discriminate.

(** Closes [discreet (body r)] for [r] in a list of error answers. *)
Ltac refused Hin :=
  simpl in Hin;
  repeat (destruct Hin as [<-|Hin]; [apply fail_discreet|]);
  destruct Hin.

Lemma lookupView_discreet (site : Site) : discreet (lookupView site).
Proof. split; intros H; apply lookupView_keys in H; not_listed H. Qed.

Lemma updateView_discreet (site : Site) : discreet (updateView site).
Proof. split; intros H; apply updateView_keys in H; not_listed H. Qed.

Lemma searchViews_discreet (results : list Site) :
  discreet (JArr (map searchView results)).
Proof.
  unfold discreet. cbn [json_keys]. rewrite flat_map_concat_map, map_map.
  rewrite <- flat_map_concat_map.
  split; intros H; apply in_flat_map in H; destruct H as (site & _ & H);
    apply searchView_keys in H; not_listed H.
Qed.

(** The view of an updated document reads neither the secret of the
    request nor the digest of the document. *)
Lemma updateView_blind (e : Env) (b : UpdateBody) (site : Site) :
  updateView (applyUpdate e (withoutSecret b) (withoutDigest site))
  = updateView (applyUpdate e b site).
Proof.
  unfold applyUpdate, withoutSecret, withoutDigest.
  cbn [upd_target upd_title upd_description].
  destruct (truthy (upd_target b)), (upd_title b), (upd_description b);
    reflexivity.
Qed.

Lemma lookupView_blind (z : Z) (site : Site) :
  lookupView (with_lastAccessed z (withoutDigest site))
  = lookupView (with_lastAccessed z site).
Proof. reflexivity. Qed.

(** The answers of [check]: an error, or the request echoed with the
    availability of the pair. *)
Lemma check_shape (db : Collection) (d : string) (t : option string) :
  fst (check db d t) = fail 400 "Invalid TLD" \/
  exists available,
    fst (check db d t)
    = ok (JObj [("domain", JStr d); ("tld", JStr (str t));
                ("available", JBool available);
                ("message", JStr (if available then "Domain is available"
                                  else "Domain is already registered"))]%string).
Proof.
  unfold check.
  destruct (negb (truthy t) || negb (includes tlds (str t))); [now left|].
  right. eexists. reflexivity.
Qed.

(** The answers of [lookup]: an error, or the view of the document of the
    pair, which does not read its digest. *)
Lemma lookup_shape (db : Collection) (e : Env) (d t : string) :
  In (fst (lookup db e d t))
     [fail 400 "Invalid TLD"; fail 404 "Domain not found";
      fail 500 "Server error"] \/
  exists site,
    findOne db d t = Some site /\
    fst (lookup db e d t)
    = ok (lookupView (with_lastAccessed (now e) (withoutDigest site))).
Proof.
  unfold lookup.
  destruct (negb (includes tlds t)); [left; simpl; tauto|].
  destruct (findOne db d t) as [site|]; [|left; simpl; tauto].
  destruct (save db _); [left; simpl; tauto|].
  right. exists site. split; reflexivity.
Qed.

(** The answers of [search]: an error, or the search views of at most
    twenty of the documents the text index returns. *)
Lemma search_shape (db : Collection) (q : option string) :
  fst (search X db q) = fail 400 "Query parameter required" \/
  exists results,
    length results <= 20 /\
    results = firstn 20 (textSearch X (str q) db) /\
    fst (search X db q) = ok (JArr (map searchView results)).
Proof.
  unfold search. destruct (negb (truthy q)); [now left|].
  right. eexists. split; [|split; reflexivity]. apply firstn_le_length.
Qed.

(** The answers of [update]: an error, or the view of the document of the
    pair after the assignments, which reads neither the secret that was
    presented nor the digest. *)
Lemma update_shape (db : Collection) (e : Env) (b : UpdateBody) :
  In (fst (update X db e b))
     [fail 400 "Missing required fields"; fail 400 "Invalid TLD";
      fail 404 "Domain not found"; fail 401 "Invalid secret key";
      fail 500 "Server error"] \/
  exists site,
    findOne db (str (upd_domain b)) (str (upd_tld b)) = Some site /\
    fst (update X db e b)
    = ok (JObj [("success", JBool true);
                ("message", JStr "Domain updated successfully");
                ("site", updateView (applyUpdate e (withoutSecret b)
                                                 (withoutDigest site)))]%string).
Proof.
  unfold update.
  destruct (_ || _ || _); [left; simpl; tauto|].
  destruct (negb (includes tlds _)); [left; simpl; tauto|].
  destruct (findOne db _ _) as [site|]; [|left; simpl; tauto].
  destruct (negb (bcrypt_compare X _ _)); [left; simpl; tauto|].
  destruct (save db _); [left; simpl; tauto|].
  right. exists site. split; [reflexivity|].
  now rewrite updateView_blind.
Qed.

(** The answers of [delete]: an error, or a fixed acknowledgement. *)
Lemma delete_shape (db : Collection) (b : DeleteBody) :
  In (fst (delete X db b))
     [fail 400 "Missing required fields"; fail 400 "Invalid TLD";
      fail 404 "Domain not found"; fail 401 "Invalid secret key";
      ok (JObj [("success", JBool true);
                ("message", JStr "Domain deleted successfully")]%string)].
Proof.
  unfold delete.
  destruct (_ || _ || _); [simpl; tauto|].
  destruct (negb (includes tlds _)); [simpl; tauto|].
  destruct (findOne db _ _) as [site|]; [|simpl; tauto].
  destruct (negb (bcrypt_compare X _ _)); simpl; tauto.
Qed.

(** The answers of [register]: an error, or the 201 with the secret. *)
Lemma register_shape (db : Collection) (e : Env) (b : RegisterBody) :
  (exists n msg, n <> 201 /\ fst (register X db e b) = fail n msg) \/
  fst (register X db e b)
  = {| status := 201;
       body := registered (str (reg_domain b)) (str (reg_tld b)) (secretKeyOf e) |}.
Proof.
  rewrite register_eq.
  destruct (_ || _ || _); [left; eexists _, _; split; [|reflexivity]; lia|].
  destruct (negb (includes tlds _));
    [left; eexists _, _; split; [|reflexivity]; lia|].
  destruct (findOne db _ _) as [site|];
    [left; eexists _, _; split; [|reflexivity]; lia|].
  destruct (saveNew db _) as [[paths|idx]|db'];
    [left; eexists _, _; split; [|reflexivity]; lia ..|now right].
Qed.

Lemma check_discreet (db : Collection) (d : string) (t : option string) :
  discreet (body (fst (check db d t))).
Proof.
  destruct (check_shape db d t) as [->|(a & ->)]; [apply fail_discreet|].
  split; intros H; not_listed H.
Qed.

Lemma lookup_discreet (db : Collection) (e : Env) (d t : string) :
  discreet (body (fst (lookup db e d t))).
Proof.
  destruct (lookup_shape db e d t) as [Hin|(site & _ & ->)];
    [refused Hin|apply lookupView_discreet].
Qed.

Lemma search_discreet (db : Collection) (q : option string) :
  discreet (body (fst (search X db q))).
Proof.
  destruct (search_shape db q) as [->|(rs & _ & _ & ->)];
    [apply fail_discreet|apply searchViews_discreet].
Qed.

Lemma update_discreet (db : Collection) (e : Env) (b : UpdateBody) :
  discreet (body (fst (update X db e b))).
Proof.
  destruct (update_shape db e b) as [Hin|(site & _ & ->)]; [refused Hin|].
  destruct (updateView_discreet
              (applyUpdate e (withoutSecret b) (withoutDigest site)))
    as [H1 H2].
  unfold discreet, ok. cbn [body json_keys flat_map]. rewrite app_nil_r.
  split; intros [H|[H|[H|H]]]; try discriminate; auto.
Qed.

Lemma delete_discreet (db : Collection) (b : DeleteBody) :
  discreet (body (fst (delete X db b))).
Proof.
  pose proof (delete_shape db b) as Hin. simpl in Hin.
  repeat (destruct Hin as [<-|Hin]; [apply fail_discreet|]).
  destruct Hin as [<-|[]]. split; intros H; not_listed H.
Qed.

Lemma register_discreet (db : Collection) (e : Env) (b : RegisterBody) :
  status (fst (register X db e b)) <> 201 ->
  discreet (body (fst (register X db e b))).
Proof.
  destruct (register_shape db e b) as [(n & m & _ & ->)| ->];
    [intros _; apply fail_discreet|].
  simpl. congruence.
Qed.

(** C5. A successful registration answers 201 with [success], the composed
    name [label.tag] (in the field the route calls [domain]), the secret
    just drawn, which is [v12-] followed by the hexadecimal text of the
    random bytes, and a message. The store receives one new document that
    holds the digest of the secret and nothing else of it, and no other
    answer of any route has a field for the secret. *)
Theorem register_created
        (db db' : Collection) (e : Env) (b : RegisterBody) (r : Response) :
  register X db e b = (r, db') -> status r = 201 ->
  body r = JObj [("success", JBool true);
                 ("domain", JStr (str (reg_domain b) ++ "." ++ str (reg_tld b)));
                 ("secretKey", JStr (secretKeyOf e));
                 ("message",
                  JStr "SAVE THIS KEY! If you lose it, you cannot update your site.")]%string
  /\ secretKeyOf e = ("v12-" ++ toHex (randomBytes e 8))%string
  /\ startsWith (secretKeyOf e) "v12-" = true
  /\ db' = db ++ [with_id (freshId db)
                    (newSite e (str (reg_domain b)) (str (reg_tld b))
                       (str (reg_target b))
                       (bcrypt_hash X (secretKeyOf e) 10 (salt e))
                       (reg_title b) (reg_description b))]
  /\ (forall db0 e0 b0, status (fst (register X db0 e0 b0)) <> 201 ->
                        discreet (body (fst (register X db0 e0 b0))))
  /\ (forall db0 d t, discreet (body (fst (check db0 d t))))
  /\ (forall db0 e0 d t, discreet (body (fst (lookup db0 e0 d t))))
  /\ (forall db0 q, discreet (body (fst (search X db0 q))))
  /\ (forall db0 e0 b0, discreet (body (fst (update X db0 e0 b0))))
  /\ (forall db0 b0, discreet (body (fst (delete X db0 b0)))).
Proof.
  intros H Hs.
  destruct (register_created_inv _ _ _ _ _ H Hs)
    as (_ & _ & _ & _ & _ & _ & _ & -> & ->).
  split; [reflexivity|]. split; [reflexivity|]. split; [reflexivity|].
  split; [reflexivity|].
  split; [apply register_discreet|]. split; [apply check_discreet|].
  split; [apply lookup_discreet|]. split; [apply search_discreet|].
  split; [apply update_discreet|apply delete_discreet].
Qed.

(** C8. No answer of check, lookup, search, update or delete has a field
    for the secret or for its digest, at any depth. Each answer is one of
    the fixed error messages or is computed from the request without its
    secret and from documents without their digest. A search answers with
    at most twenty views, whose only fields are [domain], [tld], [title]
    and [description] and which read neither the digest nor the target. *)
Theorem responses_keep_secrets :
  (forall db d t, discreet (body (fst (check db d t)))) /\
  (forall db e d t, discreet (body (fst (lookup db e d t)))) /\
  (forall db q, discreet (body (fst (search X db q)))) /\
  (forall db e b, discreet (body (fst (update X db e b)))) /\
  (forall db b, discreet (body (fst (delete X db b)))) /\
  (forall db d t,
      fst (check db d t) = fail 400 "Invalid TLD" \/
      exists available,
        fst (check db d t)
        = ok (JObj [("domain", JStr d); ("tld", JStr (str t));
                    ("available", JBool available);
                    ("message",
                     JStr (if available then "Domain is available"
                           else "Domain is already registered"))]%string)) /\
  (forall db e d t,
      In (fst (lookup db e d t))
         [fail 400 "Invalid TLD"; fail 404 "Domain not found";
          fail 500 "Server error"] \/
      exists site,
        findOne db d t = Some site /\
        fst (lookup db e d t)
        = ok (lookupView (with_lastAccessed (now e) (withoutDigest site)))) /\
  (forall db e b,
      In (fst (update X db e b))
         [fail 400 "Missing required fields"; fail 400 "Invalid TLD";
          fail 404 "Domain not found"; fail 401 "Invalid secret key";
          fail 500 "Server error"] \/
      exists site,
        findOne db (str (upd_domain b)) (str (upd_tld b)) = Some site /\
        fst (update X db e b)
        = ok (JObj [("success", JBool true);
                    ("message", JStr "Domain updated successfully");
                    ("site",
                     updateView (applyUpdate e (withoutSecret b)
                                             (withoutDigest site)))]%string)) /\
  (forall db b,
      In (fst (delete X db b))
         [fail 400 "Missing required fields"; fail 400 "Invalid TLD";
          fail 404 "Domain not found"; fail 401 "Invalid secret key";
          ok (JObj [("success", JBool true);
                    ("message", JStr "Domain deleted successfully")]%string)]) /\
  (forall db q,
      fst (search X db q) = fail 400 "Query parameter required" \/
      exists results,
        length results <= 20 /\
        results = firstn 20 (textSearch X (str q) db) /\
        fst (search X db q) = ok (JArr (map searchView results))) /\
  (forall site,
      incl (json_keys (searchView site))
           ["domain"; "tld"; "title"; "description"]%string) /\
  (forall site g,
      searchView (with_target g (withoutDigest site)) = searchView site).
Proof.
  split; [apply check_discreet|]. split; [apply lookup_discreet|].
  split; [apply search_discreet|]. split; [apply update_discreet|].
  split; [apply delete_discreet|]. split; [apply check_shape|].
  split; [apply lookup_shape|]. split; [apply update_shape|].
  split; [apply delete_shape|]. split; [apply search_shape|].
  split; [intros site x; apply searchView_keys|reflexivity].
Qed.

(** *** Update and delete *)

Lemma applyUpdate_frame (e : Env) (b : UpdateBody) (site : Site) :
  let site' := applyUpdate e b site in
  _id site' = _id site /\ domain site' = domain site /\ tld site' = tld site /\
  secretKeyHash site' = secretKeyHash site /\ verified site' = verified site /\
  createdAt site' = createdAt site /\ keywords site' = keywords site /\
  bodyText site' = bodyText site /\ indexedAt site' = indexedAt site.
Proof.
  unfold applyUpdate.
  destruct (truthy (upd_target b)), (upd_title b), (upd_description b);
    repeat split; reflexivity.
Qed.

Lemma applyUpdate_fields (e : Env) (b : UpdateBody) (site : Site) :
  let site' := applyUpdate e b site in
  target site' = (if truthy (upd_target b) then str (upd_target b)
                  else target site) /\
  title site' = match upd_title b with
                | Some v => Some v
                | None => title site
                end /\
  description site' = match upd_description b with
                      | Some v => Some v
                      | None => description site
                      end /\
  lastAccessed site' = now e.
Proof.
  unfold applyUpdate.
  destruct (truthy (upd_target b)), (upd_title b), (upd_description b);
    repeat split; reflexivity.
Qed.

(** What a 200 of [update] tells about the request and the store. *)
Lemma update_ok_inv (db db' : Collection) (e : Env) (b : UpdateBody)
      (r : Response) :
  update X db e b = (r, db') -> status r = 200 ->
  exists site,
    findOne db (str (upd_domain b)) (str (upd_tld b)) = Some site /\
    bcrypt_compare X (str (upd_secretKey b)) (secretKeyHash site) = true /\
    validate (applyUpdate e b site) = [] /\
    db' = replaceById (applyUpdate e b site) db.
Proof.
  unfold update. intros H Hs.
  destruct (_ || _ || _); [other_status H Hs|].
  destruct (negb (includes tlds _)); [other_status H Hs|].
  destruct (findOne db _ _) as [site|]; [|other_status H Hs].
  destruct (bcrypt_compare X _ _) eqn:Hkey; cbn [negb] in H;
    [|other_status H Hs].
  unfold save in H.
  destruct (validate (applyUpdate e b site)) eqn:Hval; [|other_status H Hs].
  inversion H; subst. now exists site.
Qed.

(** C6. An authorised update that succeeds rewrites the document it found
    and no other: [target] changes only when a non-empty one is given,
    [title] and [description] change only when given, and an empty string
    given for them is stored as it is; [lastAccessed] is refreshed; every
    other field of the document keeps its value. *)
Theorem update_frame
        (db db' : Collection) (e : Env) (b : UpdateBody) (r : Response) :
  NoDup (map _id db) ->
  update X db e b = (r, db') -> status r = 200 ->
  exists l1 site l2 site',
    db = l1 ++ site :: l2 /\ db' = l1 ++ site' :: l2 /\
    findOne db (str (upd_domain b)) (str (upd_tld b)) = Some site /\
    (* the optional fields *)
    (upd_target b = None -> target site' = target site) /\
    (upd_title b = None -> title site' = title site) /\
    (upd_description b = None -> description site' = description site) /\
    (forall g, upd_target b = Some g -> g <> ""%string -> target site' = g) /\
    (forall v, upd_title b = Some v -> title site' = Some v) /\
    (forall v, upd_description b = Some v -> description site' = Some v) /\
    (upd_title b = Some ""%string -> title site' = Some ""%string) /\
    (upd_description b = Some ""%string -> description site' = Some ""%string) /\
    lastAccessed site' = now e /\
    (* the frame *)
    _id site' = _id site /\ domain site' = domain site /\
    tld site' = tld site /\ secretKeyHash site' = secretKeyHash site /\
    verified site' = verified site /\ createdAt site' = createdAt site /\
    keywords site' = keywords site /\ bodyText site' = bodyText site /\
    indexedAt site' = indexedAt site.
Proof.
  intros Hnd H Hs.
  destruct (update_ok_inv _ _ _ _ _ H Hs) as (site & Hf & _ & _ & ->).
  destruct (findOne_split _ _ _ _ Hf) as (l1 & l2 & -> & _).
  destruct (applyUpdate_frame e b site) as (Hid & Hrest).
  destruct (applyUpdate_fields e b site) as (Hg & Hti & Hde & Hla).
  exists l1, site, l2, (applyUpdate e b site).
  split; [reflexivity|].
  split; [now apply replaceById_split|].
  split; [exact Hf|].
  split; [intros E; now rewrite Hg, E|].
  split; [intros E; now rewrite Hti, E|].
  split; [intros E; now rewrite Hde, E|].
  split; [intros g E Hne; now rewrite Hg, E, (truthy_some g Hne)|].
  split; [intros v E; now rewrite Hti, E|].
  split; [intros v E; now rewrite Hde, E|].
  split; [intros E; now rewrite Hti, E|].
  split; [intros E; now rewrite Hde, E|].
  split; [exact Hla|].
  split; [exact Hid|exact Hrest].
Qed.

(** The target also stays when it is given as the empty string. *)
Lemma update_empty_target (e : Env) (b : UpdateBody) (site : Site) :
  upd_target b = Some ""%string -> target (applyUpdate e b site) = target site.
Proof.
  intros E. destruct (applyUpdate_fields e b site) as (-> & _).
  now rewrite E.
Qed.

Lemma update_checks (db : Collection) (e : Env) (b : UpdateBody) :
  (truthy (upd_domain b) = false \/ truthy (upd_tld b) = false \/
   truthy (upd_secretKey b) = false ->
   update X db e b = (fail 400 "Missing required fields", db)) /\
  (truthy (upd_domain b) = true -> truthy (upd_tld b) = true ->
   truthy (upd_secretKey b) = true ->
   (includes tlds (str (upd_tld b)) = false ->
    update X db e b = (fail 400 "Invalid TLD", db)) /\
   (includes tlds (str (upd_tld b)) = true ->
    (findOne db (str (upd_domain b)) (str (upd_tld b)) = None ->
     update X db e b = (fail 404 "Domain not found", db)) /\
    (forall site,
        findOne db (str (upd_domain b)) (str (upd_tld b)) = Some site ->
        bcrypt_compare X (str (upd_secretKey b)) (secretKeyHash site) = false ->
        update X db e b = (fail 401 "Invalid secret key", db)))).
Proof.
  unfold update. split.
  - intros H. apply required_missing in H. now rewrite H.
  - intros Hd Ht Hk.
    rewrite (proj2 (required_present _ _ _) (conj Hd (conj Ht Hk))).
    split; [intros ->; reflexivity|]. intros ->. cbn [negb]. split.
    + intros ->. reflexivity.
    + intros site -> ->. reflexivity.
Qed.

Lemma delete_checks (db : Collection) (b : DeleteBody) :
  (truthy (del_domain b) = false \/ truthy (del_tld b) = false \/
   truthy (del_secretKey b) = false ->
   delete X db b = (fail 400 "Missing required fields", db)) /\
  (truthy (del_domain b) = true -> truthy (del_tld b) = true ->
   truthy (del_secretKey b) = true ->
   (includes tlds (str (del_tld b)) = false ->
    delete X db b = (fail 400 "Invalid TLD", db)) /\
   (includes tlds (str (del_tld b)) = true ->
    (findOne db (str (del_domain b)) (str (del_tld b)) = None ->
     delete X db b = (fail 404 "Domain not found", db)) /\
    (forall site,
        findOne db (str (del_domain b)) (str (del_tld b)) = Some site ->
        bcrypt_compare X (str (del_secretKey b)) (secretKeyHash site) = false ->
        delete X db b = (fail 401 "Invalid secret key", db)))).
Proof.
  unfold delete. split.
  - intros H. apply required_missing in H. now rewrite H.
  - intros Hd Ht Hk.
    rewrite (proj2 (required_present _ _ _) (conj Hd (conj Ht Hk))).
    split; [intros ->; reflexivity|]. intros ->. cbn [negb]. split.
    + intros ->. reflexivity.
    + intros site -> ->. reflexivity.
Qed.

(** The four refusals of a mutation are different answers. *)
Lemma refusals_distinct :
  NoDup [fail 400 "Missing required fields"; fail 400 "Invalid TLD";
         fail 404 "Domain not found"; fail 401 "Invalid secret key"].
Proof.
  repeat constructor; simpl; intuition discriminate.
Qed.

(** C7. Update and delete check in a fixed order, and each refusal is a
    different answer: a missing required field is answered 400 whatever the
    tag is; with the fields present an invalid tag is answered 400 with its
    own message; with a valid tag a missing record is answered 404 whatever
    the secret is; and for a record that exists a secret that does not
    verify is answered 401. The store is unchanged in each case. *)
Theorem mutation_refusals
        (db : Collection) (e : Env) (u : UpdateBody) (x : DeleteBody) :
  ((truthy (upd_domain u) = false \/ truthy (upd_tld u) = false \/
    truthy (upd_secretKey u) = false ->
    update X db e u = (fail 400 "Missing required fields", db)) /\
   (truthy (upd_domain u) = true -> truthy (upd_tld u) = true ->
    truthy (upd_secretKey u) = true ->
    (includes tlds (str (upd_tld u)) = false ->
     update X db e u = (fail 400 "Invalid TLD", db)) /\
    (includes tlds (str (upd_tld u)) = true ->
     (findOne db (str (upd_domain u)) (str (upd_tld u)) = None ->
      update X db e u = (fail 404 "Domain not found", db)) /\
     (forall site,
         findOne db (str (upd_domain u)) (str (upd_tld u)) = Some site ->
         bcrypt_compare X (str (upd_secretKey u)) (secretKeyHash site) = false ->
         update X db e u = (fail 401 "Invalid secret key", db))))) /\
  ((truthy (del_domain x) = false \/ truthy (del_tld x) = false \/
    truthy (del_secretKey x) = false ->
    delete X db x = (fail 400 "Missing required fields", db)) /\
   (truthy (del_domain x) = true -> truthy (del_tld x) = true ->
    truthy (del_secretKey x) = true ->
    (includes tlds (str (del_tld x)) = false ->
     delete X db x = (fail 400 "Invalid TLD", db)) /\
    (includes tlds (str (del_tld x)) = true ->
     (findOne db (str (del_domain x)) (str (del_tld x)) = None ->
      delete X db x = (fail 404 "Domain not found", db)) /\
     (forall site,
         findOne db (str (del_domain x)) (str (del_tld x)) = Some site ->
         bcrypt_compare X (str (del_secretKey x)) (secretKeyHash site) = false ->
         delete X db x = (fail 401 "Invalid secret key", db))))) /\
  NoDup [fail 400 "Missing required fields"; fail 400 "Invalid TLD";
         fail 404 "Domain not found"; fail 401 "Invalid secret key"].
Proof.
  split; [apply update_checks|]. split; [apply delete_checks|].
  apply refusals_distinct.
Qed.

(** *** Targets that fail the shape check *)

Lemma validate_applyUpdate_target (e : Env) (b : UpdateBody) (site : Site)
      (g : string) :
  upd_target b = Some g -> g <> ""%string -> targetValidator g = false ->
  validate (applyUpdate e b site) <> [].
Proof.
  intros Hb Hne Hbad Hval. apply validate_target in Hval.
  destruct (applyUpdate_fields e b site) as (Hg & _).
  rewrite Hg, Hb, (truthy_some g Hne) in Hval. simpl in Hval. congruence.
Qed.

(** C10, as amended. An update with the right name and secret and a new,
    non-empty target that fails the shape check is answered with the generic 500
    and leaves the store as it was; the same target in a registration of a
    free name is answered with a 400 that carries the validation message,
    in which the [target] path is named. *)
Theorem invalid_target_update_vs_register
        (db : Collection) (e : Env) (d t k g : string)
        (ti de : option string) (site : Site)
        (d' t' : string) (ti' de' : option string) :
  d <> ""%string -> k <> ""%string -> includes tlds t = true ->
  findOne db d t = Some site ->
  bcrypt_compare X k (secretKeyHash site) = true ->
  g <> ""%string -> targetValidator g = false ->
  update X db e {| upd_domain := Some d; upd_tld := Some t;
                   upd_secretKey := Some k; upd_target := Some g;
                   upd_title := ti; upd_description := de |}
  = (fail 500 "Server error", db)
  /\ (d' <> ""%string -> includes tlds t' = true -> findOne db d' t' = None ->
      exists paths,
        In "target"%string paths /\
        register X db e {| reg_domain := Some d'; reg_tld := Some t';
                           reg_target := Some g; reg_title := ti';
                           reg_description := de' |}
        = (fail 400 (validationMessage X paths), db)).
Proof.
  intros Hd Hk Ht Hf Hkey Hg Hbad.
  assert (Htne : forall s, includes tlds s = true -> s <> ""%string)
    by (intros s Hs ->; discriminate).
  split.
  - unfold update. cbn [upd_domain upd_tld upd_secretKey str].
    rewrite (truthy_some d Hd), (truthy_some t (Htne t Ht)),
      (truthy_some k Hk), Ht, Hf, Hkey.
    cbn [negb orb]. unfold save.
    set (b := {| upd_domain := Some d; upd_tld := Some t;
                 upd_secretKey := Some k; upd_target := Some g;
                 upd_title := ti; upd_description := de |}).
    pose proof (validate_applyUpdate_target e b site g eq_refl Hg Hbad) as Hv.
    destruct (validate (applyUpdate e b site)); [contradiction|reflexivity].
  - intros Hd' Ht' Hf'. rewrite register_eq.
    cbn [reg_domain reg_tld reg_target str].
    rewrite (truthy_some d' Hd'), (truthy_some t' (Htne t' Ht')),
      (truthy_some g Hg), Ht', Hf'.
    cbn [negb orb]. unfold saveNew.
    set (b := {| reg_domain := Some d'; reg_tld := Some t';
                 reg_target := Some g; reg_title := ti';
                 reg_description := de' |}).
    assert (Hin : In "target"%string (validate (siteOf X e b)))
      by (apply validate_target_fails; exact Hbad).
    destruct (validate (siteOf X e b)) as [|p ps]; [destruct Hin|].
    exists (p :: ps). split; [exact Hin|reflexivity].
Qed.

(** *** Conflicts *)

(** With the required fields present and a valid tag, [register] answers
    409 exactly when the collection has a document for the pair. *)
Lemma register_conflict_iff (db : Collection) (e : Env) (b : RegisterBody) :
  truthy (reg_domain b) = true -> truthy (reg_tld b) = true ->
  truthy (reg_target b) = true -> includes tlds (str (reg_tld b)) = true ->
  (status (fst (register X db e b)) = 409 <->
   exists site, findOne db (str (reg_domain b)) (str (reg_tld b)) = Some site).
Proof.
  intros Hd Ht Hg Htld. rewrite register_eq.
  rewrite (proj2 (required_present _ _ _) (conj Hd (conj Ht Hg))), Htld.
  cbn [negb].
  destruct (findOne db _ _) as [site|].
  - split; [intros _; now exists site|reflexivity].
  - split; [|intros [site Hs]; discriminate].
    destruct (saveNew db _) as [[paths|idx]|db']; simpl; intros H; lia.
Qed.

(** The unique index of the schema: a free pair is refused all the same
    when another document has the label. *)
Lemma register_label_taken (db : Collection) (e : Env) (b : RegisterBody) :
  truthy (reg_domain b) = true -> truthy (reg_tld b) = true ->
  truthy (reg_target b) = true -> includes tlds (str (reg_tld b)) = true ->
  findOne db (str (reg_domain b)) (str (reg_tld b)) = None ->
  validate (siteOf X e b) = [] ->
  existsb (fun s => String.eqb (domain s) (toLowerCase (str (reg_domain b)))) db
  = true ->
  register X db e b = (fail 500 "Server error", db).
Proof.
  intros Hd Ht Hg Htld Hf Hv Hdup. rewrite register_eq.
  rewrite (proj2 (required_present _ _ _) (conj Hd (conj Ht Hg))), Htld, Hf.
  cbn [negb]. unfold saveNew. rewrite Hv.
  change (domain (siteOf X e b)) with (toLowerCase (str (reg_domain b))).
  now rewrite Hdup.
Qed.

End Routes.
End RegistrarFacts.

(** ** The resolver client *)
Module ResolverFacts.
Import JsString Json Resolver Contract.

Lemma eqb_false (a b : string) : a <> b -> String.eqb a b = false.
Proof. intros H. now apply String.eqb_neq. Qed.

(** The handler on a name it sends to the registrar, when no favicon is
    asked for: what remains is the lookup and what follows it. *)
Lemma handle_registrable (w : World) (hostname pathname domain tld : string) :
  registrable hostname domain tld -> pathname <> "/favicon.ico" ->
  handle w hostname pathname
  = async (
      tryCatch (
        tryCatch (
          await (fetch w (lookupUrl domain tld)) (fun dnsResponse =>
            if ok dnsResponse then
              await (json_of w dnsResponse) (fun siteData =>
                tryCatch (
                  match targetOf siteData with
                  | inl err => Throw err
                  | inr target => Return (net_fetch w target)
                  end)
                (fun _ => Return (Fulfilled (failedPage hostname))))
            else Next))
        (fun _ => Next) ;;
        Return (Fulfilled (notRegisteredPage hostname)))
      (fun _ => Return (Fulfilled (plainResponse "Error loading content" 500)))).
Proof.
  intros (H1 & H2 & H3 & Hd & Ht & Hdne & Htne) Hp. unfold handle.
  rewrite (eqb_false _ _ Hp), (eqb_false _ _ H1), (eqb_false _ _ H2),
    (eqb_false _ _ H3).
  cbn [seq]. rewrite Hd, Ht.
  now rewrite (eqb_false _ _ Hdne), (eqb_false _ _ Htne).
Qed.

(** After a lookup that succeeded, the handler's promise is the promise of
    the fetch of the target: fulfilled with what the fetch is fulfilled
    with, rejected when the fetch is rejected. *)
Lemma handle_after_lookup (w : World) (hostname pathname domain tld : string)
      (dnsResponse : HttpResponse) (siteData : json) (target : option json) :
  registrable hostname domain tld -> pathname <> "/favicon.ico" ->
  fetch w (lookupUrl domain tld) = Fulfilled dnsResponse ->
  ok dnsResponse = true ->
  parse w (text dnsResponse) = Some siteData ->
  targetOf siteData = inr target ->
  handle w hostname pathname
  = match net_fetch w target with
    | Fulfilled r => Fulfilled (Some r)
    | Rejected err => Rejected err
    end.
Proof.
  intros Hreg Hp Hdns Hok Hparse Htarget.
  rewrite (handle_registrable w hostname pathname domain tld Hreg Hp).
  rewrite Hdns. cbn [await]. rewrite Hok. unfold json_of. rewrite Hparse.
  cbn [await]. rewrite Htarget.
  destruct (net_fetch w target); reflexivity.
Qed.

(** A lookup that is rejected, or answered with an error status, ends in
    the document for a name that is not registered. *)
Lemma handle_lookup_fails (w : World) (hostname pathname domain tld : string) :
  registrable hostname domain tld -> pathname <> "/favicon.ico" ->
  (forall r, fetch w (lookupUrl domain tld) = Fulfilled r -> ok r = false) ->
  handle w hostname pathname = Fulfilled (Some (notRegisteredPage hostname)).
Proof.
  intros Hreg Hp Hdns.
  rewrite (handle_registrable w hostname pathname domain tld Hreg Hp).
  destruct (fetch w (lookupUrl domain tld)) as [r|err] eqn:E.
  - cbn [await]. now rewrite (Hdns r eq_refl).
  - reflexivity.
Qed.

(** The catch around the fetch of the target is reached by a throw of the
    expression itself, as when the registrar answers [null]. *)
Lemma handle_null_answer (w : World) (hostname pathname domain tld : string)
      (dnsResponse : HttpResponse) :
  registrable hostname domain tld -> pathname <> "/favicon.ico" ->
  fetch w (lookupUrl domain tld) = Fulfilled dnsResponse ->
  ok dnsResponse = true ->
  parse w (text dnsResponse) = Some JNull ->
  handle w hostname pathname = Fulfilled (Some (failedPage hostname)).
Proof.
  intros Hreg Hp Hdns Hok Hparse.
  rewrite (handle_registrable w hostname pathname domain tld Hreg Hp).
  rewrite Hdns. cbn [await]. rewrite Hok. unfold json_of. rewrite Hparse.
  reflexivity.
Qed.

(** C2, on the code. For [virt://myapp.vc/], when the registrar answers
    the lookup and the fetch of the target is rejected, the rejection is
    the outcome of the handler: no placeholder document is returned. *)
Theorem handle_target_down :
  fetch Fixtures.targetDown (lookupUrl "myapp" "vc")
  = Fulfilled {| status := 200; contentType := Some "application/json";
                 text := Fixtures.lookupAnswer |} /\
  net_fetch Fixtures.targetDown (Some (JStr "https://example.com/"))
  = Rejected (FetchError "net::ERR_CONNECTION_REFUSED") /\
  handle Fixtures.targetDown "myapp.vc" "/"
  = Rejected (FetchError "net::ERR_CONNECTION_REFUSED") /\
  handle Fixtures.targetDown "myapp.vc" "/"
  <> Fulfilled (Some (failedPage "myapp.vc")) /\
  handle Fixtures.targetDown "myapp.vc" "/"
  <> Fulfilled (Some (notRegisteredPage "myapp.vc")).
Proof.
  assert (H : handle Fixtures.targetDown "myapp.vc" "/"
              = Rejected (FetchError "net::ERR_CONNECTION_REFUSED"))
    by (vm_compute; reflexivity).
  split; [reflexivity|]. split; [reflexivity|]. split; [exact H|].
  rewrite H. split; discriminate.
Qed.

End ResolverFacts.

(** ** The invariant of the store *)
Module InvariantFacts.
Import JsString Json Store StoreFacts Registrar RegistrarFacts.
Local Open Scope list_scope.

Lemma freshId_new (db : Collection) : ~ In (freshId db) (map _id db).
Proof.
  unfold freshId. intros H.
  assert (Hle : Forall (fun k => k <= list_max (map _id db)) (map _id db))
    by (apply list_max_le; lia).
  rewrite Forall_forall in Hle. apply Hle in H. lia.
Qed.

Lemma existsb_domain_false (db : Collection) (d : string) :
  existsb (fun s => String.eqb (domain s) d) db = false ->
  ~ In d (map domain db).
Proof.
  intros H Hin. apply in_map_iff in Hin. destruct Hin as (s & <- & Hs).
  assert (E : existsb (fun s0 => String.eqb (domain s0) (domain s)) db = true)
    by (apply existsb_exists; exists s; split; [exact Hs|apply String.eqb_refl]).
  congruence.
Qed.

Lemma NoDup_snoc {A : Type} (l : list A) (a : A) :
  NoDup l -> ~ In a l -> NoDup (l ++ [a]).
Proof.
  intros Hl Ha. apply NoDup_app.
  - exact Hl.
  - repeat constructor. intros [].
  - intros x Hx [<-|[]]. contradiction.
Qed.

(** Replacing the document found by one with the same [_id] and [domain]
    that passes validation keeps the store well formed. *)
Lemma replace_wellFormed (l1 l2 : Collection) (site doc : Site) :
  wellFormed (l1 ++ site :: l2) ->
  _id doc = _id site -> domain doc = domain site -> validate doc = [] ->
  wellFormed (replaceById doc (l1 ++ site :: l2)).
Proof.
  intros (Hid & Hdom & Hval) Ei Ed Ev.
  rewrite (replaceById_split l1 l2 site doc Hid Ei).
  unfold wellFormed. rewrite !map_app in *. simpl in *.
  rewrite Ei, Ed. split; [exact Hid|]. split; [exact Hdom|].
  apply Forall_app in Hval. destruct Hval as [H1 H2].
  apply Forall_app. split; [exact H1|].
  inversion H2; subst. now constructor.
Qed.

Section Routes.
Variable X : Externals.

Lemma register_unchanged_or_created (db : Collection) (e : Env)
      (b : RegisterBody) :
  snd (register X db e b) = db \/ status (fst (register X db e b)) = 201.
Proof.
  rewrite register_eq.
  destruct (_ || _ || _); [now left|].
  destruct (negb (includes tlds _)); [now left|].
  destruct (findOne db _ _); [now left|].
  destruct (saveNew db _) as [[paths|idx]|db'']; [now left|now left|now right].
Qed.

Lemma register_wellFormed (db : Collection) (e : Env) (b : RegisterBody) :
  wellFormed db -> wellFormed (snd (register X db e b)).
Proof.
  intros Hwf.
  destruct (register_unchanged_or_created db e b) as [->|Hs]; [exact Hwf|].
  destruct (register_created_inv X _ _ _ _ _
              (surjective_pairing (register X db e b)) Hs)
    as (_ & _ & _ & _ & _ & Hv & Hdup & -> & _).
  destruct Hwf as (Hid & Hdom & Hval).
  unfold wellFormed. rewrite !map_app. simpl.
  split; [apply NoDup_snoc; [exact Hid|apply freshId_new]|].
  split; [apply NoDup_snoc;
          [exact Hdom|now apply existsb_domain_false]|].
  apply Forall_app. split; [exact Hval|]. now repeat constructor.
Qed.

Lemma update_wellFormed (db : Collection) (e : Env) (b : UpdateBody) :
  wellFormed db -> wellFormed (snd (update X db e b)).
Proof.
  intros Hwf. unfold update.
  destruct (_ || _ || _); [exact Hwf|].
  destruct (negb (includes tlds _)); [exact Hwf|].
  destruct (findOne db _ _) as [site|] eqn:Hf; [|exact Hwf].
  destruct (negb (bcrypt_compare X _ _)); [exact Hwf|].
  unfold save. destruct (validate (applyUpdate e b site)) eqn:Hv; [|exact Hwf].
  simpl. destruct (findOne_split _ _ _ _ Hf) as (l1 & l2 & -> & _).
  destruct (applyUpdate_frame e b site) as (Hi & Hd & _).
  now apply replace_wellFormed.
Qed.

Lemma lookup_wellFormed (db : Collection) (e : Env) (d t : string) :
  wellFormed db -> wellFormed (snd (lookup db e d t)).
Proof.
  intros Hwf. unfold lookup.
  destruct (negb (includes tlds t)); [exact Hwf|].
  destruct (findOne db d t) as [site|] eqn:Hf; [|exact Hwf].
  unfold save.
  destruct (validate (with_lastAccessed (now e) site)) eqn:Hv; [|exact Hwf].
  simpl. destruct (findOne_split _ _ _ _ Hf) as (l1 & l2 & -> & _).
  now apply replace_wellFormed.
Qed.

Lemma delete_wellFormed (db : Collection) (b : DeleteBody) :
  wellFormed db -> wellFormed (snd (delete X db b)).
Proof.
  intros Hwf. unfold delete.
  destruct (_ || _ || _); [exact Hwf|].
  destruct (negb (includes tlds _)); [exact Hwf|].
  destruct (findOne db _ _) as [site|] eqn:Hf; [|exact Hwf].
  destruct (negb (bcrypt_compare X _ _)); [exact Hwf|].
  simpl. destruct (findOne_split _ _ _ _ Hf) as (l1 & l2 & -> & _).
  destruct Hwf as (Hid & Hdom & Hval).
  rewrite (deleteOne_split l1 l2 site Hid).
  unfold wellFormed. rewrite !map_app in *. simpl in *.
  split; [now apply NoDup_remove_1 in Hid|].
  split; [now apply NoDup_remove_1 in Hdom|].
  apply Forall_app in Hval. destruct Hval as [H1 H2].
  apply Forall_app. split; [exact H1|]. now inversion H2.
Qed.

(** In a well-formed store a pair has at most one document, and a lookup
    of a pair that was registered never fails on the save. *)
Lemma wellFormed_found_valid (db : Collection) (d t : string) (site : Site) :
  wellFormed db -> findOne db d t = Some site -> validate site = [].
Proof.
  intros (_ & _ & Hval) Hf.
  destruct (findOne_split _ _ _ _ Hf) as (l1 & l2 & -> & _).
  apply Forall_app in Hval. destruct Hval as [_ H2]. now inversion H2.
Qed.

End Routes.
End InvariantFacts.

(** ** The routes on concrete requests *)
Module Scenarios.
Import JsString Json Store Registrar Fixtures Samples RegistrarFacts.
Local Open Scope list_scope.

Example oneSite_wellFormed : wellFormed oneSite.
Proof.
  unfold wellFormed. vm_compute.
  repeat split; repeat constructor; intros [].
Qed.

(** C1, on the code. With [myapp.vc] registered, the pair [(myapp, at)] is
    free: [findOne] finds nothing and [check] reports the name available.
    Its registration is still refused, by the unique index on [domain],
    and the route answers with the generic 500. *)
Theorem register_other_tag_refused :
  findOne oneSite "myapp" "at" = None /\
  check oneSite "myapp" (Some "at"%string)
  = (ok (JObj [("domain", JStr "myapp"); ("tld", JStr "at");
               ("available", JBool true);
               ("message", JStr "Domain is available")]%string), oneSite) /\
  register testExternals oneSite laterEnv
           (registration "myapp" "at" "https://example.com")
  = (fail 500 "Server error", oneSite) /\
  status (fst (register testExternals oneSite laterEnv
                        (registration "myapp" "at" "https://example.com")))
  <> 201.
Proof.
  split; [reflexivity|]. split; [reflexivity|].
  assert (H : register testExternals oneSite laterEnv
                       (registration "myapp" "at" "https://example.com")
              = (fail 500 "Server error", oneSite))
    by (apply register_label_taken; reflexivity).
  split; [exact H|]. rewrite H. simpl. lia.
Qed.

(** C3, on the code. The triple [(myapp, at, https://example.com)] is
    valid: the document made from it passes the schema, and its pair is free
    in the store that holds [myapp.vc]. Its registration is refused all the
    same, by the unique index on [domain], and the lookup that follows finds
    no document: it answers 404 and no target comes back. On the empty
    store the same registration is answered 201 and the lookup gives the
    target, and the target as raw base. *)
Theorem register_valid_then_lookup_not_found :
  validate (siteOf testExternals laterEnv
              (registration "myapp" "at" "https://example.com")) = [] /\
  findOne oneSite "myapp" "at" = None /\
  register testExternals oneSite laterEnv
           (registration "myapp" "at" "https://example.com")
  = (fail 500 "Server error", oneSite) /\
  lookup (snd (register testExternals oneSite laterEnv
                 (registration "myapp" "at" "https://example.com")))
         laterEnv "myapp" "at"
  = (fail 404 "Domain not found", oneSite) /\
  status (fst (register testExternals [] laterEnv
                 (registration "myapp" "at" "https://example.com"))) = 201 /\
  exists site db2,
    lookup (snd (register testExternals [] laterEnv
                   (registration "myapp" "at" "https://example.com")))
           laterEnv "myapp" "at"
    = (ok (lookupView site), db2) /\
    json_get "target" (lookupView site)
    = Some (JStr "https://example.com") /\
    json_get "rawBase" (lookupView site)
    = Some (JStr "https://example.com").
Proof.
  assert (H : register testExternals oneSite laterEnv
                       (registration "myapp" "at" "https://example.com")
              = (fail 500 "Server error", oneSite))
    by (apply register_label_taken; reflexivity).
  split; [reflexivity|]. split; [reflexivity|]. split; [exact H|].
  split; [rewrite H; reflexivity|]. split; [reflexivity|].
  eexists. eexists. split; [reflexivity|]. split; reflexivity.
Qed.

(** C10, on the code. The empty text fails the shape check, and an update
    of [myapp.vc] that carries it with the right secret is not refused: the
    route takes an empty target for no target, answers 200, and writes the
    document back with a new [lastAccessed] and the old target. *)
Lemma update_empty_target_accepted :
  targetValidator EmptyString = false /\
  findOne oneSite "myapp" "vc" = Some myapp /\
  bcrypt_compare testExternals oneSiteKey (secretKeyHash myapp) = true /\
  status (fst (update testExternals oneSite laterEnv emptyTargetUpdate)) = 200 /\
  update testExternals oneSite laterEnv emptyTargetUpdate
  <> (fail 500 "Server error", oneSite) /\
  snd (update testExternals oneSite laterEnv emptyTargetUpdate) <> oneSite /\
  map lastAccessed oneSite = [now testEnv] /\
  map lastAccessed (snd (update testExternals oneSite laterEnv emptyTargetUpdate))
  = [now laterEnv] /\
  map target (snd (update testExternals oneSite laterEnv emptyTargetUpdate))
  = map target oneSite.
Proof.
  assert (Hla : map lastAccessed
                  (snd (update testExternals oneSite laterEnv emptyTargetUpdate))
                = [now laterEnv]) by reflexivity.
  repeat split; try reflexivity.
  - intros H.
    apply (f_equal (fun p => status (fst p))) in H. vm_compute in H. lia.
  - intros H. rewrite H in Hla. vm_compute in Hla. inversion Hla; lia.
Qed.

Lemma register_created_witness :
  json_get "secretKey"
    (body (fst (register testExternals [] testEnv
                  (registration "myapp" "vc" "https://github.com/u/r"))))
  = Some (JStr "v12-0123456789abcdef") /\
  map secretKeyHash oneSite
  = [bcrypt_hash testExternals "v12-0123456789abcdef" 10 (salt testEnv)].
Proof.
  destruct (register_created testExternals [] oneSite testEnv
              (registration "myapp" "vc" "https://github.com/u/r")
              {| status := 201; body := registered "myapp" "vc" oneSiteKey |}
              eq_refl eq_refl)
    as (_ & _ & _ & H & _).
  split; [reflexivity|]. rewrite H. reflexivity.
Defined.

Lemma update_frame_witness :
  exists site site',
    oneSite = [site] /\
    snd (update testExternals oneSite laterEnv clearTitle) = [site'] /\
    target site' = target site /\ title site' = Some ""%string /\
    lastAccessed site' = now laterEnv /\
    secretKeyHash site' = secretKeyHash site.
Proof.
  assert (Hnd : NoDup (map _id oneSite))
    by (vm_compute; repeat constructor; intros []).
  destruct (update_frame testExternals oneSite
              (snd (update testExternals oneSite laterEnv clearTitle))
              laterEnv clearTitle
              (fst (update testExternals oneSite laterEnv clearTitle))
              Hnd eq_refl eq_refl)
    as (l1 & site & l2 & site' & H1 & H2 & _ & Hg & _ & _ & _ & _ & _ & Hti
        & _ & Hla & _ & _ & _ & Hh & _).
  destruct l1 as [|x l1].
  - destruct l2 as [|y l2]; [|discriminate H1].
    exists site, site'. split; [exact H1|]. split; [exact H2|].
    split; [now apply Hg|]. split; [now apply Hti|]. split; [exact Hla|exact Hh].
  - destruct l1; discriminate H1.
Defined.

Lemma mutation_refusals_witness :
  update testExternals oneSite laterEnv wrongKeyUpdate
  = (fail 401 "Invalid secret key", oneSite) /\
  delete testExternals oneSite wrongKeyDelete
  = (fail 401 "Invalid secret key", oneSite).
Proof.
  destruct (mutation_refusals testExternals oneSite laterEnv
              wrongKeyUpdate wrongKeyDelete)
    as ((_ & Hu) & (_ & Hd) & _).
  destruct (Hu eq_refl eq_refl eq_refl) as (_ & Hu').
  destruct (Hd eq_refl eq_refl eq_refl) as (_ & Hd').
  destruct (Hu' eq_refl) as (_ & Hu'').
  destruct (Hd' eq_refl) as (_ & Hd'').
  split.
  - apply (Hu'' myapp);
      reflexivity.
  - apply (Hd'' myapp);
      reflexivity.
Defined.

Lemma invalid_target_update_vs_register_witness :
  update testExternals oneSite laterEnv badTargetUpdate
  = (fail 500 "Server error", oneSite) /\
  exists paths,
    In "target"%string paths /\
    register testExternals oneSite laterEnv
             (registration "other" "at" "ftp://example.org")
    = (fail 400 (validationMessage testExternals paths), oneSite).
Proof.
  assert (Hne : forall a s, String a s <> ""%string) by (intros a s H; discriminate H).
  destruct (invalid_target_update_vs_register testExternals oneSite laterEnv
              "myapp" "vc" oneSiteKey "ftp://example.org" None None
              myapp
              "other" "at" None None
              (Hne _ _) (Hne _ _) eq_refl eq_refl eq_refl (Hne _ _) eq_refl)
    as (Hu & Hr).
  split; [exact Hu|]. apply Hr; [apply Hne|reflexivity|reflexivity].
Defined.

End Scenarios.

(** ** How the routes compose *)
Module RegistrarLaws.
Import JsString JsStringFacts Json Store StoreFacts Registrar RegistrarFacts.
Import InvariantFacts Contract.
Local Open Scope list_scope.

Lemma lowerChar_idem (c : ascii) : lowerChar (lowerChar c) = lowerChar c.
Proof.
  destruct c as [[] [] [] [] [] [] [] []]; reflexivity.
Qed.

Lemma toLowerCase_idem (s : string) :
  toLowerCase (toLowerCase s) = toLowerCase s.
Proof.
  induction s as [|c s IH]; simpl; [reflexivity|].
  now rewrite lowerChar_idem, IH.
Qed.

(** [findOne] reads the label through the setter only. *)
Lemma findOne_lower (db : Collection) (d d' t : string) :
  toLowerCase d' = toLowerCase d -> findOne db d' t = findOne db d t.
Proof. unfold findOne. now intros ->. Qed.

Lemma findOne_none_app (l1 l2 : Collection) (d t : string) :
  findOne l1 d t = None -> findOne (l1 ++ l2) d t = findOne l2 d t.
Proof.
  unfold findOne. induction l1 as [|x l1 IH]; simpl; [reflexivity|].
  destruct (String.eqb (domain x) (toLowerCase d) && String.eqb (tld x) t);
    [discriminate|exact IH].
Qed.

Lemma findOne_head (site : Site) (l : Collection) (d t : string) :
  domain site = toLowerCase d -> tld site = t ->
  findOne (site :: l) d t = Some site.
Proof.
  unfold findOne. simpl. intros -> ->. now rewrite !String.eqb_refl.
Qed.

(** With distinct labels, nothing after the document found matches. *)
Lemma findOne_other_labels (l : Collection) (d t : string) :
  ~ In (toLowerCase d) (map domain l) -> findOne l d t = None.
Proof.
  unfold findOne. induction l as [|x l IH]; simpl; [reflexivity|].
  intros Hnotin.
  destruct (String.eqb_spec (domain x) (toLowerCase d)) as [E|E].
  - exfalso. apply Hnotin. now left.
  - simpl. apply IH. intros Hin. apply Hnotin. now right.
Qed.

Lemma findOne_rest_none (site : Site) (l : Collection) (d t : string) :
  NoDup (map domain (site :: l)) -> domain site = toLowerCase d ->
  findOne l d t = None.
Proof.
  simpl. intros Hnd Hd. inversion Hnd as [|? ? Hnotin _]; subst.
  apply findOne_other_labels. now rewrite <- Hd.
Qed.

Lemma deleteOne_last (db : Collection) (doc : Site) :
  ~ In (_id doc) (map _id db) -> deleteOne (_id doc) (db ++ [doc]) = db.
Proof.
  intros Hnotin. induction db as [|x db IH]; simpl in *.
  - now rewrite Nat.eqb_refl.
  - destruct (Nat.eqb_spec (_id x) (_id doc)) as [E|E].
    + exfalso. apply Hnotin. now left.
    + f_equal. apply IH. intros H. apply Hnotin. now right.
Qed.

Lemma length_toLowerCase (s : string) :
  String.length (toLowerCase s) = String.length s.
Proof. induction s as [|c s IH]; simpl; [reflexivity|now rewrite IH]. Qed.

Lemma existsb_domain_free (db : Collection) (d : string) :
  ~ In d (map domain db) ->
  existsb (fun s => String.eqb (domain s) d) db = false.
Proof.
  intros H. destruct (existsb _ db) eqn:E; [|reflexivity].
  apply existsb_exists in E. destruct E as (s & Hs & Hd).
  apply String.eqb_eq in Hd. exfalso. apply H. rewrite <- Hd.
  now apply in_map.
Qed.

Section Routes.
Variable X : Externals.

(** [lookup] reads the label through the setter only. *)
Lemma lookup_lower (db : Collection) (e : Env) (d d' t : string) :
  toLowerCase d' = toLowerCase d -> lookup db e d' t = lookup db e d t.
Proof. intros H. unfold lookup. now rewrite (findOne_lower _ _ _ _ H). Qed.

(** A request whose fields pass the schema, for a label that no document
    has, is answered 201 and the document is appended. *)
Lemma register_free_label
      (db : Collection) (e : Env) (b : RegisterBody) :
  3 <= String.length (str (reg_domain b)) <= 63 ->
  includes tlds (str (reg_tld b)) = true ->
  targetValidator (str (reg_target b)) = true ->
  maxlength 100 (reg_title b) = true ->
  maxlength 500 (reg_description b) = true ->
  bcrypt_hash X (secretKeyOf e) 10 (salt e) <> ""%string ->
  ~ In (toLowerCase (str (reg_domain b))) (map domain db) ->
  register X db e b
  = ({| status := 201;
        body := registered (str (reg_domain b)) (str (reg_tld b))
                           (secretKeyOf e) |},
     db ++ [with_id (freshId db) (siteOf X e b)]).
Proof.
  intros Hlen Htld Hg Hti Hde Hh Hfree.
  assert (Hd : truthy (reg_domain b) = true).
  { destruct (reg_domain b) as [d|]; simpl in *; [|lia].
    destruct d; simpl in *; [lia|reflexivity]. }
  assert (Ht : truthy (reg_tld b) = true).
  { destruct (reg_tld b) as [t|]; simpl in *; [|discriminate].
    destruct t; [discriminate|reflexivity]. }
  assert (Hgt : truthy (reg_target b) = true).
  { destruct (reg_target b) as [g|]; simpl in *; [|discriminate].
    destruct g; [discriminate|reflexivity]. }
  assert (Hval : validate (siteOf X e b) = []).
  { apply validate_nil. cbn [siteOf newSite domain tld target secretKeyHash
                             title description].
    rewrite length_toLowerCase.
    repeat split; try assumption.
    - apply andb_true_iff. split; [apply andb_true_iff; split|].
      + destruct (str (reg_domain b)); simpl in *; [lia|reflexivity].
      + apply Nat.leb_le. lia.
      + apply Nat.leb_le. lia.
    - rewrite Htld.
      destruct (str (reg_tld b)); [discriminate|reflexivity].
    - rewrite Hg.
      destruct (str (reg_target b)); [discriminate|reflexivity].
    - unfold nonEmpty. destruct (String.eqb_spec
                                   (bcrypt_hash X (secretKeyOf e) 10 (salt e))
                                   ""%string); [contradiction|reflexivity]. }
  rewrite register_eq.
  rewrite (proj2 (required_present _ _ _) (conj Hd (conj Ht Hgt))), Htld.
  cbn [negb]. rewrite (findOne_other_labels _ _ _ Hfree).
  unfold saveNew. rewrite Hval.
  change (domain (siteOf X e b)) with (toLowerCase (str (reg_domain b))).
  now rewrite (existsb_domain_free _ _ Hfree).
Qed.

(** X9. Labels are matched without regard to letter case. After a
    registration answered 201, a lookup of the label in any spelling with
    the same lower-case form answers 200 with the lower-case label, the tag
    and the registered target, and [check] reports the pair as taken; and on
    every store a lookup of that spelling is the lookup of the registered
    one. Lower-casing is that of [toLowerCase] on character codes below
    256. *)
Theorem lookup_case_insensitive
        (db db1 : Collection) (e e' : Env) (b : RegisterBody) (r : Response)
        (d' : string) :
  toLowerCase d' = toLowerCase (str (reg_domain b)) ->
  register X db e b = (r, db1) -> status r = 201 ->
  (exists site db2,
     lookup db1 e' d' (str (reg_tld b)) = (ok (lookupView site), db2) /\
     json_get "domain" (lookupView site) = Some (JStr (toLowerCase d')) /\
     json_get "tld" (lookupView site) = Some (JStr (str (reg_tld b))) /\
     json_get "target" (lookupView site)
     = Some (JStr (str (reg_target b)))) /\
  json_get "available" (body (fst (check db1 d' (reg_tld b))))
  = Some (JBool false) /\
  (forall c u t, lookup c u d' t = lookup c u (str (reg_domain b)) t).
Proof.
  intros Hlow H Hs. split; [|split].
  - destruct (lookup_after_created X _ _ _ e' _ _ H Hs)
      as (site & db2 & Hl & Hd & Ht & Hg & _).
    exists site, db2. rewrite (lookup_lower _ _ _ _ _ Hlow).
    split; [exact Hl|]. rewrite Hlow, <- Hd, <- Ht, <- Hg.
    repeat split.
  - destruct (register_created_inv X _ _ _ _ _ H Hs)
      as (_ & Ht & _ & Htld & Hfind & _ & _ & -> & _).
    unfold check. rewrite Ht, Htld. cbn [negb orb].
    rewrite (findOne_lower _ _ _ _ Hlow).
    rewrite (findOne_app_new db (with_id (freshId db) (siteOf X e b)) _ _
               Hfind eq_refl eq_refl).
    reflexivity.
  - intros c u t. now apply lookup_lower.
Qed.

(** X3. A pair that was registered cannot be registered again, in whatever
    case the label is written: a second request whose label has the same
    lower-case form, for character codes below 256 the one of
    [toLowerCase], is answered 409 and the store keeps the one document. *)
Theorem register_twice_conflict
        (db db1 : Collection) (e e' : Env) (b b' : RegisterBody) (r : Response) :
  register X db e b = (r, db1) -> status r = 201 ->
  truthy (reg_domain b') = true -> truthy (reg_target b') = true ->
  toLowerCase (str (reg_domain b')) = toLowerCase (str (reg_domain b)) ->
  reg_tld b' = reg_tld b ->
  register X db1 e' b' = (fail 409 "Domain already registered", db1).
Proof.
  intros H Hs Hd' Hg' Hlow Ht'.
  destruct (register_created_inv X _ _ _ _ _ H Hs)
    as (_ & Ht & _ & Htld & Hfind & _ & _ & -> & _).
  rewrite register_eq, Ht'.
  rewrite (proj2 (required_present _ _ _) (conj Hd' (conj Ht Hg'))), Htld.
  cbn [negb]. rewrite (findOne_lower _ _ _ _ Hlow).
  rewrite (findOne_app_new db (with_id (freshId db) (siteOf X e b)) _ _
             Hfind eq_refl eq_refl).
  reflexivity.
Qed.

(** X4. [check] and [register] agree on conflicts: for a request with its
    required fields and a valid tag, [check] reports the pair as taken
    exactly when [register] answers 409. *)
Theorem check_agrees_with_register
        (db : Collection) (e : Env) (b : RegisterBody) :
  truthy (reg_domain b) = true -> truthy (reg_tld b) = true ->
  truthy (reg_target b) = true -> includes tlds (str (reg_tld b)) = true ->
  (json_get "available"
     (body (fst (check db (str (reg_domain b)) (reg_tld b))))
   = Some (JBool false)
   <-> status (fst (register X db e b)) = 409).
Proof.
  intros Hd Ht Hg Htld.
  rewrite (register_conflict_iff X db e b Hd Ht Hg Htld).
  unfold check. rewrite Ht, Htld. cbn [negb orb].
  destruct (findOne db _ _) as [site|]; simpl.
  - split; [intros _; now exists site|reflexivity].
  - split; [discriminate|intros [site Hs]; discriminate].
Qed.

(** What a 200 of [delete] tells about the request and the store. *)
Lemma delete_ok_inv (db db' : Collection) (b : DeleteBody) (r : Response) :
  delete X db b = (r, db') -> status r = 200 ->
  includes tlds (str (del_tld b)) = true /\
  exists site,
    findOne db (str (del_domain b)) (str (del_tld b)) = Some site /\
    bcrypt_compare X (str (del_secretKey b)) (secretKeyHash site) = true /\
    db' = deleteOne (_id site) db.
Proof.
  unfold delete. intros H Hs.
  destruct (_ || _ || _); [other_status H Hs|].
  destruct (includes tlds _) eqn:Ht; cbn [negb] in H; [|other_status H Hs].
  destruct (findOne db _ _) as [site|]; [|other_status H Hs].
  destruct (bcrypt_compare X _ _) eqn:Hkey; cbn [negb] in H;
    [|other_status H Hs].
  inversion H; subst. split; [reflexivity|]. now exists site.
Qed.

(** What a 200 of [lookup] tells about the request and the store. *)
Lemma lookup_ok_inv (db db' : Collection) (e : Env) (d t : string)
      (r : Response) :
  lookup db e d t = (r, db') -> status r = 200 ->
  exists site,
    findOne db d t = Some site /\
    r = ok (lookupView (with_lastAccessed (now e) site)) /\
    db' = replaceById (with_lastAccessed (now e) site) db.
Proof.
  unfold lookup. intros H Hs.
  destruct (negb (includes tlds t)); [other_status H Hs|].
  destruct (findOne db d t) as [site|]; [|other_status H Hs].
  destruct (save db _) eqn:Hsave; [other_status H Hs|].
  unfold save in Hsave.
  destruct (validate (with_lastAccessed (now e) site)); [|discriminate].
  inversion Hsave; subst. inversion H; subst. now exists site.
Qed.

(** X6. A deletion that succeeds removes the document of the pair and no
    other; afterwards a lookup of the pair is answered 404 and [check]
    reports it available. *)
Theorem delete_then_lookup
        (db db' : Collection) (e : Env) (b : DeleteBody) (r : Response) :
  wellFormed db ->
  delete X db b = (r, db') -> status r = 200 ->
  (exists l1 site l2,
      db = l1 ++ site :: l2 /\ db' = l1 ++ l2 /\
      findOne db (str (del_domain b)) (str (del_tld b)) = Some site) /\
  lookup db' e (str (del_domain b)) (str (del_tld b))
  = (fail 404 "Domain not found", db') /\
  json_get "available"
    (body (fst (check db' (str (del_domain b)) (del_tld b))))
  = Some (JBool true).
Proof.
  intros (Hid & Hdom & _) H Hs.
  destruct (delete_ok_inv _ _ _ _ H Hs) as (Htld & site & Hf & _ & ->).
  destruct (findOne_split _ _ _ _ Hf) as (l1 & l2 & -> & Hn & Hd & Ht).
  rewrite (deleteOne_split l1 l2 site Hid).
  assert (Hnone : findOne (l1 ++ l2) (str (del_domain b)) (str (del_tld b))
                  = None).
  { rewrite (findOne_none_app _ _ _ _ Hn).
    rewrite map_app in Hdom. apply NoDup_app_remove_l in Hdom.
    now apply (findOne_rest_none site). }
  split; [now exists l1, site, l2|]. split.
  - unfold lookup. now rewrite Htld, Hnone.
  - assert (Htr : truthy (del_tld b) = true).
    { destruct (del_tld b) as [t0|]; [|discriminate Htld]. simpl.
      unfold nonEmpty. destruct t0; [discriminate Htld|reflexivity]. }
    unfold check. now rewrite Htr, Htld, Hnone.
Qed.

(** X7. After an update that succeeds, a lookup of the pair answers with the
    document as the update left it: with the new target and its raw base
    when a non-empty target was given, with the old target otherwise. *)
Theorem update_then_lookup
        (db db' : Collection) (e e' : Env) (b : UpdateBody) (r : Response) :
  NoDup (map _id db) ->
  update X db e b = (r, db') -> status r = 200 ->
  exists site,
    findOne db (str (upd_domain b)) (str (upd_tld b)) = Some site /\
    fst (lookup db' e' (str (upd_domain b)) (str (upd_tld b)))
    = ok (lookupView (with_lastAccessed (now e') (applyUpdate e b site))) /\
    (forall g, upd_target b = Some g -> g <> ""%string ->
               target (applyUpdate e b site) = g) /\
    (truthy (upd_target b) = false ->
     target (applyUpdate e b site) = target site).
Proof.
  intros Hnd H Hs.
  destruct (update_ok_inv X _ _ _ _ _ H Hs) as (site & Hf & _ & Hv & ->).
  assert (Htld : includes tlds (str (upd_tld b)) = true).
  { unfold update in H. destruct (_ || _ || _); [other_status H Hs|].
    destruct (includes tlds _); [reflexivity|other_status H Hs]. }
  destruct (findOne_split _ _ _ _ Hf) as (l1 & l2 & -> & Hn & Hd & Ht).
  destruct (applyUpdate_frame e b site) as (Hi & Hdo & Htl & _).
  destruct (applyUpdate_fields e b site) as (Hg & _).
  exists site. split; [exact Hf|].
  rewrite (replaceById_split l1 l2 site _ Hnd Hi).
  split.
  - rewrite (lookup_eq _ e' _ _ (applyUpdate e b site) Htld); [reflexivity| |exact Hv].
    rewrite (findOne_none_app _ _ _ _ Hn).
    apply findOne_head; congruence.
  - split.
    + intros g E Hne. now rewrite Hg, E, (truthy_some g Hne).
    + intros E. now rewrite Hg, E.
Qed.

(** X8. A lookup that succeeds refreshes [lastAccessed] of the document of the
    pair and leaves every other field and every other document as they
    were; a lookup that fails leaves the store untouched. *)
Theorem lookup_touches_lastAccessed
        (db db' : Collection) (e : Env) (d t : string) (r : Response) :
  NoDup (map _id db) ->
  lookup db e d t = (r, db') ->
  (status r = 200 ->
   exists l1 site l2,
     findOne db d t = Some site /\
     db = l1 ++ site :: l2 /\
     db' = l1 ++ with_lastAccessed (now e) site :: l2) /\
  (status r <> 200 -> db' = db).
Proof.
  intros Hnd H. split.
  - intros Hs.
    destruct (lookup_ok_inv _ _ _ _ _ _ H Hs) as (site & Hf & _ & ->).
    destruct (findOne_split _ _ _ _ Hf) as (l1 & l2 & -> & _).
    exists l1, site, l2. split; [exact Hf|]. split; [reflexivity|].
    now apply replaceById_split.
  - intros Hs. unfold lookup in H.
    destruct (negb (includes tlds t)); [now inversion H|].
    destruct (findOne db d t) as [site|]; [|now inversion H].
    destruct (save db _); inversion H; subst; [reflexivity|].
    exfalso. apply Hs. reflexivity.
Qed.

(** X5. The secret handed out by a registration authorises the deletion of
    the name, and the deletion takes the store back to what it was before
    the registration. *)
Theorem register_then_delete
        (db db1 : Collection) (e : Env) (b : RegisterBody) (r : Response) :
  bcrypt_compare X (secretKeyOf e)
                 (bcrypt_hash X (secretKeyOf e) 10 (salt e)) = true ->
  register X db e b = (r, db1) -> status r = 201 ->
  json_get "secretKey" (body r) = Some (JStr (secretKeyOf e)) /\
  delete X db1 {| del_domain := reg_domain b; del_tld := reg_tld b;
                  del_secretKey := Some (secretKeyOf e) |}
  = (ok (JObj [("success", JBool true);
               ("message", JStr "Domain deleted successfully")]%string), db).
Proof.
  intros Hkey H Hs.
  destruct (register_created_inv X _ _ _ _ _ H Hs)
    as (Hd & Ht & _ & Htld & Hfind & _ & _ & -> & ->).
  split; [reflexivity|].
  unfold delete. cbn [del_domain del_tld del_secretKey].
  rewrite Hd, Ht. cbn [negb orb truthy secretKeyOf nonEmpty].
  change (negb (String.eqb ("v12-" ++ toHex (randomBytes e 8)) "")%string)
    with true.
  cbn [negb]. rewrite Htld. cbn [negb].
  rewrite (findOne_app_new db (with_id (freshId db) (siteOf X e b)) _ _
             Hfind eq_refl eq_refl).
  change (secretKeyHash (with_id (freshId db) (siteOf X e b)))
    with (bcrypt_hash X (secretKeyOf e) 10 (salt e)).
  change (str (Some (secretKeyOf e))) with (secretKeyOf e).
  fold (secretKeyOf e). rewrite Hkey. cbn [negb].
  rewrite (deleteOne_last db (with_id (freshId db) (siteOf X e b)));
    [reflexivity|apply freshId_new].
Qed.

(** X1. Every route keeps the store well formed: distinct [_id]s, distinct
    labels, and documents that pass the validation of the schema. *)
Theorem routes_keep_wellFormed (db : Collection) :
  wellFormed db ->
  (forall e b, wellFormed (snd (register X db e b))) /\
  (forall e b, wellFormed (snd (update X db e b))) /\
  (forall b, wellFormed (snd (delete X db b))) /\
  (forall e d t, wellFormed (snd (lookup db e d t))) /\
  (forall d t, wellFormed (snd (check db d t))) /\
  (forall q, wellFormed (snd (search X db q))).
Proof.
  intros Hwf.
  split; [intros; now apply register_wellFormed|].
  split; [intros; now apply update_wellFormed|].
  split; [intros; now apply delete_wellFormed|].
  split; [intros; now apply lookup_wellFormed|].
  split.
  - intros d t. unfold check. now destruct (_ || _).
  - intros q. unfold search. now destruct (negb _).
Qed.

(** X2. A request that is refused changes nothing: whenever a route answers
    with another status than its success status, the store is the one it
    was given; [check] and [search] never change it. *)
Theorem refusals_leave_store (db : Collection) :
  (forall e b, status (fst (register X db e b)) <> 201 ->
               snd (register X db e b) = db) /\
  (forall e b, status (fst (update X db e b)) <> 200 ->
               snd (update X db e b) = db) /\
  (forall b, status (fst (delete X db b)) <> 200 ->
             snd (delete X db b) = db) /\
  (forall e d t, status (fst (lookup db e d t)) <> 200 ->
                 snd (lookup db e d t) = db) /\
  (forall d t, snd (check db d t) = db) /\
  (forall q, snd (search X db q) = db).
Proof.
  split.
  { intros e b Hs.
    destruct (register_unchanged_or_created X db e b); [assumption|contradiction]. }
  split.
  { intros e b. unfold update.
    destruct (_ || _ || _); [reflexivity|].
    destruct (negb (includes tlds _)); [reflexivity|].
    destruct (findOne db _ _); [|reflexivity].
    destruct (negb (bcrypt_compare X _ _)); [reflexivity|].
    destruct (save db _); [reflexivity|]. simpl. intros Hs. now elim Hs. }
  split.
  { intros b. unfold delete.
    destruct (_ || _ || _); [reflexivity|].
    destruct (negb (includes tlds _)); [reflexivity|].
    destruct (findOne db _ _); [|reflexivity].
    destruct (negb (bcrypt_compare X _ _)); [reflexivity|].
    simpl. intros Hs. now elim Hs. }
  split.
  { intros e d t. unfold lookup.
    destruct (negb (includes tlds t)); [reflexivity|].
    destruct (findOne db d t); [|reflexivity].
    destruct (save db _); [reflexivity|]. simpl. intros Hs. now elim Hs. }
  split.
  - intros d t. unfold check. now destruct (_ || _).
  - intros q. unfold search. now destruct (negb _).
Qed.

(** X26. A registration whose fields pass the schema (a label of 3 to 63
    characters, a reserved tag, a target of the accepted shape, a title and
    a description within their lengths) for a label that no document of the
    store has is answered 201 with the composed name and the secret, and the
    lookup of the pair that follows answers 200 with the same target and,
    as raw base, the rewrite of the target, which is the target itself when
    it does not begin with [https://github.com/]. *)
Theorem register_free_label_then_lookup
        (db : Collection) (e e' : Env) (d t g : string)
        (ti de : option string) :
  3 <= String.length d <= 63 ->
  includes tlds t = true ->
  targetValidator g = true ->
  maxlength 100 ti = true ->
  maxlength 500 de = true ->
  bcrypt_hash X (secretKeyOf e) 10 (salt e) <> ""%string ->
  ~ In (toLowerCase d) (map domain db) ->
  exists db1 site db2,
    register X db e {| reg_domain := Some d; reg_tld := Some t;
                       reg_target := Some g; reg_title := ti;
                       reg_description := de |}
    = ({| status := 201; body := registered d t (secretKeyOf e) |}, db1) /\
    lookup db1 e' d t = (ok (lookupView site), db2) /\
    json_get "target" (lookupView site) = Some (JStr g) /\
    json_get "rawBase" (lookupView site) = Some (JStr (rawBaseOf g)) /\
    (startsWith g "https://github.com/" = false ->
     json_get "rawBase" (lookupView site) = Some (JStr g)).
Proof.
  intros Hlen Htld Hg Hti Hde Hh Hfree.
  set (b := {| reg_domain := Some d; reg_tld := Some t; reg_target := Some g;
               reg_title := ti; reg_description := de |}).
  pose proof (register_free_label db e b Hlen Htld Hg Hti Hde Hh Hfree) as Hr.
  destruct (lookup_after_created X _ _ _ e' _ _ Hr eq_refl)
    as (site & db2 & Hl & _ & _ & Hgs & _).
  exists (db ++ [with_id (freshId db) (siteOf X e b)]), site, db2.
  split; [exact Hr|]. split; [exact Hl|].
  simpl in Hgs. rewrite <- Hgs.
  split; [reflexivity|]. split; [reflexivity|].
  intros Hn.
  change (json_get "rawBase" (lookupView site))
    with (Some (JStr (rawBaseOf (target site)))).
  now rewrite (RewriteFacts.rawBaseOf_other _ Hn).
Qed.

End Routes.
End RegistrarLaws.

(* ------------------------------------------------------------------ *)
(** ** The raw base, described *)

Module RewriteLaws.
Import JsString JsStringFacts Registrar RewriteFacts Shapes.

Lemma slice_app_length (p r : string) : slice (String.length p) (p ++ r) = r.
Proof. induction p as [|c p IH]; simpl; [now destruct r|exact IH]. Qed.

(** Where the pattern does not occur, nothing is replaced. *)
Lemma replace_absent (s pat rep : string) :
  occurs pat s = false -> replace s pat rep = s.
Proof.
  induction s as [|c s IH]; intros H.
  - simpl in H. rewrite orb_false_r in H.
    unfold replace. now rewrite H.
  - unfold occurs in H; fold occurs in H.
    apply orb_false_iff in H. destruct H as [H1 H2].
    unfold replace; fold replace. rewrite H1. f_equal. now apply IH.
Qed.

(** The text before the first occurrence is kept, the occurrence is
    replaced, and what follows is kept. *)
Lemma replace_at (pre pat post rep : string) :
  (forall a b, pre = a ++ b -> b <> EmptyString ->
               startsWith (b ++ pat ++ post) pat = false) ->
  replace (pre ++ pat ++ post) pat rep = pre ++ rep ++ post.
Proof.
  induction pre as [|c pre IH]; intros H.
  - change (EmptyString ++ pat ++ post) with (pat ++ post).
    destruct (pat ++ post) as [|x y] eqn:E.
    + destruct pat; [|discriminate E]. simpl in E. subst post.
      reflexivity.
    + unfold replace; fold replace. rewrite <- E.
      rewrite startsWith_app, slice_app_length. reflexivity.
  - assert (H0 : startsWith (String c pre ++ pat ++ post) pat = false)
      by (apply (H EmptyString (String c pre) eq_refl); discriminate).
    change (String c pre ++ pat ++ post)
      with (String c (pre ++ pat ++ post)) in *.
    unfold replace; fold replace. rewrite H0.
    change (String c pre ++ rep ++ post) with (String c (pre ++ rep ++ post)).
    f_equal. apply IH. intros a b -> Hb.
    apply (H (String c a) b eq_refl Hb).
Qed.

Lemma startsWith_app_long (a z pat : string) :
  String.length pat <= String.length a ->
  startsWith (a ++ z) pat = startsWith a pat.
Proof.
  revert a. induction pat as [|c pat IH]; intros a H; [reflexivity|].
  destruct a as [|d a]; simpl in H; [lia|].
  simpl. f_equal. apply IH. lia.
Qed.

Lemma occurs_suffix (pat a b : string) :
  occurs pat (a ++ b) = false -> startsWith b pat = false.
Proof.
  induction a as [|c a IH]; intros H.
  - simpl in H. destruct b; simpl in H; apply orb_false_iff in H; tauto.
  - change (String c a ++ b) with (String c (a ++ b)) in H.
    unfold occurs in H; fold occurs in H.
    apply orb_false_iff in H. apply IH. tauto.
Qed.

Lemma append_assoc (a b c : string) : (a ++ b) ++ c = a ++ b ++ c.
Proof. induction a as [|x a IH]; simpl; [reflexivity|now rewrite IH]. Qed.

Lemma append_length (a b : string) :
  String.length (a ++ b) = String.length a + String.length b.
Proof. induction a as [|x a IH]; simpl; [reflexivity|now rewrite IH]. Qed.

(** The first [/blob/] of a text. *)
Lemma replace_blob (u v : string) :
  occurs "/blob/" (u ++ "/blob") = false ->
  replace (u ++ "/blob/" ++ v) "/blob/" "/" = u ++ "/" ++ v.
Proof.
  intros H. apply replace_at. intros a b -> Hb.
  rewrite append_assoc in H. apply occurs_suffix in H.
  change (b ++ "/blob/" ++ v) with (b ++ "/blob" ++ String "/" v).
  rewrite <- append_assoc.
  rewrite startsWith_app_long; [exact H|].
  rewrite append_length. destruct b; [contradiction|]. simpl. lia.
Qed.

Lemma dropTrailingSlash_slashed (s : string) :
  dropTrailingSlash s ++ "/" = slashed s.
Proof.
  unfold slashed. induction s as [|c s IH]; [reflexivity|].
  destruct s as [|b r].
  - simpl. destruct (Ascii.eqb_spec c "/") as [->|E]; [reflexivity|].
    reflexivity.
  - rewrite dropTrailingSlash_cons2.
    change (String c (dropTrailingSlash (String b r)) ++ "/")
      with (String c (dropTrailingSlash (String b r) ++ "/")).
    rewrite IH.
    assert (E : endsWith (String c (String b r)) "/"
                = endsWith (String b r) "/").
    { unfold endsWith at 1; fold endsWith.
      destruct c as [[] [] [] [] [] [] [] []]; reflexivity. }
    rewrite E. now destruct (endsWith (String b r) "/").
Qed.

Lemma slashed_ends (s : string) : endsWith (slashed s) "/" = true.
Proof.
  unfold slashed. destruct (endsWith s "/") eqn:E; [exact E|].
  apply endsWith_app.
Qed.

Lemma slashed_idem (s : string) : endsWith s "/" = true -> slashed s = s.
Proof. unfold slashed. now intros ->. Qed.

(** X27. The raw base of a target. A target that does not begin with
    [https://github.com/] is its own raw base. For a target
    [https://github.com] followed by a path [p], the raw base ends with a
    slash and is the address on [raw.githubusercontent.com] with the path
    [p], from which the first [/blob/], when there is one, is replaced by a
    slash; a slash is added at the end only when there is none. *)
Theorem rawBaseOf_shape (g : string) :
  (startsWith g "https://github.com/" = false -> rawBaseOf g = g) /\
  (forall p, g = "https://github.com" ++ p -> startsWith p "/" = true ->
     endsWith (rawBaseOf g) "/" = true /\
     (occurs "/blob/" p = false ->
      rawBaseOf g = slashed ("https://raw.githubusercontent.com" ++ p)) /\
     (forall u v, p = u ++ "/blob/" ++ v ->
                  occurs "/blob/" (u ++ "/blob") = false ->
                  rawBaseOf g
                  = slashed ("https://raw.githubusercontent.com" ++ u ++ "/" ++ v))).
Proof.
  split; [apply rawBaseOf_other|].
  intros p -> Hp.
  destruct p as [|c p]; [discriminate|].
  simpl in Hp. rewrite andb_true_r in Hp. apply Ascii.eqb_eq in Hp. subst c.
  assert (E : rawBaseOf ("https://github.com" ++ String "/" p)
              = slashed ("https://raw.githubusercontent.com"
                         ++ replace (String "/" p) "/blob/" "/")).
  { rewrite <- dropTrailingSlash_slashed. reflexivity. }
  rewrite E. split; [apply slashed_ends|]. split.
  - intros H. now rewrite replace_absent.
  - intros u v Huv H. rewrite Huv. now rewrite replace_blob.
Qed.

End RewriteLaws.

(** ** What the target validator accepts, and the form of the secret *)
Module ShapeFacts.
Import JsString JsStringFacts Store Registrar Shapes.

Lemma app_empty (s : string) : s ++ "" = s.
Proof. induction s as [|c s IH]; simpl; [reflexivity|now rewrite IH]. Qed.

Lemma spanDigits_app (ds r : string) :
  allChars isDigit ds = true -> headIs isDigit r = false ->
  spanDigits (ds ++ r) = (String.length ds, r).
Proof.
  intros Hds Hr. induction ds as [|c ds IH]; simpl in *.
  - destruct r as [|a r]; [reflexivity|]. simpl in Hr. simpl. now rewrite Hr.
  - apply andb_true_iff in Hds. destruct Hds as [Hc Hds].
    rewrite Hc, (IH Hds). reflexivity.
Qed.

Lemma spanDigits_inv (s r : string) (n : nat) :
  spanDigits s = (n, r) ->
  exists ds, s = ds ++ r /\ String.length ds = n /\
             allChars isDigit ds = true /\ headIs isDigit r = false.
Proof.
  revert n r. induction s as [|c s IH]; simpl; intros n r H.
  - inversion H; subst. now exists "".
  - destruct (isDigit c) eqn:Hc.
    + destruct (spanDigits s) as [m r'] eqn:E. inversion H; subst.
      destruct (IH m r eq_refl) as (ds & -> & Hl & Hds & Hr).
      exists (String c ds). simpl. rewrite Hc, Hds, Hl. now repeat split.
    + inversion H; subst. exists "". simpl. now rewrite Hc.
Qed.

Lemma digits_iff (lo hi : nat) (s r : string) :
  digits lo hi s = Some r <->
  exists ds, s = ds ++ r /\ allChars isDigit ds = true /\
             lo <= String.length ds <= hi /\ headIs isDigit r = false.
Proof.
  unfold digits. split.
  - destruct (spanDigits s) as [n r'] eqn:E.
    destruct ((lo <=? n) && (n <=? hi))%nat eqn:Hn; [|discriminate].
    intros [= ->]. apply andb_true_iff in Hn. destruct Hn as [H1 H2].
    apply Nat.leb_le in H1, H2.
    destruct (spanDigits_inv _ _ _ E) as (ds & -> & Hl & Hds & Hr).
    exists ds. subst n. now repeat split.
  - intros (ds & -> & Hds & [H1 H2] & Hr).
    rewrite (spanDigits_app ds r Hds Hr).
    apply Nat.leb_le in H1, H2. now rewrite H1, H2.
Qed.

Lemma octetDot_iff (s r : string) :
  octetDot s = Some r <-> exists a, digitRun 3 a /\ s = a ++ "." ++ r.
Proof.
  unfold octetDot, andThen, digitRun. split.
  - destruct (digits 1 3 s) as [r1|] eqn:E; [|discriminate].
    apply digits_iff in E. destruct E as (a & -> & Ha & Hl & _).
    unfold char. destruct r1 as [|c r1]; [discriminate|].
    destruct (Ascii.eqb_spec c "."); [|discriminate].
    intros [= ->]. subst c. now exists a.
  - intros (a & [Ha Hl] & ->).
    assert (E : digits 1 3 (a ++ "." ++ r) = Some ("." ++ r))
      by (apply digits_iff; now exists a).
    now rewrite E.
Qed.

(** The address form of a target: four runs of one to three digits between
    dots, with an optional colon and a run of one to five digits. *)
Lemma isIpWithPort_iff (v : string) :
  isIpWithPort v = true <-> ipShape v.
Proof.
  unfold isIpWithPort, ipShape. split.
  - unfold andThen at 1 2 3.
    destruct (octetDot v) as [r1|] eqn:E1; [|discriminate].
    destruct (octetDot r1) as [r2|] eqn:E2; [|discriminate].
    destruct (octetDot r2) as [r3|] eqn:E3; [|discriminate].
    apply octetDot_iff in E1, E2, E3.
    destruct E1 as (a & Ha & ->), E2 as (b & Hb & ->), E3 as (c & Hc & ->).
    destruct (digits 1 3 r3) as [r4|] eqn:E4; [|discriminate].
    apply digits_iff in E4. destruct E4 as (d & -> & Hd & Hl & _).
    intros Hrest. exists a, b, c, d.
    split; [exact Ha|]. split; [exact Hb|]. split; [exact Hc|].
    split; [now split|].
    destruct r4 as [|x r4].
    + left. now rewrite app_empty.
    + apply andb_true_iff in Hrest. destruct Hrest as [Hx Hrest].
      apply Ascii.eqb_eq in Hx. subst x.
      destruct (digits 1 5 r4) as [[|y r5]|] eqn:E5; try discriminate.
      apply digits_iff in E5. destruct E5 as (p & -> & Hp & Hlp & _).
      right. exists p. split; [now split|]. now rewrite app_empty.
  - intros (a & b & c & d & Ha & Hb & Hc & [Hd Hld] & Hv).
    assert (O : forall x r, digitRun 3 x -> octetDot (x ++ "." ++ r) = Some r)
      by (intros x r Hx; apply octetDot_iff; now exists x).
    destruct Hv as [->|(p & [Hp Hlp] & ->)];
      rewrite (O a _ Ha); cbn [andThen];
      rewrite (O b _ Hb); cbn [andThen];
      rewrite (O c _ Hc); cbn [andThen].
    + assert (E : digits 1 3 d = Some "").
      { apply digits_iff. exists d. now rewrite app_empty. }
      now rewrite E.
    + assert (E : digits 1 3 (d ++ ":" ++ p) = Some (":" ++ p))
        by (apply digits_iff; now exists d).
      rewrite E. simpl.
      assert (E' : digits 1 5 p = Some "").
      { apply digits_iff. exists p. now rewrite app_empty. }
      now rewrite E'.
Qed.

Lemma isHttpsUrl_shape (v : string) : isHttpsUrl v = true <-> httpsShape v.
Proof.
  unfold isHttpsUrl, httpsShape. rewrite andb_true_iff, startsWith_spec. split.
  - intros [[r ->] H]. change (slice 8 ("https://" ++ r)) with r in H.
    destruct r as [|c r]; [discriminate|].
    exists c, r. split; [reflexivity|]. now destruct (isLineTerminator c).
  - intros (c & r & -> & Hc). split; [now exists (String c r)|].
    change (slice 8 ("https://" ++ String c r)) with (String c r).
    cbv beta iota. now rewrite Hc.
Qed.

(** X10. The targets that pass the schema are the [https] addresses with at
    least one character after the scheme and the dotted addresses with an
    optional port; the empty text and addresses of any other scheme are
    refused. *)
Theorem targetValidator_shape (v : string) :
  (targetValidator v = true <-> httpsShape v \/ ipShape v) /\
  (targetValidator v = true ->
   v <> "" /\ (startsWith v "https://" = true \/ headIs isDigit v = true)).
Proof.
  assert (Hiff : targetValidator v = true <-> httpsShape v \/ ipShape v).
  { unfold targetValidator.
    now rewrite orb_true_iff, isHttpsUrl_shape, isIpWithPort_iff. }
  split; [exact Hiff|]. intros H. apply Hiff in H.
  destruct H as [(c & r & -> & _)|(a & b & c & d & [Ha Hla] & _ & _ & _ & Hv)].
  - split; [discriminate|now left].
  - assert (Hhead : forall r, headIs isDigit (a ++ r) = true).
    { intros r. destruct a as [|x a]; [simpl in Hla; lia|].
      simpl in Ha. apply andb_true_iff in Ha. now destruct Ha. }
    destruct Hv as [->|(p & _ & ->)].
    + split; [|right; apply Hhead].
      destruct a; [simpl in Hla; lia|discriminate].
    + split; [|right; apply Hhead].
      destruct a; [simpl in Hla; lia|discriminate].
Qed.

Example targetValidator_cases :
  targetValidator "https://example.com" = true /\
  targetValidator "10.0.0.1:8080" = true /\
  targetValidator "999.999.999.999:99999" = true /\
  targetValidator "http://example.com" = false /\
  targetValidator "https://" = false /\
  targetValidator "10.0.0.1:" = false /\
  targetValidator "10.0.1" = false /\
  targetValidator "10.0.0.1/path" = false.
Proof. repeat split; reflexivity. Qed.

Lemma hexDigit_lower (b : Byte.byte) :
  isLowerHex (hexDigit (Byte.to_nat b / 16)) = true /\
  isLowerHex (hexDigit (Byte.to_nat b mod 16)) = true.
Proof. destruct b; split; reflexivity. Qed.

Lemma toHex_shape (bytes : list Byte.byte) :
  String.length (toHex bytes) = 2 * List.length bytes /\
  allChars isLowerHex (toHex bytes) = true.
Proof.
  induction bytes as [|b bytes [IHl IHc]]; [now split|].
  destruct (hexDigit_lower b) as [H1 H2].
  change (toHex (b :: bytes))
    with (String (hexDigit (Byte.to_nat b / 16))
            (String (hexDigit (Byte.to_nat b mod 16)) (toHex bytes))).
  cbn [String.length List.length allChars]. rewrite IHl, H1, H2, IHc.
  split; [lia|reflexivity].
Qed.

(** X11. The secret of a registration is [v12-] followed by two lower-case
    hexadecimal digits for every random byte: twenty characters for the
    eight bytes the route asks for. *)
Theorem secretKeyOf_shape (e : Env) :
  List.length (randomBytes e 8) = 8 ->
  String.length (secretKeyOf e) = 20 /\
  exists hex,
    secretKeyOf e = "v12-" ++ hex /\ String.length hex = 16 /\
    allChars isLowerHex hex = true.
Proof.
  intros H. destruct (toHex_shape (randomBytes e 8)) as [Hl Hc].
  unfold secretKeyOf. split.
  - simpl. rewrite Hl, H. reflexivity.
  - exists (toHex (randomBytes e 8)). rewrite Hl, H. now repeat split.
Qed.

End ShapeFacts.

(** ** Navigation requests *)
Module ShellFacts.
Import JsString JsStringFacts Json Validator Shell.

Lemma virt_not_https (url : string) :
  startsWith url "virt://" = true -> startsWith url "https://" = false.
Proof.
  intros H. apply startsWith_spec in H. destruct H as [r ->]. reflexivity.
Qed.

Lemma isValidVirtUrl_virt (url : string) :
  isValidVirtUrl url = true -> startsWith url "virt://" = true.
Proof.
  unfold isValidVirtUrl. intros H. now apply andb_true_iff in H.
Qed.

(** X12. The navigation handler and the guard of the main window agree: the
    handler hands an address to [loadURL] exactly when the guard would let
    it through, it never loads another address than the one it was given,
    and it answers [success] exactly when it loads. Whatever the window's
    guard lets through, the guard on every web contents lets through. *)
Theorem navigate_agrees_with_guard (url : string) :
  (fst (navigate url) = Some url <-> willNavigate url = true) /\
  (fst (navigate url) = None <-> willNavigate url = false) /\
  (json_get "success" (snd (navigate url)) = Some (JBool true)
   <-> fst (navigate url) = Some url) /\
  (willNavigate url = true -> contentsWillNavigate url = true).
Proof.
  unfold navigate, willNavigate, contentsWillNavigate.
  destruct (startsWith url "virt://") eqn:Hv.
  - rewrite (virt_not_https url Hv).
    destruct (isValidVirtUrl url); simpl; repeat split; congruence.
  - assert (Hi : isValidVirtUrl url = false).
    { destruct (isValidVirtUrl url) eqn:E; [|reflexivity].
      apply isValidVirtUrl_virt in E. congruence. }
    rewrite Hi.
    destruct (startsWith url "https://"); simpl; repeat split; congruence.
Qed.

End ShellFacts.

(** ** The preload bridge *)
Module PreloadFacts.
Import JsString JsStringFacts Json Validator Shell Preload Shapes.

(** *** The regular expressions *)

Lemma app_empty_inv (s1 s2 : string) : s1 ++ s2 = "" -> s1 = "" /\ s2 = "".
Proof. destruct s1; simpl; intros H; [now split|discriminate]. Qed.

Ltac inv H := inversion H; subst; clear H.

(** A text of [Seq r1 r2] splits into a text of each. *)
Lemma seq_inv (r1 r2 : regex) (s : string) :
  matches (Seq r1 r2) s ->
  exists s1 s2, s = s1 ++ s2 /\ matches r1 s1 /\ matches r2 s2.
Proof. intros H. inv H. now eexists _, _. Qed.

Lemma nullable_spec (r : regex) : nullable r = true <-> matches r "".
Proof.
  induction r as [| |p|r1 IH1 r2 IH2|r1 IH1 r2 IH2|r IH]; simpl.
  - split; [discriminate|]. intros H. inv H.
  - split; [constructor|reflexivity].
  - split; [discriminate|]. intros H. inv H.
  - rewrite andb_true_iff, IH1, IH2. split.
    + intros [H1 H2]. change "" with ("" ++ ""). now constructor.
    + intros H. destruct (seq_inv _ _ _ H) as (s1 & s2 & E & H1 & H2).
      symmetry in E. apply app_empty_inv in E. destruct E as [-> ->].
      now split.
  - rewrite orb_true_iff, IH1, IH2. split.
    + intros [H|H]; [now apply MOrL|now apply MOrR].
    + intros H. inv H; [now left|now right].
  - split; [constructor|reflexivity].
Qed.

(** A text of [Many r] that begins with [c] begins with a text of [r]
    that begins with [c]. *)
Lemma many_cons_inv (r : regex) (c : ascii) (s : string) :
  matches (Many r) (String c s) ->
  exists s1 s2, s = s1 ++ s2 /\ matches r (String c s1) /\ matches (Many r) s2.
Proof.
  intros H. remember (Many r) as m eqn:Hm. remember (String c s) as t eqn:Ht.
  destruct H; try discriminate.
  inversion Hm; subst. simpl in Ht. inversion Ht; subst. now eexists _, _.
Qed.

Lemma deriv_spec (r : regex) (c : ascii) (s : string) :
  matches (deriv c r) s <-> matches r (String c s).
Proof.
  revert s. induction r as [| |p|r1 IH1 r2 IH2|r1 IH1 r2 IH2|r IH];
    intros s; simpl.
  - split; intros H; inv H.
  - split; intros H; inv H.
  - destruct (p c) eqn:Hp; split; intros H; inv H.
    + now constructor.
    + constructor.
    + congruence.
  - assert (Hseq : matches (Seq (deriv c r1) r2) s ->
                   matches (Seq r1 r2) (String c s)).
    { intros H. destruct (seq_inv _ _ _ H) as (s1 & s2 & -> & H1 & H2).
      apply IH1 in H1. change (String c (s1 ++ s2)) with (String c s1 ++ s2).
      now constructor. }
    assert (Hinv : matches (Seq r1 r2) (String c s) ->
                   matches (Seq (deriv c r1) r2) s \/
                   (matches r1 "" /\ matches (deriv c r2) s)).
    { intros H. destruct (seq_inv _ _ _ H) as (s1 & s2 & E & H1 & H2).
      destruct s1 as [|c1 s1]; simpl in E.
      - subst s2. right. split; [exact H1|now apply IH2].
      - inversion E; subst. left. constructor; [now apply IH1|exact H2]. }
    destruct (nullable r1) eqn:Hn.
    + split.
      * intros H. inv H; [now apply Hseq|].
        change (String c s) with ("" ++ String c s).
        constructor; [now apply nullable_spec|now apply IH2].
      * intros H. destruct (Hinv H) as [H'|[_ H']];
          [now apply MOrL|now apply MOrR].
    + split; [exact Hseq|].
      intros H. destruct (Hinv H) as [H'|[H' _]]; [exact H'|].
      apply nullable_spec in H'. congruence.
  - split; intros H; inv H;
      solve [apply MOrL; now apply IH1 | apply MOrR; now apply IH2].
  - split.
    + intros H. destruct (seq_inv _ _ _ H) as (s1 & s2 & -> & H1 & H2).
      apply IH in H1. change (String c (s1 ++ s2)) with (String c s1 ++ s2).
      now constructor.
    + intros H. destruct (many_cons_inv _ _ _ H) as (s1 & s2 & -> & H1 & H2).
      constructor; [now apply IH|exact H2].
Qed.

(** The matcher decides the texts of the expression. *)
Lemma test_spec (r : regex) (s : string) : test r s = true <-> matches r s.
Proof.
  revert r. induction s as [|c s IH]; intros r; simpl.
  - apply nullable_spec.
  - rewrite IH. apply deriv_spec.
Qed.


Lemma chars_inv (p : ascii -> bool) (s : string) :
  matches (Chars p) s -> exists c, s = String c "" /\ p c = true.
Proof. intros H. inv H. now eexists. Qed.

Lemma many_chars (p : ascii -> bool) (s : string) :
  matches (Many (Chars p)) s <-> allChars p s = true.
Proof.
  split.
  - intros H. remember (Many (Chars p)) as m eqn:Hm.
    induction H as [| | | | | |r c s1 s2 H1 _ H2 IH2]; try discriminate.
    + reflexivity.
    + inversion Hm; subst.
      destruct (chars_inv _ _ H1) as (c' & E & Hc). inversion E; subst.
      simpl. rewrite Hc. now apply IH2.
  - induction s as [|c s IH]; simpl; intros H; [constructor|].
    apply andb_true_iff in H. destruct H as [Hc Hs].
    change (String c s) with (String c "" ++ s).
    constructor; [now constructor|now apply IH].
Qed.

Lemma plus_chars (p : ascii -> bool) (s : string) :
  matches (Plus (Chars p)) s <-> s <> "" /\ allChars p s = true.
Proof.
  unfold Plus. split.
  - intros H. destruct (seq_inv _ _ _ H) as (s1 & s2 & -> & H1 & H2).
    destruct (chars_inv _ _ H1) as (c & -> & Hc). apply many_chars in H2.
    simpl. rewrite Hc, H2. split; [discriminate|reflexivity].
  - intros [Hne H]. destruct s as [|c s]; [contradiction|].
    simpl in H. apply andb_true_iff in H. destruct H as [Hc Hs].
    change (String c s) with (String c "" ++ s).
    constructor; [now constructor|now apply many_chars].
Qed.

Lemma allChars_app (p : ascii -> bool) (a b : string) :
  allChars p (a ++ b) = allChars p a && allChars p b.
Proof.
  induction a as [|c a IH]; simpl; [reflexivity|].
  now rewrite IH, andb_assoc.
Qed.

Lemma letters_are_host (l : string) :
  allChars isLetter l = true -> allChars isHostChar l = true.
Proof.
  induction l as [|c l IH]; simpl; [reflexivity|]. intros H.
  apply andb_true_iff in H. destruct H as [Hc Hl].
  unfold isHostChar. rewrite Hc. simpl. now apply IH.
Qed.

Lemma test_domainLike (s : string) :
  test domainLike s = true <-> domainShape s.
Proof.
  rewrite test_spec. unfold domainLike, domainShape. split.
  - intros H.
    destruct (seq_inv _ _ _ H) as (h & s1 & -> & Hh & H1).
    destruct (seq_inv _ _ _ H1) as (dot & s2 & -> & Hdot & H2).
    destruct (seq_inv _ _ _ H2) as (x & s3 & -> & Hx & H3).
    destruct (seq_inv _ _ _ H3) as (y & l & -> & Hy & Hl).
    apply plus_chars in Hh. destruct Hh as [Hne Hh].
    destruct (chars_inv _ _ Hdot) as (c & -> & Hc).
    apply Ascii.eqb_eq in Hc. subst c.
    destruct (chars_inv _ _ Hx) as (cx & -> & Hcx).
    destruct (chars_inv _ _ Hy) as (cy & -> & Hcy).
    apply many_chars in Hl.
    exists h, (String cx (String cy l)). simpl.
    rewrite Hcx, Hcy, Hl. repeat split; auto. lia.
  - intros (h & l & -> & Hne & Hh & Hl & Hlen).
    destruct l as [|cx [|cy l]]; simpl in Hlen; try lia.
    simpl in Hl. apply andb_true_iff in Hl. destruct Hl as [Hcx Hl].
    apply andb_true_iff in Hl. destruct Hl as [Hcy Hl].
    constructor; [now apply plus_chars|].
    change ("." ++ String cx (String cy l))
      with (String "." "" ++ (String cx "" ++ (String cy "" ++ l))).
    constructor; [constructor; apply Ascii.eqb_refl|].
    constructor; [now constructor|].
    constructor; [now constructor|now apply many_chars].
Qed.

Lemma test_wordLike (s : string) :
  test wordLike s = true <-> s <> "" /\ allChars isHostChar s = true.
Proof. rewrite test_spec. apply plus_chars. Qed.

Lemma domainShape_host (s : string) :
  domainShape s -> s <> "" /\ allChars isHostChar s = true.
Proof.
  intros (h & l & -> & Hne & Hh & Hl & _). split.
  - destruct h; [contradiction|discriminate].
  - rewrite allChars_app, Hh. simpl. now apply letters_are_host.
Qed.

(** X13. The two tests of [navigateToUrl] on a text without scheme: the first
    accepts exactly a non-empty run of host characters, a dot and two or
    more letters; the second accepts exactly the non-empty runs of host
    characters, and so every text the first accepts. *)
Theorem navigation_tests_shape (s : string) :
  (test domainLike s = true <-> domainShape s) /\
  (test wordLike s = true <-> s <> "" /\ allChars isHostChar s = true) /\
  (test domainLike s = true -> test wordLike s = true).
Proof.
  split; [apply test_domainLike|]. split; [apply test_wordLike|].
  intros H. apply test_wordLike, domainShape_host. now apply test_domainLike.
Qed.

(** *** Trimming *)

Lemma trimEnd_head (c : ascii) (r : string) :
  isWhiteSpace c = false -> trimEnd (String c r) = String c (trimEnd r).
Proof. intros H. simpl. rewrite H. now destruct (trimEnd r). Qed.

Lemma trimStart_head (s : string) : headIs isWhiteSpace (trimStart s) = false.
Proof.
  induction s as [|c s IH]; simpl; [reflexivity|].
  destruct (isWhiteSpace c) eqn:E; [exact IH|]. simpl. exact E.
Qed.

Lemma trimStart_fixed (s : string) :
  headIs isWhiteSpace s = false -> trimStart s = s.
Proof. destruct s as [|c s]; simpl; [reflexivity|]. now intros ->. Qed.

Lemma trimEnd_idem (s : string) : trimEnd (trimEnd s) = trimEnd s.
Proof.
  induction s as [|c s IH]; [reflexivity|].
  cbn [trimEnd]. destruct (trimEnd s) as [|a r] eqn:E.
  - destruct (isWhiteSpace c) eqn:Hc; [reflexivity|].
    simpl. now rewrite Hc.
  - change (trimEnd (String c (String a r)))
      with (match trimEnd (String a r) with
            | "" => if isWhiteSpace c then "" else String c ""
            | r' => String c r'
            end).
    now rewrite IH.
Qed.

Lemma trim_idem (s : string) : trim (trim s) = trim s.
Proof.
  unfold trim. pose proof (trimStart_head s) as Hh.
  destruct (trimStart s) as [|c r]; [reflexivity|]. simpl in Hh.
  rewrite (trimEnd_head c r Hh).
  rewrite (trimStart_fixed (String c (trimEnd r))) by exact Hh.
  rewrite <- (trimEnd_head c r Hh). apply trimEnd_idem.
Qed.

(** *** What the bridge sends *)

Lemma https_not_virt (s : string) : startsWith ("https://" ++ s) "virt://" = false.
Proof. reflexivity. Qed.

(** X14. Whatever [navigateToUrl] sends to the shell begins with [virt://] or
    [https://]: the shell never answers it with [Unsupported protocol],
    and unless the page typed a [virt://] address the shell loads what was
    sent. White space around the text that was typed is ignored. *)
Theorem navigateToUrl_sends (url u : string) :
  navigateToUrl url = inr u ->
  startsWith u "virt://" || startsWith u "https://" = true /\
  json_get "error" (snd (navigate u)) <> Some (JStr "Unsupported protocol") /\
  (startsWith (trim url) "virt://" = false ->
   navigate u = (Some u, loaded "https")) /\
  navigateToUrl (trim url) = inr u.
Proof.
  intros H.
  assert (Htrim : navigateToUrl (trim url) = inr u)
    by (unfold navigateToUrl in *; now rewrite trim_idem).
  unfold navigateToUrl in H.
  destruct (String.eqb (trim url) ""); [discriminate|].
  assert (Hgo : startsWith u "virt://" || startsWith u "https://" = true /\
                (startsWith (trim url) "virt://" = false ->
                 startsWith u "virt://" = false /\
                 startsWith u "https://" = true)).
  { destruct (startsWith (trim url) "virt://") eqn:Hv.
    - simpl in H. inversion H; subst. rewrite Hv. split; [reflexivity|discriminate].
    - destruct (startsWith (trim url) "https://") eqn:Hs.
      + simpl in H. inversion H; subst. rewrite Hv, Hs. now repeat split.
      + simpl in H.
        destruct (test domainLike (trim url));
          [|destruct (test wordLike (trim url)); [|discriminate]];
          inversion H; subst; now repeat split. }
  destruct Hgo as [Hp Hq]. split; [exact Hp|]. split; [|split; [|exact Htrim]].
  - unfold navigate.
    destruct (startsWith u "virt://");
      [destruct (isValidVirtUrl u); simpl; discriminate|].
    change (startsWith u "https://" = true) in Hp. rewrite Hp.
    simpl. discriminate.
  - intros Hv. destruct (Hq Hv) as [H1 H2]. unfold navigate. now rewrite H1, H2.
Qed.

(** X15. A text that is neither a [virt://] nor an [https://] address and has a
    character outside the letters, the digits, the dot and the hyphen is
    refused by the bridge: an address of another scheme never reaches the
    shell. A text that is empty once trimmed is refused as well. *)
Theorem navigateToUrl_refuses (url : string) :
  (trim url = "" ->
   navigateToUrl url = inl "Invalid URL: must be non-empty string") /\
  (trim url <> "" ->
   startsWith (trim url) "virt://" = false ->
   startsWith (trim url) "https://" = false ->
   allChars isHostChar (trim url) = false ->
   navigateToUrl url = inl "Invalid URL format").
Proof.
  unfold navigateToUrl. split.
  - now intros ->.
  - intros Hne Hv Hs Hc. apply String.eqb_neq in Hne. rewrite Hne, Hv, Hs.
    simpl.
    destruct (test domainLike (trim url)) eqn:Ed.
    { apply test_domainLike, domainShape_host in Ed. destruct Ed. congruence. }
    destruct (test wordLike (trim url)) eqn:Ew; [|reflexivity].
    apply test_wordLike in Ew. destruct Ew. congruence.
Qed.

Example navigateToUrl_cases :
  navigateToUrl "  virt://abc.vc " = inr "virt://abc.vc" /\
  navigateToUrl "example.com" = inr "https://example.com" /\
  navigateToUrl "youtube" = inr "https://youtube.com" /\
  navigateToUrl "example.c" = inr "https://example.c.com" /\
  navigateToUrl "http://example.com" = inl "Invalid URL format" /\
  navigateToUrl "javascript:alert(1)" = inl "Invalid URL format" /\
  navigateToUrl "two words" = inl "Invalid URL format".
Proof. repeat split; reflexivity. Qed.

(** *** Cleaning of names *)

Lemma nameChar_lower (c : ascii) : isNameChar c = true -> lowerChar c = c.
Proof.
  destruct c as [[] [] [] [] [] [] [] []]; intros H;
    solve [reflexivity | discriminate H].
Qed.

Lemma keepNameChars_all (s : string) :
  allChars isNameChar (keepNameChars s) = true.
Proof.
  induction s as [|c s IH]; simpl; [reflexivity|].
  destruct (isNameChar c) eqn:E; [|exact IH]. simpl. now rewrite E.
Qed.

Lemma keepNameChars_fixed (s : string) :
  allChars isNameChar s = true -> keepNameChars s = s.
Proof.
  induction s as [|c s IH]; simpl; [reflexivity|]. intros H.
  apply andb_true_iff in H. destruct H as [Hc Hs]. now rewrite Hc, IH.
Qed.

Lemma toLowerCase_fixed (s : string) :
  allChars isNameChar s = true -> toLowerCase s = s.
Proof.
  induction s as [|c s IH]; simpl; [reflexivity|]. intros H.
  apply andb_true_iff in H. destruct H as [Hc Hs].
  now rewrite (nameChar_lower c Hc), IH.
Qed.

Lemma keepNameChars_length (s : string) :
  String.length (keepNameChars s) <= String.length s.
Proof.
  induction s as [|c s IH]; simpl; [lia|].
  destruct (isNameChar c); simpl; lia.
Qed.

Lemma toLowerCase_length (s : string) :
  String.length (toLowerCase s) = String.length s.
Proof. induction s as [|c s IH]; simpl; [reflexivity|now rewrite IH]. Qed.

(** X16. A name cleaned by the bridge has only lower-case letters, digits and
    hyphens, so cleaning it again or passing it through the lower-case
    setter of the schema changes nothing. It is never longer than what was
    typed, and may be shorter than the three characters [checkDomain] asks
    of the text it is given. *)
Theorem cleanName_laws (s : string) :
  allChars isNameChar (cleanName s) = true /\
  cleanName (cleanName s) = cleanName s /\
  toLowerCase (cleanName s) = cleanName s /\
  String.length (cleanName s) <= String.length s /\
  (forall c, checkDomain s = inr c <-> 3 <= String.length s /\ c = cleanName s) /\
  (forall c, registerDomain (Some s) = inr c <-> s <> "" /\ c = cleanName s).
Proof.
  assert (Hall : allChars isNameChar (cleanName s) = true)
    by apply keepNameChars_all.
  split; [exact Hall|]. split.
  { unfold cleanName at 1.
    rewrite (toLowerCase_fixed _ Hall). now apply keepNameChars_fixed. }
  split; [now apply toLowerCase_fixed|]. split.
  { unfold cleanName. rewrite <- (toLowerCase_length s).
    apply keepNameChars_length. }
  split.
  - intros c. unfold checkDomain.
    destruct (Nat.ltb_spec (String.length s) 3).
    + split; [discriminate|]. intros [H' _]. lia.
    + split; [intros [= <-]; now split|intros [_ ->]; reflexivity].
  - intros c. unfold registerDomain.
    destruct (String.eqb_spec s "").
    + split; [discriminate|]. now intros [H' _].
    + split; [intros [= <-]; now split|intros [_ ->]; reflexivity].
Qed.

Example checkDomain_short :
  checkDomain "ab" = inl "Domain must be at least 3 characters." /\
  checkDomain "My App!" = inr "myapp" /\
  checkDomain "a!!" = inr "a" /\
  checkDomain "!!!" = inr "".
Proof. repeat split; reflexivity. Qed.

End PreloadFacts.

(** ** The bookmarks file *)
Module BookmarksFacts.
Import Json Bookmarks.
Local Open Scope list_scope.

Lemma find_url_none (l : list Bookmark) (u : string) :
  ~ In u (map url l) -> find (fun b => String.eqb (url b) u) l = None.
Proof.
  induction l as [|b l IH]; simpl; [reflexivity|]. intros H.
  destruct (String.eqb_spec (url b) u) as [E|E].
  - exfalso. apply H. now left.
  - apply IH. intros Hin. apply H. now right.
Qed.

Lemma find_url_some (l : list Bookmark) (u : string) :
  In u (map url l) -> exists b, find (fun b => String.eqb (url b) u) l = Some b.
Proof.
  induction l as [|b l IH]; simpl; [intros []|]. intros H.
  destruct (String.eqb_spec (url b) u) as [E|E]; [now exists b|].
  destruct H as [H|H]; [contradiction|now apply IH].
Qed.

Lemma with_children_same (f : File) : with_children (children f) f = f.
Proof. now destruct f. Qed.

Lemma removeFirst_split (l1 l2 : list Bookmark) (x : Bookmark) :
  ~ In (id x) (map id l1) ->
  removeFirst (id x) (l1 ++ x :: l2) = l1 ++ l2.
Proof.
  induction l1 as [|b l1 IH]; simpl; intros H.
  - now rewrite String.eqb_refl.
  - destruct (String.eqb_spec (id b) (id x)) as [E|E].
    + exfalso. apply H. now left.
    + f_equal. apply IH. intros Hin. apply H. now right.
Qed.

Lemma first_with_id (l : list Bookmark) (bookmarkId : string) :
  In bookmarkId (map id l) ->
  exists l1 x l2, l = l1 ++ x :: l2 /\ id x = bookmarkId /\
                  ~ In bookmarkId (map id l1).
Proof.
  induction l as [|b l IH]; simpl; [intros []|]. intros H.
  destruct (String.eqb_spec (id b) bookmarkId) as [E|E].
  - exists [], b, l. simpl. now repeat split.
  - destruct H as [H|H]; [contradiction|].
    destruct (IH H) as (l1 & x & l2 & -> & Hx & Hn).
    exists (b :: l1), x, l2. simpl. repeat split; [exact Hx|].
    intros [H'|H']; [contradiction|now apply Hn].
Qed.

Lemma existsb_id (l : list Bookmark) (bookmarkId : string) :
  existsb (fun b => String.eqb (id b) bookmarkId) l = true <->
  In bookmarkId (map id l).
Proof.
  rewrite existsb_exists, in_map_iff. split.
  - intros (b & Hin & E). apply String.eqb_eq in E. now exists b.
  - intros (b & E & Hin). exists b. split; [exact Hin|now apply String.eqb_eq].
Qed.

(** X17. Adding never makes two bookmarks of one address: an address that is
    already bookmarked is refused and the file is left as it is, and after
    any call the addresses are still distinct. *)
Theorem addBookmark_keeps_urls_distinct
        (disk : Disk) (t1 t2 : Z) (u : string) (title : option string) :
  (In u (urls disk) ->
   addBookmark disk t1 t2 u title
   = (JObj [("success", JBool false);
            ("message", JStr "Already bookmarked")]%string, disk)) /\
  (NoDup (urls disk) -> NoDup (urls (snd (addBookmark disk t1 t2 u title)))).
Proof.
  unfold urls. split.
  - intros Hin. destruct disk as [|m|f]; simpl in *; try contradiction.
    unfold addTo. destruct (find_url_some _ _ Hin) as [b ->]. reflexivity.
  - intros Hnd.
    assert (Hadd : forall f, NoDup (map url (children f)) ->
                   NoDup (map url (children (getBookmarks
                            (snd (addTo f t1 t2 u title)))))).
    { intros f Hf. unfold addTo.
      destruct (find _ (children f)) eqn:E; [exact Hf|].
      simpl. rewrite map_app. simpl.
      apply NoDup_app; [exact Hf|repeat constructor; intros []|].
      intros x Hx [<-|[]].
      apply in_map_iff in Hx. destruct Hx as (b & Eb & Hb).
      apply (find_none _ _ E) in Hb. simpl in Hb.
      rewrite Eb, String.eqb_refl in Hb. discriminate. }
    destruct disk as [|m|f]; simpl; [apply (Hadd emptyFile); constructor
                                    |constructor|now apply Hadd].
Qed.

(** X18. Adding an address that is not bookmarked, on a disk that can be read,
    appends one entry to the bar: it carries the address, is named by the
    title, or by the address when the title is absent or empty, and takes
    the first reading of the clock as its identifier. *)
Theorem addBookmark_appends
        (disk : Disk) (t1 t2 : Z) (u : string) (title : option string) :
  ~ In u (urls disk) -> (forall m, disk <> Unreadable m) ->
  fst (addBookmark disk t1 t2 u title) = JObj [("success", JBool true)]%string /\
  getBookmarks (snd (addBookmark disk t1 t2 u title))
  = with_children (children (getBookmarks disk)
                   ++ [bookmarkEntry t1 t2 u title]) (getBookmarks disk) /\
  url (bookmarkEntry t1 t2 u title) = u /\
  id (bookmarkEntry t1 t2 u title) = toString t1 /\
  name (bookmarkEntry t1 t2 u title)
  = match title with
    | Some t => if String.eqb t "" then u else t
    | None => u
    end.
Proof.
  unfold urls. intros Hnew Hread.
  assert (Hadd : forall f, ~ In u (map url (children f)) ->
                 addTo f t1 t2 u title
                 = (JObj [("success", JBool true)]%string,
                    Stored (with_children
                              (children f ++ [bookmarkEntry t1 t2 u title]) f))).
  { intros f Hf. unfold addTo. now rewrite (find_url_none _ _ Hf). }
  destruct disk as [|m|f]; cbn [addBookmark getBookmarks] in *.
  - rewrite (Hadd emptyFile Hnew). now repeat split.
  - now elim (Hread m).
  - rewrite (Hadd f Hnew). now repeat split.
Qed.

(** X19. Removing by identifier takes out the first bookmark with that
    identifier and keeps the others in their order; when no bookmark has
    it, or there is no readable file, nothing is changed and the answer is
    not a success. *)
Theorem removeBookmark_first (disk : Disk) (bookmarkId : string) :
  (In bookmarkId (ids disk) ->
   exists f l1 x l2,
     disk = Stored f /\ children f = l1 ++ x :: l2 /\ id x = bookmarkId /\
     ~ In bookmarkId (map id l1) /\
     removeBookmark disk bookmarkId
     = (JObj [("success", JBool true)]%string,
        Stored (with_children (l1 ++ l2) f))) /\
  (~ In bookmarkId (ids disk) ->
   snd (removeBookmark disk bookmarkId) = disk /\
   json_get "success" (fst (removeBookmark disk bookmarkId))
   = Some (JBool false)).
Proof.
  unfold ids. split.
  - intros Hin. destruct disk as [|m|f]; simpl in Hin; try contradiction.
    destruct (first_with_id _ _ Hin) as (l1 & x & l2 & E & Hx & Hn).
    exists f, l1, x, l2. repeat split; try assumption.
    unfold removeBookmark. rewrite (proj2 (existsb_id _ _) Hin).
    rewrite E. subst bookmarkId. now rewrite removeFirst_split.
  - intros Hn. destruct disk as [|m|f]; simpl; try (now split).
    destruct (existsb _ (children f)) eqn:E; [|now split].
    apply existsb_id in E. contradiction.
Qed.

(** X20. Adding a bookmark and removing it by the identifier it was given
    gives back the bookmarks there were, provided no older bookmark has
    that identifier. *)
Theorem add_then_remove
        (disk : Disk) (t1 t2 : Z) (u : string) (title : option string) :
  ~ In u (urls disk) -> (forall m, disk <> Unreadable m) ->
  ~ In (toString t1) (ids disk) ->
  getBookmarks
    (snd (removeBookmark (snd (addBookmark disk t1 t2 u title)) (toString t1)))
  = getBookmarks disk.
Proof.
  unfold urls, ids. intros Hnew Hread Hid.
  assert (Hadd : forall f, ~ In u (map url (children f)) ->
                 ~ In (toString t1) (map id (children f)) ->
                 getBookmarks
                   (snd (removeBookmark (snd (addTo f t1 t2 u title))
                                        (toString t1))) = f).
  { intros f Hf Hi. unfold addTo. rewrite (find_url_none _ _ Hf).
    cbn [snd removeBookmark children with_children].
    assert (E : existsb (fun b => String.eqb (id b) (toString t1))
                        (children f ++ [bookmarkEntry t1 t2 u title]) = true).
    { apply existsb_id. rewrite map_app. apply in_or_app. right. now left. }
    rewrite E. cbn [snd getBookmarks].
    change (toString t1) with (id (bookmarkEntry t1 t2 u title)) at 1.
    rewrite removeFirst_split by exact Hi.
    rewrite app_nil_r. now destruct f. }
  destruct disk as [|m|f]; cbn [addBookmark getBookmarks] in *.
  - now apply (Hadd emptyFile).
  - now elim (Hread m).
  - now apply Hadd.
Qed.

End BookmarksFacts.

(** ** The origin policy *)
Module CorsFacts.
Import JsString JsStringFacts Cors.

Lemma listed_is_trusted (o : string) :
  includes allowedOrigins o = true ->
  startsWith o "electron://" || startsWith o "app://" = true.
Proof.
  intros H. unfold includes, allowedOrigins in H. simpl in H.
  rewrite orb_false_r in H. apply orb_true_iff in H.
  destruct H as [H|H]; apply String.eqb_eq in H; subst o; reflexivity.
Qed.

Lemma originAllowed_production (o : string) :
  originAllowed (Some "production") (Some o)
  = String.eqb o "" || trustedPrefix o.
Proof.
  unfold originAllowed, trustedPrefix. rewrite String.eqb_refl.
  pose proof (listed_is_trusted o) as HL.
  set (a := startsWith o "http://localhost") in *.
  set (b := startsWith o "virt://") in *.
  set (c := startsWith o "electron://") in *.
  set (d := startsWith o "app://") in *.
  set (i := includes allowedOrigins o) in *.
  destruct (String.eqb o ""), a, b, c, d; try reflexivity.
  destruct i; [|reflexivity]. simpl in HL. now rewrite HL.
Qed.

(** X21. In production a request is accepted exactly when it has no origin or
    its origin begins with one of four prefixes; the list of allowed
    origins adds nothing to them. Outside production every origin is
    accepted. *)
Theorem originAllowed_policy (NODE_ENV origin : option string) :
  (NODE_ENV = Some "production" ->
   (originAllowed NODE_ENV origin = true <->
    origin = None \/ origin = Some "" \/
    exists o, origin = Some o /\ trustedPrefix o = true)) /\
  (NODE_ENV <> Some "production" -> originAllowed NODE_ENV origin = true) /\
  (forall o, includes allowedOrigins o = true -> trustedPrefix o = true).
Proof.
  split; [|split].
  - intros ->. destruct origin as [o|]; [|split; [now left|reflexivity]].
    rewrite originAllowed_production, orb_true_iff, String.eqb_eq. split.
    + intros [->|H]; [now right; left|right; right; now exists o].
    + intros [H|[[= ->]|(o' & [= <-] & H)]];
        [discriminate|now left|now right].
  - intros Henv. unfold originAllowed.
    destruct origin as [o|]; [|reflexivity].
    destruct (String.eqb o ""); [reflexivity|].
    destruct (startsWith o "http://localhost"); [reflexivity|].
    destruct (startsWith o "virt://"); [reflexivity|].
    destruct (startsWith o "electron://" || startsWith o "app://");
      [reflexivity|].
    destruct NODE_ENV as [env|]; [|reflexivity].
    destruct (String.eqb_spec env "production") as [->|]; [|reflexivity].
    now elim Henv.
  - intros o H. apply listed_is_trusted in H. unfold trustedPrefix.
    rewrite <- orb_assoc, H. now rewrite orb_true_r.
Qed.

Example originAllowed_cases :
  originAllowed (Some "production") (Some "http://localhost.example.org") = true /\
  originAllowed (Some "production") (Some "https://example.org") = false /\
  originAllowed (Some "development") (Some "https://example.org") = true /\
  originAllowed None (Some "https://example.org") = true.
Proof. repeat split; reflexivity. Qed.

End CorsFacts.

(** ** More on the resolver client *)
Module ResolverLaws.
Import JsString JsStringFacts Json Resolver Contract ResolverFacts Shapes.

Lemma split_dot_cons (s : string) : exists h t, split_dot s = h :: t.
Proof.
  induction s as [|c s (h & t & IH)]; simpl; [now eexists _, _|].
  destruct (Ascii.eqb c "."); [now eexists _, _|].
  rewrite IH. now eexists _, _.
Qed.

Lemma concat_cons (c : ascii) (h : string) (t : list string) :
  String.concat "." (String c h :: t) = String c (String.concat "." (h :: t)).
Proof. destruct t; reflexivity. Qed.

Lemma split_dot_app (d r : string) :
  allChars noDot d = true -> split_dot (d ++ "." ++ r) = d :: split_dot r.
Proof.
  change ("." ++ r) with (String "." r).
  induction d as [|c d IH]; simpl; [reflexivity|]. intros H.
  apply andb_true_iff in H. destruct H as [Hc Hd].
  unfold noDot in Hc. apply negb_true_iff in Hc. rewrite Hc.
  now rewrite (IH Hd).
Qed.

Lemma split_dot_one (d : string) :
  allChars noDot d = true -> split_dot d = [d].
Proof.
  induction d as [|c d IH]; simpl; [reflexivity|]. intros H.
  apply andb_true_iff in H. destruct H as [Hc Hd].
  unfold noDot in Hc. apply negb_true_iff in Hc. rewrite Hc.
  now rewrite (IH Hd).
Qed.

(** X22. The handler splits the host name at its dots: joining the parts with
    dots gives the host name back, and when the name begins with two
    dot-free parts these are the label and the tag it looks up, whatever
    follows them. *)
Theorem split_dot_labels (hostname : string) :
  String.concat "." (split_dot hostname) = hostname /\
  (forall d t,
      allChars noDot d = true -> allChars noDot t = true ->
      (hostname = d ++ "." ++ t \/ exists rest, hostname = d ++ "." ++ t ++ "." ++ rest) ->
      nth 0 (split_dot hostname) "" = d /\ nth 1 (split_dot hostname) "" = t).
Proof.
  split.
  - induction hostname as [|c s IH]; [reflexivity|]. simpl.
    destruct (split_dot_cons s) as (h & t & E). rewrite E in *.
    destruct (Ascii.eqb_spec c ".") as [->|_].
    + change (String.concat "." ("" :: h :: t))
        with ("." ++ String.concat "." (h :: t)).
      now rewrite IH.
    + now rewrite concat_cons, IH.
  - intros d t Hd Ht [->|(rest & ->)].
    + rewrite (split_dot_app d t Hd), (split_dot_one t Ht). now split.
    + rewrite (split_dot_app d _ Hd), (split_dot_app t rest Ht). now split.
Qed.

(** The outcome a caller sees when the handler returns the promise [p]. *)
Lemma async_return {R : Type} (p : Settled R) :
  async (Return p) = match p with
                     | Fulfilled r => Fulfilled (Some r)
                     | Rejected err => Rejected err
                     end.
Proof. now destruct p. Qed.

(** X23. A lookup that does not give a usable answer ends in the document for
    a name that is not registered: when the request to the registrar is
    rejected, when it is answered with a status outside 200-299, and when
    the body of the answer is not JSON. *)
Theorem lookup_failure_falls_back
        (w : World) (hostname pathname domain tld : string) :
  registrable hostname domain tld -> pathname <> "/favicon.ico" ->
  ((exists err, fetch w (lookupUrl domain tld) = Rejected err) \/
   (exists r, fetch w (lookupUrl domain tld) = Fulfilled r /\ ok r = false) \/
   (exists r, fetch w (lookupUrl domain tld) = Fulfilled r /\
              parse w (text r) = None)) ->
  handle w hostname pathname = Fulfilled (Some (notRegisteredPage hostname)).
Proof.
  intros Hreg Hp Hcase.
  rewrite (handle_registrable w hostname pathname domain tld Hreg Hp).
  destruct Hcase as [(err & ->)|[(r & -> & Hok)|(r & -> & Hparse)]].
  - reflexivity.
  - cbn [await]. now rewrite Hok.
  - cbn [await]. destruct (ok r); [|reflexivity].
    unfold json_of. now rewrite Hparse.
Qed.

(** X24. For a path other than [/favicon.ico]: when the lookup succeeds and
    the fetch of the target is fulfilled, the handler answers with the
    response of the target itself: status, media type and text are those
    the target sent. *)
Theorem target_answer_verbatim
        (w : World) (hostname pathname domain tld : string)
        (dnsResponse answer : HttpResponse) (siteData : json)
        (target : option json) :
  registrable hostname domain tld -> pathname <> "/favicon.ico" ->
  fetch w (lookupUrl domain tld) = Fulfilled dnsResponse ->
  ok dnsResponse = true ->
  parse w (text dnsResponse) = Some siteData ->
  targetOf siteData = inr target ->
  net_fetch w target = Fulfilled answer ->
  handle w hostname pathname = Fulfilled (Some answer).
Proof.
  intros Hreg Hp Hdns Hok Hparse Htarget Hfetch.
  rewrite (handle_after_lookup w hostname pathname domain tld dnsResponse
             siteData target Hreg Hp Hdns Hok Hparse Htarget).
  now rewrite Hfetch.
Qed.

(** X25. A host name without a label or without a tag around its first dot is
    never looked up: whatever the network does, the handler answers with
    the document for a name that is not registered. *)
Theorem unnamed_host_not_looked_up
        (w : World) (hostname pathname : string) :
  hostname <> "register.at" -> hostname <> "lookin.at" ->
  hostname <> "v12browser.vc" -> pathname <> "/favicon.ico" ->
  nth 0 (split_dot hostname) "" = "" \/ nth 1 (split_dot hostname) "" = "" ->
  handle w hostname pathname = Fulfilled (Some (notRegisteredPage hostname)).
Proof.
  intros H1 H2 H3 Hp Hparts. unfold handle.
  rewrite (eqb_false _ _ Hp), (eqb_false _ _ H1), (eqb_false _ _ H2),
    (eqb_false _ _ H3).
  cbn [seq].
  destruct Hparts as [-> | ->]; [reflexivity|].
  rewrite String.eqb_refl. now rewrite andb_false_r.
Qed.

End ResolverLaws.

(** ** The laws on concrete requests *)
Module MoreScenarios.
Import JsString Json Store Registrar Fixtures Samples.
Import RegistrarLaws RewriteLaws ShapeFacts ShellFacts PreloadFacts.
Import BookmarksFacts CorsFacts ResolverLaws.
Local Open Scope list_scope.

Ltac differ := let H := fresh in intros H; vm_compute in H; discriminate H.

Lemma routes_keep_wellFormed_witness :
  wellFormed (snd (register testExternals oneSite laterEnv
                     (registration "other" "at" "https://example.org"))) /\
  wellFormed (snd (delete testExternals oneSite rightKeyDelete)).
Proof.
  destruct (routes_keep_wellFormed testExternals oneSite
              Scenarios.oneSite_wellFormed) as (Hr & _ & Hd & _).
  split; [apply Hr|apply Hd].
Defined.

Lemma refusals_leave_store_witness :
  snd (update testExternals oneSite laterEnv wrongKeyUpdate) = oneSite /\
  snd (lookup oneSite laterEnv "other" "vc") = oneSite.
Proof.
  destruct (refusals_leave_store testExternals oneSite)
    as (_ & Hu & _ & Hl & _).
  split; [apply Hu|apply Hl]; vm_compute; lia.
Defined.

Lemma register_twice_conflict_witness :
  register testExternals oneSite laterEnv shouted
  = (fail 409 "Domain already registered", oneSite) /\
  register testExternals
           (snd (register testExternals [] testEnv
                   (registration smallLabel "vc" "https://example.org")))
           laterEnv (registration capitalLabel "vc" "https://example.com")
  = (fail 409 "Domain already registered",
     snd (register testExternals [] testEnv
            (registration smallLabel "vc" "https://example.org"))).
Proof.
  split.
  - apply (register_twice_conflict testExternals [] oneSite testEnv laterEnv
             (registration "myapp" "vc" "https://github.com/u/r") shouted
             {| status := 201; body := registered "myapp" "vc" oneSiteKey |});
      reflexivity.
  - apply (register_twice_conflict testExternals [] _ testEnv laterEnv
             (registration smallLabel "vc" "https://example.org")
             (registration capitalLabel "vc" "https://example.com")
             {| status := 201; body := registered smallLabel "vc" oneSiteKey |});
      reflexivity.
Defined.

Lemma check_agrees_with_register_witness :
  status (fst (register testExternals oneSite laterEnv shouted)) = 409.
Proof.
  apply (proj1 (check_agrees_with_register testExternals oneSite laterEnv
                  shouted eq_refl eq_refl eq_refl eq_refl)).
  reflexivity.
Defined.

Lemma delete_then_lookup_witness :
  lookup [] laterEnv "myapp" "vc" = (fail 404 "Domain not found", []).
Proof.
  destruct (delete_then_lookup testExternals oneSite [] laterEnv rightKeyDelete
              (fst (delete testExternals oneSite rightKeyDelete))
              Scenarios.oneSite_wellFormed eq_refl eq_refl) as (_ & H & _).
  exact H.
Defined.

Lemma update_then_lookup_witness :
  json_get "target"
    (body (fst (lookup (snd (update testExternals oneSite laterEnv retarget))
                       laterEnv "myapp" "vc")))
  = Some (JStr "https://example.org").
Proof.
  assert (Hnd : NoDup (map _id oneSite))
    by (vm_compute; repeat constructor; intros []).
  destruct (update_then_lookup testExternals oneSite
              (snd (update testExternals oneSite laterEnv retarget))
              laterEnv laterEnv retarget
              (fst (update testExternals oneSite laterEnv retarget))
              Hnd eq_refl eq_refl) as (site & _ & H & _).
  reflexivity.
Defined.

Lemma lookup_touches_lastAccessed_witness :
  exists l1 site l2,
    oneSite = l1 ++ site :: l2 /\
    snd (lookup oneSite laterEnv "myapp" "vc")
    = l1 ++ with_lastAccessed (now laterEnv) site :: l2.
Proof.
  assert (Hnd : NoDup (map _id oneSite))
    by (vm_compute; repeat constructor; intros []).
  destruct (lookup_touches_lastAccessed oneSite
              (snd (lookup oneSite laterEnv "myapp" "vc")) laterEnv
              "myapp" "vc" (fst (lookup oneSite laterEnv "myapp" "vc"))
              Hnd eq_refl) as (H & _).
  destruct (H eq_refl) as (l1 & site & l2 & _ & H1 & H2).
  now exists l1, site, l2.
Defined.

Lemma register_then_delete_witness :
  delete testExternals oneSite rightKeyDelete
  = (ok (JObj [("success", JBool true);
               ("message", JStr "Domain deleted successfully")]%string), []).
Proof.
  destruct (register_then_delete testExternals [] oneSite testEnv
              (registration "myapp" "vc" "https://github.com/u/r")
              {| status := 201; body := registered "myapp" "vc" oneSiteKey |}
              eq_refl eq_refl eq_refl) as (_ & H).
  exact H.
Defined.

Lemma lookup_case_insensitive_witness :
  (exists site db2,
     lookup oneSite laterEnv "MyApp" "vc" = (ok (lookupView site), db2) /\
     json_get "domain" (lookupView site) = Some (JStr "myapp") /\
     json_get "target" (lookupView site)
     = Some (JStr "https://github.com/u/r")) /\
  json_get "available" (body (fst (check oneSite "MyApp" (Some "vc"%string))))
  = Some (JBool false) /\
  (exists site db2,
     lookup (snd (register testExternals [] testEnv
                    (registration smallLabel "vc" "https://example.org")))
            laterEnv capitalLabel "vc"
     = (ok (lookupView site), db2) /\
     json_get "domain" (lookupView site) = Some (JStr smallLabel)).
Proof.
  destruct (lookup_case_insensitive testExternals [] oneSite testEnv laterEnv
              (registration "myapp" "vc" "https://github.com/u/r")
              {| status := 201; body := registered "myapp" "vc" oneSiteKey |}
              "MyApp" eq_refl eq_refl eq_refl)
    as ((site & db2 & Hl & Hd & _ & Hg) & Hc & _).
  destruct (lookup_case_insensitive testExternals []
              (snd (register testExternals [] testEnv
                      (registration smallLabel "vc" "https://example.org")))
              testEnv laterEnv
              (registration smallLabel "vc" "https://example.org")
              {| status := 201; body := registered smallLabel "vc" oneSiteKey |}
              capitalLabel eq_refl eq_refl eq_refl)
    as ((site' & db2' & Hl' & Hd' & _) & _).
  split; [|split; [exact Hc|]].
  - exists site, db2. split; [exact Hl|]. split; [exact Hd|exact Hg].
  - exists site', db2'. split; [exact Hl'|exact Hd'].
Defined.

Lemma targetValidator_shape_witness :
  "10.0.0.1:8080"%string <> ""%string.
Proof.
  apply (proj2 (targetValidator_shape "10.0.0.1:8080") eq_refl).
Defined.

Lemma secretKeyOf_shape_witness : String.length (secretKeyOf testEnv) = 20.
Proof. apply (secretKeyOf_shape testEnv eq_refl). Defined.

Lemma navigate_agrees_with_guard_witness :
  Shell.contentsWillNavigate "virt://abc.vc" = true.
Proof.
  apply (proj2 (proj2 (proj2 (navigate_agrees_with_guard "virt://abc.vc")))).
  reflexivity.
Defined.

Lemma navigation_tests_shape_witness :
  Preload.test Preload.wordLike "example.com" = true.
Proof.
  apply (proj2 (proj2 (navigation_tests_shape "example.com"))). reflexivity.
Defined.

Lemma navigateToUrl_sends_witness :
  Shell.navigate "https://youtube.com"
  = (Some "https://youtube.com"%string, Shell.loaded "https").
Proof.
  destruct (navigateToUrl_sends " youtube " "https://youtube.com" eq_refl)
    as (_ & _ & H & _).
  apply H. reflexivity.
Defined.

Lemma navigateToUrl_refuses_witness :
  Preload.navigateToUrl "javascript:alert(1)" = inl "Invalid URL format"%string.
Proof.
  apply (proj2 (navigateToUrl_refuses "javascript:alert(1)"));
    [differ|reflexivity|reflexivity|reflexivity].
Defined.

Lemma addBookmark_keeps_urls_distinct_witness :
  Bookmarks.addBookmark oneBookmark 1767229200000 1767229200000
                        "virt://myapp.vc" None
  = (JObj [("success", JBool false);
           ("message", JStr "Already bookmarked")]%string, oneBookmark).
Proof.
  apply (proj1 (addBookmark_keeps_urls_distinct oneBookmark 1767229200000
                  1767229200000 "virt://myapp.vc" None)).
  vm_compute. now left.
Defined.

Lemma addBookmark_appends_witness :
  map Bookmarks.name (Bookmarks.children (Bookmarks.getBookmarks oneBookmark))
  = ["My app"%string].
Proof.
  destruct (addBookmark_appends Bookmarks.Missing 1767225600000 1767225600001
              "virt://myapp.vc" (Some "My app"%string))
    as (_ & H & _).
  - intros [].
  - discriminate.
  - unfold oneBookmark. rewrite H. reflexivity.
Defined.

Lemma removeBookmark_first_witness :
  snd (Bookmarks.removeBookmark oneBookmark "nothing") = oneBookmark.
Proof.
  apply (proj2 (removeBookmark_first oneBookmark "nothing")).
  vm_compute. intros [H|[]]. discriminate H.
Defined.

Lemma add_then_remove_witness :
  Bookmarks.getBookmarks
    (snd (Bookmarks.removeBookmark oneBookmark "1767225600000"))
  = Bookmarks.emptyFile.
Proof.
  apply (add_then_remove Bookmarks.Missing 1767225600000 1767225600001
           "virt://myapp.vc" (Some "My app"%string)).
  - intros [].
  - discriminate.
  - intros [].
Defined.

Lemma originAllowed_policy_witness :
  Cors.originAllowed (Some "development"%string) (Some "https://example.org"%string)
  = true.
Proof.
  apply (proj1 (proj2 (originAllowed_policy (Some "development"%string)
                         (Some "https://example.org"%string)))).
  discriminate.
Defined.

Lemma split_dot_labels_witness :
  nth 0 (split_dot "sub.myapp.vc") ""%string = "sub"%string /\
  nth 1 (split_dot "sub.myapp.vc") ""%string = "myapp"%string.
Proof.
  apply (proj2 (split_dot_labels "sub.myapp.vc") "sub" "myapp")%string;
    [reflexivity|reflexivity|].
  right. now exists "vc"%string.
Defined.

Lemma other_registrable : Contract.registrable "other.vc" "other" "vc".
Proof. unfold Contract.registrable. repeat split; discriminate. Qed.

Lemma myapp_registrable : Contract.registrable "myapp.vc" "myapp" "vc".
Proof. unfold Contract.registrable. repeat split; discriminate. Qed.

Lemma lookup_failure_falls_back_witness :
  Resolver.handle targetDown "other.vc" "/"
  = Resolver.Fulfilled (Some (Resolver.notRegisteredPage "other.vc")).
Proof.
  apply (lookup_failure_falls_back targetDown "other.vc" "/" "other" "vc"
           other_registrable).
  - discriminate.
  - left. now eexists.
Defined.

Lemma target_answer_verbatim_witness :
  Resolver.handle targetUp "myapp.vc" "/"
  = Resolver.Fulfilled (Some targetPage).
Proof.
  apply (target_answer_verbatim targetUp "myapp.vc" "/" "myapp" "vc"
           {| Resolver.status := 200;
              Resolver.contentType := Some "application/json"%string;
              Resolver.text := lookupAnswer |}
           targetPage
           (JObj [("target", JStr "https://example.com/")]%string)
           (Some (JStr "https://example.com/")) myapp_registrable);
    [discriminate|reflexivity..].
Defined.

Lemma unnamed_host_not_looked_up_witness :
  Resolver.handle targetUp "localhost" "/"
  = Resolver.Fulfilled (Some (Resolver.notRegisteredPage "localhost")).
Proof.
  apply (unnamed_host_not_looked_up targetUp "localhost" "/");
    [discriminate..|now right].
Defined.

Lemma register_free_label_then_lookup_witness :
  exists db1 site db2,
    register testExternals oneSite laterEnv
             (registration "other" "at" "https://github.com/u/r/blob/main/")
    = ({| status := 201;
          body := registered "other" "at" (secretKeyOf laterEnv) |}, db1) /\
    lookup db1 laterEnv "other" "at" = (ok (lookupView site), db2) /\
    json_get "target" (lookupView site)
    = Some (JStr "https://github.com/u/r/blob/main/") /\
    json_get "rawBase" (lookupView site)
    = Some (JStr "https://raw.githubusercontent.com/u/r/main/").
Proof.
  destruct (register_free_label_then_lookup testExternals oneSite
              laterEnv laterEnv "other" "at"
              "https://github.com/u/r/blob/main/" None None)
    as (db1 & site & db2 & Hr & Hl & Hg & Hb & _).
  - simpl. lia.
  - reflexivity.
  - reflexivity.
  - reflexivity.
  - reflexivity.
  - differ.
  - simpl. intros [H|[]]. discriminate H.
  - exists db1, site, db2. split; [exact Hr|]. split; [exact Hl|].
    split; [exact Hg|exact Hb].
Defined.

Lemma rawBaseOf_shape_witness :
  rawBaseOf "https://github.com/u/r/blob/main/"
  = "https://raw.githubusercontent.com/u/r/main/"%string /\
  rawBaseOf "https://github.com/u/r"
  = "https://raw.githubusercontent.com/u/r/"%string /\
  rawBaseOf "https://example.com" = "https://example.com"%string.
Proof.
  destruct (rawBaseOf_shape "https://github.com/u/r/blob/main/") as (_ & H1).
  destruct (H1 "/u/r/blob/main/"%string eq_refl eq_refl) as (_ & _ & Hb).
  destruct (rawBaseOf_shape "https://github.com/u/r") as (_ & H2).
  destruct (H2 "/u/r"%string eq_refl eq_refl) as (_ & Hn & _).
  destruct (rawBaseOf_shape "https://example.com") as (H3 & _).
  split; [|split].
  - exact (Hb "/u/r"%string "main/"%string eq_refl eq_refl).
  - exact (Hn eq_refl).
  - exact (H3 eq_refl).
Defined.

End MoreScenarios.
